(** * bcpandas: the load orchestration of [to_sql] (src/bcpandas/main.py)

    A shallow embedding of [to_sql] and of the two helpers of main.py it
    calls ([_sql_item_exists], [_create_table]).  The Python function runs
    against four kinds of mutable state: the objects of the interpreter (the
    data frames), the files of the temporary directory, the tables of the
    database and the external [bcp] process.  They are gathered in one
    [World]; every statement of [to_sql] is a step of a state-and-exception
    monad over it, and every call that leaves the function is also recorded
    in a trace of [Event]s.  The class of the credentials, [SqlCreds], is
    embedded on its own, as functions on strings. *)

From stdpp Require Import base option list strings pretty gmap.
From Stdlib Require Import ZArith Lia.

Open Scope string_scope.
Open Scope Z_scope.
Open Scope list_scope.

Set Warnings "-clear-no-such-hyp".

(** ** Data frames *)

(** A column label: pandas allows labels that are not strings, [to_sql]
    turns them into strings with [str(x)] where it talks to the database. *)
Inductive Label :=
| LStr (s : string)
| LInt (z : Z).

#[global] Instance Label_eq_dec : EqDecision Label.
Proof. solve_decision. Defined.

Definition py_str_label (x : Label) : string :=
  match x with
  | LStr s => s
  | LInt z => pretty z
  end.

(** A cell value.  [COther] is a value of a type with no role in [to_sql]
    (float, datetime, decimal), kept as the text [to_csv] prints for it. *)
Inductive Cell :=
| CNull
| CBool (b : bool)
| CInt (z : Z)
| CStr (s : string)
| COther (text : string).

#[global] Instance Cell_eq_dec : EqDecision Cell.
Proof. solve_decision. Defined.

(** The semantic type of a column (its dtype). *)
Inductive SemType := TText | TInteger | TFloat | TBoolean | TDatetime | TDecimal.

#[global] Instance SemType_eq_dec : EqDecision SemType.
Proof. solve_decision. Defined.

(** A [pandas.DataFrame] with a single-level row index.  [data] holds the
    rows, [index] one value per row. *)
Record DataFrame := mkDataFrame {
  columns : list Label;
  dtypes : list SemType;
  index_name : option Label;
  index_dtype : SemType;
  index : list Cell;
  data : list (list Cell);
}.

#[global] Instance DataFrame_eq_dec : EqDecision DataFrame.
Proof. solve_decision. Defined.

(** [df.shape] *)
Definition shape0 (df : DataFrame) : nat := length (index df).
Definition shape1 (df : DataFrame) : nat := length (columns df).

(** [df.columns.has_duplicates] *)
Fixpoint has_duplicates (l : list Label) : bool :=
  match l with
  | [] => false
  | x :: r => bool_decide (x ∈ r) || has_duplicates r
  end.

(** [df.columns[df.columns.duplicated(keep=False)]]: every label that occurs
    more than once, at each of its positions. *)
Definition duplicated_labels (l : list Label) : list Label :=
  filter (fun x => (2 <= length (filter (fun y => y = x) l))%nat) l.

(** ** The pandas operations [to_sql] calls *)

(** The label [reset_index] gives the column made from the index: the name of
    the index or, for an unnamed one, ["index"], and ["level_0"] when a
    column ["index"] is already there. *)
Definition reset_index_label (df : DataFrame) : Label :=
  match index_name df with
  | Some n => n
  | None =>
      if bool_decide (LStr "index" ∈ columns df) then LStr "level_0"
      else LStr "index"
  end.

(** [RangeIndex(n)] *)
Definition range_index (n : nat) : list Cell :=
  map (fun i => CInt (Z.of_nat i)) (seq 0 n).

(** [df.reset_index()]: the index becomes the first column, a new default
    index takes its place; [None] when pandas refuses because the label is
    already a column. *)
Definition reset_index (df : DataFrame) : option DataFrame :=
  let name := reset_index_label df in
  if bool_decide (name ∈ columns df) then None
  else Some {| columns := name :: columns df;
               dtypes := index_dtype df :: dtypes df;
               index_name := None;
               index_dtype := TInteger;
               index := range_index (length (index df));
               data := zip_with cons (index df) (data df) |}.

(** [df.replace({True: 1, False: 0})] on one cell, on one dtype and on the
    frame. *)
Definition replace_bool (c : Cell) : Cell :=
  match c with
  | CBool true => CInt 1
  | CBool false => CInt 0
  | _ => c
  end.

Definition replace_bool_dtype (t : SemType) : SemType :=
  match t with
  | TBoolean => TInteger
  | _ => t
  end.

Definition replace_bools (df : DataFrame) : DataFrame :=
  {| columns := columns df;
     dtypes := map replace_bool_dtype (dtypes df);
     index_name := index_name df;
     index_dtype := index_dtype df;
     index := index df;
     data := map (map replace_bool) (data df) |}.

(** The text [to_csv] writes for one cell, before quoting: a missing value
    is written as [na_rep], whose default is the empty string. *)
Definition csv_field (c : Cell) : string :=
  match c with
  | CNull => EmptyString
  | CBool true => "True"
  | CBool false => "False"
  | CInt z => pretty z
  | CStr s => s
  | COther text => text
  end.

(** What [to_csv] puts in the flat file: the dialect it was called with and
    the records, one per row, each a list of fields. *)
Inductive Quoting := QUOTE_MINIMAL | QUOTE_ALL | QUOTE_NONNUMERIC | QUOTE_NONE.

Record CsvFile := mkCsvFile {
  csv_sep : string;
  csv_header : bool;
  csv_index : bool;
  csv_quoting : Quoting;
  csv_quotechar : string;
  csv_line_terminator : string;
  csv_records : list (list string);
}.

(** [df.to_csv(sep=.., header=False, index=False, quoting=.., quotechar=..,
    line_terminator=..)] *)
Definition to_csv (df : DataFrame) (sep : string) (quoting : Quoting)
    (quotechar line_terminator : string) : CsvFile :=
  {| csv_sep := sep;
     csv_header := false;
     csv_index := false;
     csv_quoting := quoting;
     csv_quotechar := quotechar;
     csv_line_terminator := line_terminator;
     csv_records := map (map csv_field) (data df) |}.

(** ** The format file *)

(** One record of the format file. *)
Record FieldDescriptor := mkField {
  file_ordinal : Z;
  destination_ordinal : Z;
  terminator_bytes : string;
  type_tag : string;
  source_column_name : string;
}.

Definition FormatFileModel := list FieldDescriptor.

(** ** Exceptions *)

(** The messages of the [BCPandasValueError]s of [to_sql], with the values
    the f-strings put in them. *)
Inductive Message :=
| MsgDuplicateColumns (duplicates : list Label)
| MsgBatchSizeZero
| MsgBatchSizeTooLarge
| MsgExtraColumns (extra_cols : list string)
| MsgAlreadyExists (sql_type schema table_name : string).

Inductive Exception :=
| AssertionError (msg : string)
| BCPandasValueError (msg : Message)
| ValueError (msg : string)
| KeyError (key : string)
| FileNotFoundError (path : string)
| OSError (path : string)
| DatabaseError (statement : string)
| SelectorError (e : string)
| BcpFailed.

Inductive Result (A : Type) :=
| Ok (a : A)
| Raise (e : Exception).
Arguments Ok {A} a.
Arguments Raise {A} e.

(** ** The world [to_sql] runs in *)

(** The arguments of one call of [bcp] ([creds] apart: the database of the
    world is the one the credentials lead to). *)
Record BcpArgs := mkBcpArgs {
  bcp_sql_item : string;
  bcp_direction : string;
  bcp_flat_file : string;
  bcp_format_file_path : string;
  bcp_sql_type : string;
  bcp_schema : string;
  bcp_batch_size : option Z;
  bcp_bcp_path : option string;
  bcp_error_file_path : string;
}.

(** What a file of the temporary directory holds. *)
Inductive FileContent :=
| FlatFile (csv : CsvFile)
| FormatFile (fmt : FormatFileModel).

(** The calls that leave [to_sql], in the order they are made.  A call is
    recorded when it is made, whether it then succeeds or raises. *)
Inductive Event :=
| EvGetDelimiter (df : DataFrame)
| EvGetQuotechar (df : DataFrame)
| EvWriteCsv (path : string) (csv : CsvFile)
| EvQueryExists (sql_type schema table_name : string)
| EvQueryColumns (schema table_name : string)
| EvWriteFormat (path : string) (fmt : FormatFileModel)
| EvDropTable (schema table_name : string)
| EvCreateTable (schema table_name : string) (cols : list string)
| EvBcp (args : BcpArgs)
| EvRemove (path : string).

(** The external calls that fail in this run: each raises when it is made. *)
Record Faults := mkFaults {
  csv_write_fails : bool;
  exists_query_fails : bool;
  columns_query_fails : bool;
  format_write_fails : bool;
  create_table_fails : bool;
  bcp_fails : bool;
}.

Definition no_faults : Faults := mkFaults false false false false false false.

(** - [frames]: the data frame objects of the interpreter, by reference;
    - [files]: the files of the temporary directory, by path;
    - [tables]: the tables of the database, by schema and name, each with its
      columns and their [ORDINAL_POSITION];
    - [temp_count]: how many temporary paths were handed out;
    - [trace]: the calls made so far. *)
Record World := mkWorld {
  frames : gmap nat DataFrame;
  files : gmap string FileContent;
  tables : gmap (string * string) (list (string * Z));
  temp_count : nat;
  faults : Faults;
  trace : list Event;
}.

Definition set_frames (f : gmap nat DataFrame) (w : World) : World :=
  mkWorld f (files w) (tables w) (temp_count w) (faults w) (trace w).
Definition set_files (f : gmap string FileContent) (w : World) : World :=
  mkWorld (frames w) f (tables w) (temp_count w) (faults w) (trace w).
Definition set_tables (t : gmap (string * string) (list (string * Z)))
    (w : World) : World :=
  mkWorld (frames w) (files w) t (temp_count w) (faults w) (trace w).
Definition set_temp_count (n : nat) (w : World) : World :=
  mkWorld (frames w) (files w) (tables w) n (faults w) (trace w).
Definition log (ev : Event) (w : World) : World :=
  mkWorld (frames w) (files w) (tables w) (temp_count w) (faults w)
    (trace w ++ [ev]).

(** ** The monad of statements: state and exceptions *)

Definition M (A : Type) : Type := World -> Result A * World.

Definition ret {A} (a : A) : M A := fun w => (Ok a, w).
Definition raise {A} (e : Exception) : M A := fun w => (Raise e, w).
Definition bind {A B} (m : M A) (f : A -> M B) : M B :=
  fun w =>
    match m w with
    | (Ok a, w') => f a w'
    | (Raise e, w') => (Raise e, w')
    end.

Notation "x <- m ;; k" := (bind m (fun x => k))
  (at level 100, m at next level, right associativity).
Notation "m ;;; k" := (bind m (fun _ => k))
  (at level 100, right associativity).

(** [try: body finally: handler].  The handler runs on every way out of the
    body; an exception of the handler replaces the outcome of the body. *)
Definition try_finally {A} (body : M A) (handler : M unit) : M A :=
  fun w =>
    match body w with
    | (r, w') =>
        match handler w' with
        | (Ok _, w'') => (r, w'')
        | (Raise e, w'') => (Raise e, w'')
        end
    end.

(** [assert cond, msg] *)
Definition py_assert (cond : bool) (msg : string) : M unit :=
  if cond then ret tt else raise (AssertionError msg).

Definition emit (ev : Event) : M unit := fun w => (Ok tt, log ev w).

Definition lift_result {A} (r : Result A) : M A := fun w => (r, w).

(** *** Objects *)

(** Reading the object a reference points to. *)
Definition get_frame (l : nat) : M DataFrame :=
  fun w =>
    match frames w !! l with
    | Some d => (Ok d, w)
    | None => (Raise (ValueError "dangling reference"), w)
    end.

(** A new object, at a reference not in use. *)
Definition new_frame (d : DataFrame) : M nat :=
  fun w =>
    let l := fresh (dom (frames w)) in
    (Ok l, set_frames (<[l := d]> (frames w)) w).

(** [df.copy(deep=True)], [df.reset_index()] and [df.replace(..)] each
    return a new object and leave [df] alone. *)
Definition df_copy (l : nat) : M nat :=
  d <- get_frame l ;; new_frame d.

Definition df_reset_index (l : nat) : M nat :=
  d <- get_frame l ;;
  match reset_index d with
  | Some d' => new_frame d'
  | None =>
      raise (ValueError ("cannot insert " +:+ py_str_label (reset_index_label d)
                         +:+ ", already exists"))
  end.

Definition df_replace_bools (l : nat) : M nat :=
  d <- get_frame l ;; new_frame (replace_bools d).

(** *** Files *)

(** [df.to_csv(path_or_buf=path, ..)] *)
Definition df_to_csv (l : nat) (path sep : string) (quoting : Quoting)
    (quotechar line_terminator : string) : M unit :=
  d <- get_frame l ;;
  let csv := to_csv d sep quoting quotechar line_terminator in
  emit (EvWriteCsv path csv) ;;;
  fun w =>
    if csv_write_fails (faults w) then (Raise (OSError path), w)
    else (Ok tt, set_files (<[path := FlatFile csv]> (files w)) w).

(** [with open(path, "w") as ff: ff.write(txt)] *)
Definition write_format_file (path : string) (txt : FormatFileModel) : M unit :=
  emit (EvWriteFormat path txt) ;;;
  fun w =>
    if format_write_fails (faults w) then (Raise (OSError path), w)
    else (Ok tt, set_files (<[path := FormatFile txt]> (files w)) w).

(** [os.remove(path)] *)
Definition os_remove (path : string) : M unit :=
  emit (EvRemove path) ;;;
  fun w =>
    match files w !! path with
    | Some _ => (Ok tt, set_files (delete path (files w)) w)
    | None => (Raise (FileNotFoundError path), w)
    end.

(** *** The database *)

Definition table_key := (string * string)%type.

(** [_sql_item_exists] (main.py, lines 158-168): one row of
    [INFORMATION_SCHEMA.TABLES] for each table of that schema and name.
    [to_sql] calls it after it asserted [sql_type == TABLE]. *)
Definition _sql_item_exists (sql_type schema table_name : string) : M bool :=
  emit (EvQueryExists sql_type schema table_name) ;;;
  fun w =>
    if exists_query_fails (faults w)
    then (Raise (DatabaseError "INFORMATION_SCHEMA.TABLES"), w)
    else (Ok (bool_decide (is_Some (tables w !! (schema, table_name)))), w).

(** [pd.read_sql_query("SELECT COLUMN_NAME, ORDINAL_POSITION FROM
    INFORMATION_SCHEMA.COLUMNS WHERE ..", creds.engine).values]
    (main.py, lines 300-310): the rows of the table's columns, none for a
    table that does not exist. *)
Definition read_columns (schema table_name : string) : M (list (string * Z)) :=
  emit (EvQueryColumns schema table_name) ;;;
  fun w =>
    if columns_query_fails (faults w)
    then (Raise (DatabaseError "INFORMATION_SCHEMA.COLUMNS"), w)
    else (Ok (default [] (tables w !! (schema, table_name))), w).

(** [dict(rows)]: a later row with the same key replaces an earlier one. *)
Definition py_dict (rows : list (string * Z)) : gmap string Z :=
  foldl (fun m kv => <[kv.1 := kv.2]> m) ∅ rows.

(** The columns pandas gives a table it creates from a frame, in the order
    of the frame. *)
Definition table_columns (d : DataFrame) : list (string * Z) :=
  imap (fun i x => (py_str_label x, Z.of_nat (S i))) (columns d).

(** The [CREATE TABLE] statement of pandas. *)
Definition execute_create (schema table_name : string) (d : DataFrame) : M unit :=
  emit (EvCreateTable schema table_name (map py_str_label (columns d))) ;;;
  fun w =>
    if create_table_fails (faults w)
    then (Raise (DatabaseError "CREATE TABLE"), w)
    else (Ok tt, set_tables (<[(schema, table_name) := table_columns d]> (tables w)) w).

Definition drop_table (schema table_name : string) : M unit :=
  emit (EvDropTable schema table_name) ;;;
  fun w => (Ok tt, set_tables (delete (schema, table_name) (tables w)) w).

(** [_create_table] (main.py, lines 171-187): [SQLTable(..).create()] of
    pandas, which looks for the table itself and then follows [if_exists].
    [dtype] and [keys] choose column types and the primary key, not the
    columns. *)
Definition _create_table (schema table_name : string) (df : nat)
    (if_exists : string) (dtype : option (list (string * string)))
    (keys : option (list string)) : M unit :=
  d <- get_frame df ;;
  fun w =>
    match tables w !! (schema, table_name) with
    | Some _ =>
        if bool_decide (if_exists = "fail")
        then (Raise (ValueError ("Table '" +:+ table_name +:+ "' already exists.")), w)
        else if bool_decide (if_exists = "replace")
        then (drop_table schema table_name ;;; execute_create schema table_name d) w
        else if bool_decide (if_exists = "append")
        then (Ok tt, w)
        else (Raise (ValueError ("'" +:+ if_exists +:+ "' is not valid for if_exists")), w)
    | None => execute_create schema table_name d w
    end.

(** *** Constants of constants.py *)

(** Modelled from the spec: [TABLE] of constants.py, which is not under
    src/ (only "table" is a supported target object type; the docstring of
    [to_sql], line 220, has the same value). *)
Definition TABLE : string := "table".

(** Modelled from the spec: [IF_EXISTS_OPTIONS] of constants.py, which is not
    under src/ (the existence policies Fail, Replace, Append; the docstring
    of [to_sql], line 227, spells them). *)
Definition IF_EXISTS_OPTIONS : list string := ["append"; "replace"; "fail"].

(** Modelled from the spec: [IN] of constants.py, which is not under src/
    (the direction of the bulk copy, inbound). *)
Definition IN : string := "in".

(** The double quote, the quote character of the call of [to_csv]. *)
Definition DQUOTE : string := String (Ascii.ascii_of_nat 34) EmptyString.

(** [str(x)] of an optional string, as an f-string formats it. *)
Definition py_str_opt (x : option string) : string :=
  match x with
  | Some s => s
  | None => "None"
  end.

(** Sequencing a list of results, first exception first. *)
Fixpoint result_all {A} (l : list (Result A)) : Result (list A) :=
  match l with
  | [] => Ok []
  | Ok a :: r =>
      match result_all r with
      | Ok l' => Ok (a :: l')
      | Raise e => Raise e
      end
  | Raise e :: _ => Raise e
  end.

(** ** Sample inputs

    Frames, catalogs and helpers on which the statements below are tried. *)

(** Two columns, two rows, with a True and a missing value. *)
Definition sample_frame : DataFrame :=
  {| columns := [LStr "id"; LStr "name"];
     dtypes := [TInteger; TText];
     index_name := None;
     index_dtype := TInteger;
     index := [CInt 0; CInt 1];
     data := [[CInt 7; CStr "a"]; [CBool true; CNull]] |}.

(** The same label on two columns. *)
Definition sample_duplicates : DataFrame :=
  {| columns := [LStr "a"; LStr "a"];
     dtypes := [TInteger; TInteger];
     index_name := None;
     index_dtype := TInteger;
     index := [CInt 0];
     data := [[CInt 1; CInt 2]] |}.

(** An unnamed index beside columns that already bear the two labels
    [reset_index] has for it. *)
Definition sample_reserved_labels : DataFrame :=
  {| columns := [LStr "index"; LStr "level_0"];
     dtypes := [TInteger; TInteger];
     index_name := None;
     index_dtype := TInteger;
     index := [CInt 0];
     data := [[CInt 1; CInt 2]] |}.

(** Columns and no row. *)
Definition sample_empty : DataFrame :=
  {| columns := [LStr "id"];
     dtypes := [TInteger];
     index_name := None;
     index_dtype := TInteger;
     index := [];
     data := [] |}.

Definition sample_get_delimiter (d : DataFrame) : Result string := Ok ",".
Definition sample_get_quotechar (d : DataFrame) : Result string := Ok DQUOTE.
Definition sample_temp_name (n : nat) : string := "/tmp/bcp" +:+ pretty n.
Definition sample_host_type (t : SemType) : string := "SQLCHAR".
Definition sample_newline : string := String (Ascii.ascii_of_nat 10) EmptyString.

(** A world with one frame, at reference [0], no file and no call yet. *)
Definition sample_world (d : DataFrame)
    (ts : gmap (string * string) (list (string * Z))) (fa : Faults) : World :=
  mkWorld {[ 0%nat := d ]} ∅ ts 0 fa [].

(** A database where [dbo.t] has the columns of [sample_frame] in another
    order and one more; one where it lacks [name]; one without the table. *)
Definition sample_tables_wider : gmap (string * string) (list (string * Z)) :=
  {[ ("dbo", "t") := [("name", 1); ("extra", 2); ("id", 3)] ]}.
Definition sample_tables_narrower : gmap (string * string) (list (string * Z)) :=
  {[ ("dbo", "t") := [("id", 1)] ]}.
Definition sample_tables_none : gmap (string * string) (list (string * Z)) := ∅.


(** The format file of [sample_frame] for a table made from it, and the
    failures of one external call. *)
Definition sample_format_file : FormatFileModel :=
  [ {| file_ordinal := 1; destination_ordinal := 1; terminator_bytes := ",";
       type_tag := "SQLCHAR"; source_column_name := "id" |};
    {| file_ordinal := 2; destination_ordinal := 2;
       terminator_bytes := sample_newline;
       type_tag := "SQLCHAR"; source_column_name := "name" |} ].
Definition sample_exists_query_fails : Faults :=
  mkFaults false true false false false false.
Definition sample_bcp_fails : Faults :=
  mkFaults false false false false false true.

(** A database with the table [dbo.t] and another one. *)
Definition sample_tables_two : gmap (string * string) (list (string * Z)) :=
  <[("dbo", "u") := [("x", 1)]]> sample_tables_narrower.

(** A selector of the quote character that chooses the single quote. *)
Definition sample_get_quotechar_single (d : DataFrame) : Result string :=
  Ok "'".

(** A selector of the quote character that finds none. *)
Definition sample_get_quotechar_fails (d : DataFrame) : Result string :=
  Raise (SelectorError "no quote character").

(** * [SqlCreds] (main.py, lines 32-155)

    The class of the credentials: its constructor builds the ODBC connection
    string, [from_engine] reads one back, [__repr__] prints an object without
    its password. *)

(** ** The Python values and string methods the class uses *)

(** A [sqlalchemy] engine, as far as the class looks into it: the query part
    of its URL ([engine.url.query]), with the values decoded. *)
Record Engine := mkEngine { url_query : gmap string string }.

(** The values of the attributes and of the keyword arguments. *)
Inductive PyVal :=
| VNone
| VBool (b : bool)
| VInt (z : Z)
| VStr (s : string)
| VEngine (e : Engine).

(** [bool(v)], the test of [if v:]. *)
Definition py_truthy (v : PyVal) : bool :=
  match v with
  | VNone => false
  | VBool b => b
  | VInt z => negb (z =? 0)%Z
  | VStr EmptyString => false
  | VStr (String _ _) => true
  | VEngine _ => true
  end.

(** [bool(s)] for an optional string: [None] and the empty string are
    false. *)
Definition py_truthy_str (s : option string) : bool :=
  match s with
  | Some (String _ _) => true
  | _ => false
  end.

(** [c in s] for a string [c] of one character. *)
Fixpoint has_char (c : Ascii.ascii) (s : string) : bool :=
  match s with
  | EmptyString => false
  | String x s' => if decide (x = c) then true else has_char c s'
  end.

(** The digits, of which [str] makes the text of an integer. *)
Definition digit (c : Ascii.ascii) : bool := has_char c "0123456789".

(** [s.split(sep)] for a separator of one character. *)
Fixpoint py_split (sep : Ascii.ascii) (s : string) : list string :=
  match s with
  | EmptyString => [EmptyString]
  | String x s' =>
      if decide (x = sep) then EmptyString :: py_split sep s'
      else match py_split sep s' with
           | piece :: pieces => String x piece :: pieces
           | [] => [String x EmptyString]
           end
  end.

(** [l[i]] on a list of strings that has an element [i]. *)
Definition py_item (l : list string) (i : nat) : string :=
  default EmptyString (l !! i).

(** [s.startswith(p)]. *)
Fixpoint py_startswith (p s : string) : bool :=
  match p, s with
  | EmptyString, _ => true
  | String a p', String b s' => if decide (a = b) then py_startswith p' s' else false
  | String _ _, EmptyString => false
  end.

(** [s.replace(old, new)] for a pattern [old] that is not empty: the
    occurrences are taken from the left and do not overlap.  [skip] counts
    the characters of an occurrence that are still to be passed over. *)
Fixpoint py_replace_from (old new : string) (skip : nat) (s : string) : string :=
  match s with
  | EmptyString => EmptyString
  | String x s' =>
      match skip with
      | S k => py_replace_from old new k s'
      | O =>
          if py_startswith old s
          then new +:+ py_replace_from old new (String.length old - 1) s'
          else String x (py_replace_from old new 0 s')
      end
  end.

Definition py_replace (old new s : string) : string :=
  py_replace_from old new 0 s.

(** [sep.join(l)]. *)
Definition py_join (sep : string) (l : list string) : string :=
  String.concat sep l.

Definition SEMICOLON : Ascii.ascii := Ascii.ascii_of_nat 59.
Definition EQUALS : Ascii.ascii := Ascii.ascii_of_nat 61.
Definition COMMA : Ascii.ascii := Ascii.ascii_of_nat 44.
Definition COLON : Ascii.ascii := Ascii.ascii_of_nat 58.
Definition TAB : string := String (Ascii.ascii_of_nat 9) EmptyString.

(** The dictionary of a comprehension [{k: v for ...}] over the pairs in
    their order: a later pair with the same key replaces an earlier one. *)
Definition py_dict_str (items : list (string * string)) : gmap string string :=
  foldl (fun m kv => <[kv.1 := kv.2]> m) ∅ items.

(** ** The class *)

Module SqlCreds.

(** The attributes of an object, in the order [__init__] sets them. *)
Record t := mk {
  server : string;
  database : string;
  port : PyVal;
  driver : string;
  username : string;
  password : string;
  with_krb_auth : bool;
  engine : Engine;
}.

(** What [from_engine] ends with: an object, the [BCPandasValueError] it
    makes of a [KeyError], or the [ValueError] of [int], which it does not
    catch. *)
Inductive Outcome :=
| Created (c : t)
| NotParsed (original : Exception)
| Uncaught (e : Exception).

Section Class.

(** What the class takes from the standard library and from [sqlalchemy]:
    [urllib.parse.quote_plus], [sqlalchemy.engine.create_engine], [int] on a
    string ([None] when it raises [ValueError]) and [repr]. *)
Variable quote_plus : string -> string.
Variable create_engine : string -> Engine.
Variable py_int : string -> option Z.
Variable py_repr : PyVal -> string.

(** [str(v)], which an f-string applies to a value. *)
Definition py_str (v : PyVal) : string :=
  match v with
  | VNone => "None"
  | VBool true => "True"
  | VBool false => "False"
  | VInt z => pretty z
  | VStr s => s
  | VEngine _ => py_repr v
  end.

(** [__repr__] (lines 147-155) on an object of class [clsName] whose
    [__dict__] has the given items. *)
Definition __repr__ (clsName : string) (items : list (string * PyVal)) : string :=
  let kwargs :=
    py_join ", "
      (map (fun kv => kv.1 +:+ "=" +:+ py_repr kv.2)
         (filter (fun kv => kv.1 <> "password") items)) in
  let kwargs :=
    if bool_decide ("password" ∈ items.*1)
    then kwargs +:+ ", password=[REDACTED]" else kwargs in
  clsName +:+ "(" +:+ kwargs +:+ ")".

(** The text [__init__] gives the driver (line 72) and the port (lines
    75-78). *)
Definition driver_name (driver_version : Z) : string :=
  "{ODBC Driver " +:+ pretty driver_version +:+ " for SQL Server}".

Definition port_str (port : PyVal) : string :=
  if py_truthy port then "," +:+ py_str port else EmptyString.

(** The ODBC connection string of [__init__] (lines 80-98). *)
Definition db_url (server database : string) (username password : option string)
    (driver_version : Z) (port : PyVal)
    (odbc_kwargs : option (list (string * PyVal))) : string :=
  let db_url :=
    "Driver=" +:+ driver_name driver_version +:+ ";Server=tcp:" +:+ server
    +:+ port_str port +:+ ";Database=" +:+ database +:+ ";" in
  let db_url :=
    if py_truthy_str username && py_truthy_str password
    then db_url +:+ "UID=" +:+ default EmptyString username
         +:+ ";PWD=" +:+ default EmptyString password
    else db_url +:+ "Trusted_Connection=yes;" in
  match odbc_kwargs with
  | Some ((_ :: _) as kwargs) =>
      db_url +:+ py_join ";" (map (fun kv => kv.1 +:+ "=" +:+ py_str kv.2) kwargs)
  | _ => db_url
  end.

(** The segments of the connection string of [__init__] without keyword
    arguments, between its semicolons. *)
Definition url_segments (server database : string)
    (username password : option string) (driver_version : Z) (port : PyVal)
    : list string :=
  ["Driver=" +:+ driver_name driver_version;
   "Server=tcp:" +:+ server +:+ port_str port;
   "Database=" +:+ database]
  ++ (if py_truthy_str username && py_truthy_str password
      then ["UID=" +:+ default EmptyString username;
            "PWD=" +:+ default EmptyString password]
      else ["Trusted_Connection=yes"; EmptyString]).

(** The items of [self.__dict__] when [__init__] logs the object (line 92),
    and when it is done. *)
Definition logged_items (c : t) : list (string * PyVal) :=
  [("server", VStr (server c)); ("database", VStr (database c));
   ("port", port c); ("driver", VStr (driver c));
   ("username", VStr (username c)); ("password", VStr (password c));
   ("with_krb_auth", VBool (with_krb_auth c))].

Definition items (c : t) : list (string * PyVal) :=
  logged_items c ++ [("engine", VEngine (engine c))].

(** [__init__] (lines 58-103): the object, and the record it logs. *)
Definition __init__ (server database : string) (username password : option string)
    (driver_version : Z) (port : PyVal)
    (odbc_kwargs : option (list (string * PyVal))) : t * string :=
  let sql_login := py_truthy_str username && py_truthy_str password in
  let conn_string :=
    "mssql+pyodbc:///?odbc_connect="
    +:+ quote_plus (db_url server database username password driver_version
                      port odbc_kwargs) in
  let self :=
    {| server := server;
       database := database;
       port := port;
       driver := driver_name driver_version;
       username := if sql_login then default EmptyString username else EmptyString;
       password := if sql_login then default EmptyString password else EmptyString;
       with_krb_auth := negb sql_login;
       engine := create_engine conn_string |} in
  (self, "Created creds:" +:+ TAB +:+ __repr__ "SqlCreds" (logged_items self)).

(** The dictionary [from_engine] makes of the connection string (lines
    123-125). *)
Definition conn_dict (odbc_connect : string) : gmap string string :=
  let conn_url := py_split SEMICOLON odbc_connect in
  py_dict_str
    (map (fun x => (py_item (py_split EQUALS x) 0, py_item (py_split EQUALS x) 1))
       (filter (fun x => has_char EQUALS x = true) conn_url)).

(** [from_engine] (lines 105-145).  The entry [port] that line 128 adds to
    the dictionary is kept apart from the entries of the comprehension,
    which are strings: it is read once, at line 135. *)
Definition from_engine (engine : Engine) : Outcome :=
  match url_query engine !! "odbc_connect" with
  | None => NotParsed (KeyError "odbc_connect")
  | Some odbc_connect =>
      let conn_dict := conn_dict odbc_connect in
      match conn_dict !! "Server" with
      | None => NotParsed (KeyError "Server")
      | Some srv =>
          let port :=
            if has_char COMMA srv
            then match py_int (py_item (py_split COMMA srv) 1) with
                 | Some z => Ok (VInt z)
                 | None => Raise (ValueError (py_item (py_split COMMA srv) 1))
                 end
            else Ok (match conn_dict !! "port" with
                     | Some p => VStr p
                     | None => VNone
                     end) in
          match port with
          | Raise e => Uncaught e
          | Ok port =>
              match conn_dict !! "Database" with
              | None => NotParsed (KeyError "Database")
              | Some db =>
                  let sql_creds :=
                    (__init__
                       (py_item (py_split COMMA (py_replace "tcp:" EmptyString srv)) 0)
                       db (conn_dict !! "UID") (conn_dict !! "PWD") 17 port None).1 in
                  Created
                    {| server := server sql_creds;
                       database := database sql_creds;
                       port := SqlCreds.port sql_creds;
                       driver := driver sql_creds;
                       username := username sql_creds;
                       password := password sql_creds;
                       with_krb_auth := with_krb_auth sql_creds;
                       engine := engine |}
              end
          end
      end
  end.

End Class.

End SqlCreds.

(** ** Sample inputs for the class *)

(** Stand-ins for the library functions: a [quote_plus] that quotes
    nothing, an engine that keeps what follows [odbc_connect=], an [int]
    for the ports of the samples and a [repr] that gives strings their
    quotes. *)
Definition sample_quote_plus (s : string) : string := s.
Definition sample_create_engine (conn_string : string) : Engine :=
  {| url_query :=
       {[ "odbc_connect" :=
            String.substring (String.length "mssql+pyodbc:///?odbc_connect=")
              (String.length conn_string) conn_string ]} |}.
Definition sample_py_int (s : string) : option Z :=
  if bool_decide (s = "1433") then Some 1433
  else if bool_decide (s = "1500") then Some 1500
  else None.
Definition sample_py_repr (v : PyVal) : string :=
  match v with
  | VNone => "None"
  | VBool true => "True"
  | VBool false => "False"
  | VInt z => pretty z
  | VStr s => "'" +:+ s +:+ "'"
  | VEngine _ => "Engine(..)"
  end.

(** A [repr] that prints an engine with its URL, as [sqlalchemy] does. *)
Definition sample_py_repr_url (v : PyVal) : string :=
  match v with
  | VEngine e =>
      "Engine(mssql+pyodbc:///?odbc_connect="
      +:+ default EmptyString (url_query e !! "odbc_connect") +:+ ")"
  | _ => sample_py_repr v
  end.

(** Engines whose connection string has a port that is no number and no
    [Database] entry, a port and no [Database] entry, and an engine
    without [odbc_connect] entry. *)
Definition sample_engine_bad_port : Engine :=
  {| url_query := {[ "odbc_connect" := "Server=tcp:srv,abc;UID=u" ]} |}.
Definition sample_engine_no_database : Engine :=
  {| url_query := {[ "odbc_connect" := "Server=tcp:srv,1433;UID=u" ]} |}.
Definition sample_engine_no_server : Engine :=
  {| url_query := {[ "odbc_connect" := "Database=db;UID=u" ]} |}.
Definition sample_engine_no_odbc : Engine :=
  {| url_query := {[ "host" := "srv" ]} |}.
Definition sample_engine_kerberos : Engine :=
  {| url_query := {[ "odbc_connect" := "Server=tcp:srv,1433;Database=db;UID=u" ]} |}.

(** ** [to_sql] *)

Section ToSql.

(** What main.py imports from constants.py and utils.py and this development
    leaves open: the line terminator, the two selectors (they read the frame
    and return a character or raise), the names of the temporary files and
    the table of host types. *)
Variable NEWLINE : string.
Variable get_delimiter : DataFrame -> Result string.
Variable get_quotechar : DataFrame -> Result string.
Variable temp_name : nat -> string.
Variable host_type : SemType -> string.

Definition call_get_delimiter (df : nat) : M string :=
  d <- get_frame df ;; emit (EvGetDelimiter d) ;;; lift_result (get_delimiter d).

Definition call_get_quotechar (df : nat) : M string :=
  d <- get_frame df ;; emit (EvGetQuotechar d) ;;; lift_result (get_quotechar d).

(** Modelled from the spec: [get_temp_file] of utils.py, which is not under
    src/.  It hands out a process-local temporary path; the file is made by
    whoever writes to the path. *)
Definition get_temp_file : M string :=
  fun w => (Ok (temp_name (temp_count w)), set_temp_count (S (temp_count w)) w).

(** Modelled from the spec: [bcp] of utils.py, which is not under src/.  The
    external bulk-copy process is run and waited for; an exit code other
    than 0 is an error. *)
Definition bcp (args : BcpArgs) : M unit :=
  emit (EvBcp args) ;;;
  fun w => if bcp_fails (faults w) then (Raise BcpFailed, w) else (Ok tt, w).

(** Modelled from the spec: the destination ordinal of a column in the
    format file (section 4.3).  The mapping from column names to ordinals is
    populated only under Append against an existing table; without one, or
    with one that has no entry, the destination ordinal is the file ordinal.
    With one, the ordinal is looked up by the name of the column. *)
Definition resolve_destination (db_cols_order : option (gmap string Z))
    (col_num : Z) (col_name : Label) : Result Z :=
  match db_cols_order with
  | None => Ok col_num
  | Some m =>
      if bool_decide (m = ∅) then Ok col_num
      else match m !! py_str_label col_name with
           | Some o => Ok o
           | None => Raise (KeyError (py_str_label col_name))
           end
  end.

(** Modelled from the spec: one record of the format file (section 4.3): the
    1-based position in the flat file, the host type of the column's
    semantic type, the terminator (the delimiter, and the line terminator
    for the last field) and the destination ordinal. *)
Definition build_field (df : DataFrame) (delimiter : string)
    (db_cols_order : option (gmap string Z)) (i : nat) (col_name : Label)
    : Result FieldDescriptor :=
  let col_num := Z.of_nat (S i) in
  match resolve_destination db_cols_order col_num col_name with
  | Ok o =>
      Ok {| file_ordinal := col_num;
            destination_ordinal := o;
            terminator_bytes :=
              if bool_decide (S i = length (columns df)) then NEWLINE
              else delimiter;
            type_tag := host_type (default TText (dtypes df !! i));
            source_column_name := py_str_label col_name |}
  | Raise e => Raise e
  end.

(** Modelled from the spec: [build_format_file] of utils.py, which is not
    under src/: one record per column of the frame, in the order of the
    columns. *)
Definition build_format_file (df : DataFrame) (delimiter : string)
    (db_cols_order : option (gmap string Z)) : Result FormatFileModel :=
  result_all (imap (build_field df delimiter db_cols_order) (columns df)).

(** The columns of the frame that the table of the database does not have
    (main.py, line 316). *)
Definition extra_columns (d : DataFrame) (cols_dict : gmap string Z) : list string :=
  map py_str_label
    (filter (fun x => cols_dict !! py_str_label x = None) (columns d)).

(** [to_sql] (main.py, lines 190-375).  [df] is a reference to the caller's
    frame. *)
Definition to_sql (df : nat) (table_name : string) (sql_type : string)
    (schema : string) (index : bool) (if_exists : string)
    (batch_size : option Z) (debug : bool) (bcp_path : option string)
    (dtypes : option (list (string * string))) (keys : option (list string))
    (error_path : option string) : M unit :=
  (* validation *)
  d <- get_frame df ;;
  if (shape0 d =? 0)%nat || (shape1 d =? 0)%nat then ret tt else
  py_assert (bool_decide (sql_type = TABLE))
    "only supporting table, not view, for now" ;;;
  py_assert (bool_decide (if_exists ∈ IF_EXISTS_OPTIONS)) EmptyString ;;;
  (if has_duplicates (columns d)
   then raise (BCPandasValueError (MsgDuplicateColumns (duplicated_labels (columns d))))
   else ret tt) ;;;
  df <- (if index then c <- df_copy df ;; df_reset_index c else ret df) ;;
  delim <- call_get_delimiter df ;;
  quotechar <- call_get_quotechar df ;;
  (match batch_size with
   | Some b =>
       if (b =? 0)%Z then raise (BCPandasValueError MsgBatchSizeZero)
       else
         d <- get_frame df ;;
         if (Z.of_nat (shape0 d) <? b)%Z
         then raise (BCPandasValueError MsgBatchSizeTooLarge)
         else ret tt
   | None => ret tt
   end) ;;;
  (* save to temp path *)
  csv_file_path <- get_temp_file ;;
  replaced <- df_replace_bools df ;;
  df_to_csv replaced csv_file_path delim QUOTE_MINIMAL DQUOTE NEWLINE ;;;
  (* build format file *)
  fmt_file_path <- get_temp_file ;;
  sql_item_exists <- _sql_item_exists sql_type schema table_name ;;
  cols_dict <-
    (if bool_decide (if_exists = "append") then
       rows <- read_columns schema table_name ;;
       let cols_dict := py_dict rows in
       (if sql_item_exists : bool then
          d <- get_frame df ;;
          let extra_cols := extra_columns d cols_dict in
          match extra_cols with
          | [] => ret tt
          | _ => raise (BCPandasValueError (MsgExtraColumns extra_cols))
          end
        else ret tt) ;;;
       ret (Some cols_dict)
     else ret None) ;;
  d <- get_frame df ;;
  fmt_file_txt <- lift_result (build_format_file d delim cols_dict) ;;
  write_format_file fmt_file_path fmt_file_txt ;;;
  try_finally
    ((if bool_decide (if_exists = "fail") then
        if sql_item_exists : bool then
          raise (BCPandasValueError (MsgAlreadyExists sql_type schema table_name))
        else _create_table schema table_name df if_exists dtypes keys
      else if bool_decide (if_exists = "replace") then
        _create_table schema table_name df if_exists dtypes keys
      else if bool_decide (if_exists = "append") then
        if negb sql_item_exists
        then _create_table schema table_name df if_exists dtypes keys
        else ret tt
      else ret tt) ;;;
     (* BCP the data in *)
     bcp {| bcp_sql_item := table_name;
            bcp_direction := IN;
            bcp_flat_file := csv_file_path;
            bcp_format_file_path := fmt_file_path;
            bcp_sql_type := sql_type;
            bcp_schema := schema;
            bcp_batch_size := batch_size;
            bcp_bcp_path := bcp_path;
            bcp_error_file_path :=
              py_str_opt error_path +:+ "/" +:+ table_name +:+ "_bcp_error.txt" |})
    (if negb debug then os_remove csv_file_path ;;; os_remove fmt_file_path
     else ret tt).


(** ** The three blocks of [to_sql]

    [to_sql] is cut at lines 273 and 328: the checks on the arguments with
    the choice of the delimiter, the two scratch files, and the [try]
    statement.  A block takes what follows it as a continuation, so that
    [to_sql] is the three blocks put together, by computation
    ([to_sql_blocks]). *)

(** Lines 250-272. *)
Definition prelude_k (df : nat) (sql_type if_exists : string) (index : bool)
    (batch_size : option Z) (d : DataFrame) (k : nat -> string -> M unit)
    : M unit :=
  py_assert (bool_decide (sql_type = TABLE))
    "only supporting table, not view, for now" ;;;
  py_assert (bool_decide (if_exists ∈ IF_EXISTS_OPTIONS)) EmptyString ;;;
  (if has_duplicates (columns d)
   then raise (BCPandasValueError (MsgDuplicateColumns (duplicated_labels (columns d))))
   else ret tt) ;;;
  df <- (if index then c <- df_copy df ;; df_reset_index c else ret df) ;;
  delim <- call_get_delimiter df ;;
  quotechar <- call_get_quotechar df ;;
  (match batch_size with
   | Some b =>
       if (b =? 0)%Z then raise (BCPandasValueError MsgBatchSizeZero)
       else
         d <- get_frame df ;;
         if (Z.of_nat (shape0 d) <? b)%Z
         then raise (BCPandasValueError MsgBatchSizeTooLarge)
         else ret tt
   | None => ret tt
   end) ;;;
  k df delim.

(** Lines 274-327. *)
Definition scratch_k (df : nat) (delim table_name sql_type schema if_exists : string)
    (k : string -> string -> bool -> M unit) : M unit :=
  csv_file_path <- get_temp_file ;;
  replaced <- df_replace_bools df ;;
  df_to_csv replaced csv_file_path delim QUOTE_MINIMAL DQUOTE NEWLINE ;;;
  fmt_file_path <- get_temp_file ;;
  sql_item_exists <- _sql_item_exists sql_type schema table_name ;;
  cols_dict <-
    (if bool_decide (if_exists = "append") then
       rows <- read_columns schema table_name ;;
       let cols_dict := py_dict rows in
       (if sql_item_exists : bool then
          d <- get_frame df ;;
          let extra_cols := extra_columns d cols_dict in
          match extra_cols with
          | [] => ret tt
          | _ => raise (BCPandasValueError (MsgExtraColumns extra_cols))
          end
        else ret tt) ;;;
       ret (Some cols_dict)
     else ret None) ;;
  d <- get_frame df ;;
  fmt_file_txt <- lift_result (build_format_file d delim cols_dict) ;;
  write_format_file fmt_file_path fmt_file_txt ;;;
  k csv_file_path fmt_file_path sql_item_exists.

(** The arguments [to_sql] calls [bcp] with (lines 354-365). *)
Definition bcp_args (table_name sql_type schema : string) (batch_size : option Z)
    (bcp_path error_path : option string) (csv_file_path fmt_file_path : string)
    : BcpArgs :=
  {| bcp_sql_item := table_name;
     bcp_direction := IN;
     bcp_flat_file := csv_file_path;
     bcp_format_file_path := fmt_file_path;
     bcp_sql_type := sql_type;
     bcp_schema := schema;
     bcp_batch_size := batch_size;
     bcp_bcp_path := bcp_path;
     bcp_error_file_path :=
       py_str_opt error_path +:+ "/" +:+ table_name +:+ "_bcp_error.txt" |}.

(** The body of the [try] statement (lines 330-365). *)
Definition load_body (df : nat) (table_name sql_type schema if_exists : string)
    (batch_size : option Z) (bcp_path : option string)
    (dtypes : option (list (string * string))) (keys : option (list string))
    (error_path : option string) (csv_file_path fmt_file_path : string)
    (sql_item_exists : bool) : M unit :=
  (if bool_decide (if_exists = "fail") then
     if sql_item_exists : bool then
       raise (BCPandasValueError (MsgAlreadyExists sql_type schema table_name))
     else _create_table schema table_name df if_exists dtypes keys
   else if bool_decide (if_exists = "replace") then
     _create_table schema table_name df if_exists dtypes keys
   else if bool_decide (if_exists = "append") then
     if negb sql_item_exists
     then _create_table schema table_name df if_exists dtypes keys
     else ret tt
   else ret tt) ;;;
  bcp (bcp_args table_name sql_type schema batch_size bcp_path error_path
         csv_file_path fmt_file_path).

(** The [finally] clause (lines 366-375). *)
Definition cleanup (debug : bool) (csv_file_path fmt_file_path : string) : M unit :=
  if negb debug then os_remove csv_file_path ;;; os_remove fmt_file_path
  else ret tt.

(** * Notions used in the statements *)

(** The frame [to_sql] works on once the index is dealt with (line 261). *)
Definition working_frame (index : bool) (d : DataFrame) : option DataFrame :=
  if index then reset_index d else Some d.

(** A batch size the check of lines 266-272 lets through. *)
Definition batch_size_ok (batch_size : option Z) (d' : DataFrame) : Prop :=
  match batch_size with
  | Some b => b <> 0 /\ b <= Z.of_nat (shape0 d')
  | None => True
  end.

(** The arguments pass lines 250-272: [d'] is the frame to load, [delim] its
    delimiter. *)
Definition prelude_ok (sql_type if_exists : string) (index : bool)
    (batch_size : option Z) (d d' : DataFrame) (delim : string) : Prop :=
  sql_type = TABLE /\ if_exists ∈ IF_EXISTS_OPTIONS
  /\ has_duplicates (columns d) = false
  /\ working_frame index d = Some d'
  /\ get_delimiter d' = Ok delim
  /\ (exists quotechar, get_quotechar d' = Ok quotechar)
  /\ batch_size_ok batch_size d'.

(** The ways lines 250-272 raise, each with the calls made until then. *)
Inductive prelude_exit (sql_type if_exists : string) (index : bool)
    (batch_size : option Z) (d : DataFrame) : Exception -> list Event -> Prop :=
| PE_sql_type :
    sql_type <> TABLE ->
    prelude_exit sql_type if_exists index batch_size d
      (AssertionError "only supporting table, not view, for now") []
| PE_if_exists :
    sql_type = TABLE -> if_exists ∉ IF_EXISTS_OPTIONS ->
    prelude_exit sql_type if_exists index batch_size d
      (AssertionError EmptyString) []
| PE_duplicates :
    sql_type = TABLE -> if_exists ∈ IF_EXISTS_OPTIONS ->
    has_duplicates (columns d) = true ->
    prelude_exit sql_type if_exists index batch_size d
      (BCPandasValueError (MsgDuplicateColumns (duplicated_labels (columns d)))) []
| PE_index msg :
    sql_type = TABLE -> if_exists ∈ IF_EXISTS_OPTIONS ->
    has_duplicates (columns d) = false ->
    working_frame index d = None ->
    prelude_exit sql_type if_exists index batch_size d (ValueError msg) []
| PE_delimiter d' e :
    sql_type = TABLE -> if_exists ∈ IF_EXISTS_OPTIONS ->
    has_duplicates (columns d) = false ->
    working_frame index d = Some d' ->
    get_delimiter d' = Raise e ->
    prelude_exit sql_type if_exists index batch_size d e [EvGetDelimiter d']
| PE_quotechar d' delim e :
    sql_type = TABLE -> if_exists ∈ IF_EXISTS_OPTIONS ->
    has_duplicates (columns d) = false ->
    working_frame index d = Some d' ->
    get_delimiter d' = Ok delim ->
    get_quotechar d' = Raise e ->
    prelude_exit sql_type if_exists index batch_size d e
      [EvGetDelimiter d'; EvGetQuotechar d']
| PE_batch_size d' delim quotechar b :
    sql_type = TABLE -> if_exists ∈ IF_EXISTS_OPTIONS ->
    has_duplicates (columns d) = false ->
    working_frame index d = Some d' ->
    get_delimiter d' = Ok delim ->
    get_quotechar d' = Ok quotechar ->
    batch_size = Some b ->
    b = 0 \/ Z.of_nat (shape0 d') < b ->
    prelude_exit sql_type if_exists index batch_size d
      (BCPandasValueError
         (if (b =? 0)%Z then MsgBatchSizeZero else MsgBatchSizeTooLarge))
      [EvGetDelimiter d'; EvGetQuotechar d'].

(** The rows of the catalog for a table, the mapping [to_sql] makes of them
    under [append] (lines 297-311), and the calls to the catalog. *)
Definition catalog_rows (ts : gmap (string * string) (list (string * Z)))
    (schema table_name : string) : list (string * Z) :=
  default [] (ts !! (schema, table_name)).

Definition reconciled_cols (ts : gmap (string * string) (list (string * Z)))
    (schema table_name if_exists : string) : option (gmap string Z) :=
  if bool_decide (if_exists = "append")
  then Some (py_dict (catalog_rows ts schema table_name))
  else None.

Definition query_events (sql_type schema table_name if_exists : string)
    : list Event :=
  EvQueryExists sql_type schema table_name
  :: (if bool_decide (if_exists = "append")
      then [EvQueryColumns schema table_name] else []).

(** The flat file of a frame (lines 277-287). *)
Definition flat_file (d' : DataFrame) (delim : string) : CsvFile :=
  to_csv (replace_bools d') delim QUOTE_MINIMAL DQUOTE NEWLINE.

(** Under [append] against a table that exists, every column of the frame
    is a column of the table. *)
Definition no_drift (ts : gmap (string * string) (list (string * Z)))
    (schema table_name if_exists : string) (d' : DataFrame) : Prop :=
  if_exists = "append" ->
  forall cols, ts !! (schema, table_name) = Some cols ->
               extra_columns d' (py_dict cols) = [].

(** Lines 274-327 go through: the external calls succeed, there is no
    drift, and [fmt] is the format file. *)
Definition scratch_ok (ts : gmap (string * string) (list (string * Z)))
    (fa : Faults) (schema table_name if_exists : string) (d' : DataFrame)
    (delim : string) (fmt : FormatFileModel) : Prop :=
  csv_write_fails fa = false /\ exists_query_fails fa = false
  /\ (if_exists = "append" -> columns_query_fails fa = false)
  /\ no_drift ts schema table_name if_exists d'
  /\ build_format_file d' delim (reconciled_cols ts schema table_name if_exists)
     = Ok fmt
  /\ format_write_fails fa = false.

(** The ways lines 274-327 raise, each with the calls made in these lines,
    whether the flat file was written, and the number of temporary paths
    taken.  [p0] and [p1] are the paths of the flat file and of the format
    file. *)
Inductive scratch_exit (ts : gmap (string * string) (list (string * Z)))
    (fa : Faults) (sql_type schema table_name if_exists : string)
    (d' : DataFrame) (delim p0 p1 : string)
    : Exception -> list Event -> bool -> nat -> Prop :=
| SE_csv :
    csv_write_fails fa = true ->
    scratch_exit ts fa sql_type schema table_name if_exists d' delim p0 p1
      (OSError p0) [EvWriteCsv p0 (flat_file d' delim)] false 1
| SE_exists :
    csv_write_fails fa = false -> exists_query_fails fa = true ->
    scratch_exit ts fa sql_type schema table_name if_exists d' delim p0 p1
      (DatabaseError "INFORMATION_SCHEMA.TABLES")
      [EvWriteCsv p0 (flat_file d' delim);
       EvQueryExists sql_type schema table_name] true 2
| SE_columns :
    csv_write_fails fa = false -> exists_query_fails fa = false ->
    if_exists = "append" -> columns_query_fails fa = true ->
    scratch_exit ts fa sql_type schema table_name if_exists d' delim p0 p1
      (DatabaseError "INFORMATION_SCHEMA.COLUMNS")
      (EvWriteCsv p0 (flat_file d' delim)
       :: query_events sql_type schema table_name if_exists) true 2
| SE_drift cols :
    csv_write_fails fa = false -> exists_query_fails fa = false ->
    if_exists = "append" -> columns_query_fails fa = false ->
    ts !! (schema, table_name) = Some cols ->
    extra_columns d' (py_dict cols) <> [] ->
    scratch_exit ts fa sql_type schema table_name if_exists d' delim p0 p1
      (BCPandasValueError (MsgExtraColumns (extra_columns d' (py_dict cols))))
      (EvWriteCsv p0 (flat_file d' delim)
       :: query_events sql_type schema table_name if_exists) true 2
| SE_build e :
    csv_write_fails fa = false -> exists_query_fails fa = false ->
    (if_exists = "append" -> columns_query_fails fa = false) ->
    no_drift ts schema table_name if_exists d' ->
    build_format_file d' delim (reconciled_cols ts schema table_name if_exists)
    = Raise e ->
    scratch_exit ts fa sql_type schema table_name if_exists d' delim p0 p1
      e (EvWriteCsv p0 (flat_file d' delim)
         :: query_events sql_type schema table_name if_exists) true 2
| SE_format fmt :
    csv_write_fails fa = false -> exists_query_fails fa = false ->
    (if_exists = "append" -> columns_query_fails fa = false) ->
    no_drift ts schema table_name if_exists d' ->
    build_format_file d' delim (reconciled_cols ts schema table_name if_exists)
    = Ok fmt ->
    format_write_fails fa = true ->
    scratch_exit ts fa sql_type schema table_name if_exists d' delim p0 p1
      (OSError p1)
      (EvWriteCsv p0 (flat_file d' delim)
       :: query_events sql_type schema table_name if_exists
       ++ [EvWriteFormat p1 fmt]) true 2.

(** Whether the [try] statement makes the table: it is not there, or the
    policy is [replace]. *)
Definition ddl_needed (ts : gmap (string * string) (list (string * Z)))
    (schema table_name if_exists : string) : bool :=
  match ts !! (schema, table_name) with
  | Some _ => bool_decide (if_exists = "replace")
  | None => true
  end.

(** The statements that make the table, a [DROP] first for one that is
    there. *)
Definition ddl_events (ts : gmap (string * string) (list (string * Z)))
    (schema table_name : string) (d' : DataFrame) : list Event :=
  match ts !! (schema, table_name) with
  | Some _ => [EvDropTable schema table_name]
  | None => []
  end ++ [EvCreateTable schema table_name (map py_str_label (columns d'))].

Definition bcp_result (fa : Faults) : Result unit :=
  if bcp_fails fa then Raise BcpFailed else Ok tt.

(** The ways the body of the [try] statement ends: the result, the calls
    made, the tables of the database afterwards. *)
Inductive load_outcome (ts : gmap (string * string) (list (string * Z)))
    (fa : Faults) (sql_type schema table_name if_exists : string)
    (d' : DataFrame) (args : BcpArgs)
    : Result unit -> list Event
      -> gmap (string * string) (list (string * Z)) -> Prop :=
| LO_already_exists cols :
    if_exists = "fail" -> ts !! (schema, table_name) = Some cols ->
    load_outcome ts fa sql_type schema table_name if_exists d' args
      (Raise (BCPandasValueError (MsgAlreadyExists sql_type schema table_name)))
      [] ts
| LO_create_failed :
    ddl_needed ts schema table_name if_exists = true ->
    create_table_fails fa = true ->
    load_outcome ts fa sql_type schema table_name if_exists d' args
      (Raise (DatabaseError "CREATE TABLE"))
      (ddl_events ts schema table_name d')
      (delete (schema, table_name) ts)
| LO_created :
    ddl_needed ts schema table_name if_exists = true ->
    create_table_fails fa = false ->
    load_outcome ts fa sql_type schema table_name if_exists d' args
      (bcp_result fa)
      (ddl_events ts schema table_name d' ++ [EvBcp args])
      (<[(schema, table_name) := table_columns d']> ts)
| LO_appended cols :
    if_exists = "append" -> ts !! (schema, table_name) = Some cols ->
    load_outcome ts fa sql_type schema table_name if_exists d' args
      (bcp_result fa) [EvBcp args] ts.

(** The [finally] clause: the calls it makes, the result of [to_sql] after
    it, and the files it leaves.  When the two paths are the same path the
    second [os.remove] finds no file. *)
Definition cleanup_events (debug : bool) (p0 p1 : string) : list Event :=
  if debug then [] else [EvRemove p0; EvRemove p1].

Definition cleanup_result (debug : bool) (p0 p1 : string) (r : Result unit)
    : Result unit :=
  if debug then r
  else if bool_decide (p0 = p1) then Raise (FileNotFoundError p1) else r.

Definition cleanup_files (debug : bool) (p0 p1 : string)
    (fs : gmap string FileContent) : gmap string FileContent :=
  if debug then fs else delete p1 (delete p0 fs).

(** [wp m Q w]: running [m] in [w] ends in a result and a world that [Q]
    accepts.  The monad is total, so this is both partial and total
    correctness. *)
Definition wp {A} (m : M A) (Q : Result A -> World -> Prop) (w : World) : Prop :=
  Q (m w).1 (m w).2.

(** The errors of the validation step: a failed assertion on the target
    object type or on the existence policy, duplicate column names, a batch
    size that is zero or too large. *)
Definition validation_error (e : Exception) : bool :=
  match e with
  | AssertionError _ => true
  | BCPandasValueError (MsgDuplicateColumns _) => true
  | BCPandasValueError MsgBatchSizeZero => true
  | BCPandasValueError MsgBatchSizeTooLarge => true
  | _ => false
  end.

(** The calls that only read the frame. *)
Definition is_selector_call (ev : Event) : Prop :=
  match ev with
  | EvGetDelimiter _ | EvGetQuotechar _ => True
  | _ => False
  end.

(** What each call of a run of [to_sql] is made with.  [d] is the caller's
    frame, [ts] the tables and [n] the number of temporary paths taken when
    [to_sql] starts. *)
Definition event_ok (table_name sql_type schema : string) (index : bool)
    (if_exists : string) (batch_size : option Z)
    (bcp_path error_path : option string) (d : DataFrame)
    (ts : gmap (string * string) (list (string * Z))) (n : nat)
    (ev : Event) : Prop :=
  match ev with
  | EvGetDelimiter x | EvGetQuotechar x => working_frame index d = Some x
  | EvWriteCsv p csv =>
      exists d' delim,
        prelude_ok sql_type if_exists index batch_size d d' delim
        /\ p = temp_name n /\ csv = flat_file d' delim
  | EvQueryExists st s t => st = sql_type /\ s = schema /\ t = table_name
  | EvQueryColumns s t =>
      s = schema /\ t = table_name /\ if_exists = "append"
  | EvWriteFormat p fmt =>
      exists d' delim,
        prelude_ok sql_type if_exists index batch_size d d' delim
        /\ p = temp_name (S n)
        /\ no_drift ts schema table_name if_exists d'
        /\ build_format_file d' delim
             (reconciled_cols ts schema table_name if_exists) = Ok fmt
  | EvDropTable s t =>
      s = schema /\ t = table_name /\ if_exists = "replace"
      /\ is_Some (ts !! (schema, table_name))
  | EvCreateTable s t cols =>
      s = schema /\ t = table_name
      /\ ddl_needed ts schema table_name if_exists = true
      /\ exists d', working_frame index d = Some d'
                    /\ cols = map py_str_label (columns d')
  | EvBcp args =>
      args = bcp_args table_name sql_type schema batch_size bcp_path
               error_path (temp_name n) (temp_name (S n))
  | EvRemove p => p = temp_name n \/ p = temp_name (S n)
  end.

(** [s] begins with [p]. *)
Definition starts_with (p s : string) : Prop := exists rest, s = p +:+ rest.

(** * Reasoning about statements *)

Section WpRules.
Context {A B : Type}.
Implicit Types (Q : Result A -> World -> Prop) (w : World).

Lemma wp_run (m : M A) Q w : wp m Q w -> forall r w', m w = (r, w') -> Q r w'.
Proof. unfold wp. intros H r w' E. now rewrite E in H. Qed.

Lemma wp_intro (m : M A) Q w : Q (m w).1 (m w).2 -> wp m Q w.
Proof. exact id. Qed.

Lemma wp_mono (m : M A) Q Q' w :
  wp m Q w -> (forall r w', Q r w' -> Q' r w') -> wp m Q' w.
Proof. unfold wp. auto. Qed.

Lemma wp_ret (a : A) Q w : Q (Ok a) w -> wp (ret a) Q w.
Proof. exact id. Qed.

Lemma wp_raise e Q w : Q (Raise e) w -> wp (raise e) Q w.
Proof. exact id. Qed.

Lemma wp_lift_result (r : Result A) Q w : Q r w -> wp (lift_result r) Q w.
Proof. exact id. Qed.

Lemma wp_bind (m : M B) (f : B -> M A) Q w :
  wp m (fun r w' => match r with
                    | Ok b => wp (f b) Q w'
                    | Raise e => Q (Raise e) w'
                    end) w ->
  wp (bind m f) Q w.
Proof. unfold wp, bind. destruct (m w) as [[b|e] w']; auto. Qed.

Lemma wp_try_finally (body : M A) (handler : M unit) Q w :
  wp body (fun r w' =>
    wp handler (fun r2 w'' => match r2 with
                              | Ok _ => Q r w''
                              | Raise e => Q (Raise e) w''
                              end) w') w ->
  wp (try_finally body handler) Q w.
Proof.
  unfold wp, try_finally. destruct (body w) as [r w']. simpl.
  destruct (handler w') as [[u|e] w'']; auto.
Qed.

End WpRules.

Lemma wp_py_assert cond msg (Q : Result unit -> World -> Prop) w :
  (cond = true -> Q (Ok tt) w) ->
  (cond = false -> Q (Raise (AssertionError msg)) w) ->
  wp (py_assert cond msg) Q w.
Proof. destruct cond; unfold wp; simpl; auto. Qed.

Lemma wp_emit ev (Q : Result unit -> World -> Prop) w :
  Q (Ok tt) (log ev w) -> wp (emit ev) Q w.
Proof. exact id. Qed.

Lemma wp_get_frame l d (Q : Result DataFrame -> World -> Prop) w :
  frames w !! l = Some d -> Q (Ok d) w -> wp (get_frame l) Q w.
Proof. unfold wp, get_frame. now intros ->. Qed.

Lemma wp_new_frame d (Q : Result nat -> World -> Prop) w :
  (forall l, frames w !! l = None ->
             Q (Ok l) (set_frames (<[l := d]> (frames w)) w)) ->
  wp (new_frame d) Q w.
Proof.
  intros H. unfold wp, new_frame. simpl. apply H.
  apply not_elem_of_dom, is_fresh.
Qed.

Lemma wp_df_to_csv l d path sep quoting quotechar nl
    (Q : Result unit -> World -> Prop) w :
  frames w !! l = Some d ->
  let csv := to_csv d sep quoting quotechar nl in
  let w1 := log (EvWriteCsv path csv) w in
  (csv_write_fails (faults w) = true -> Q (Raise (OSError path)) w1) ->
  (csv_write_fails (faults w) = false ->
   Q (Ok tt) (set_files (<[path := FlatFile csv]> (files w1)) w1)) ->
  wp (df_to_csv l path sep quoting quotechar nl) Q w.
Proof.
  intros Hl csv w1 H1 H2. unfold wp, df_to_csv, bind, get_frame, emit.
  rewrite Hl. simpl. fold csv. destruct (csv_write_fails (faults w)); auto.
Qed.

Lemma wp_write_format_file path txt (Q : Result unit -> World -> Prop) w :
  let w1 := log (EvWriteFormat path txt) w in
  (format_write_fails (faults w) = true -> Q (Raise (OSError path)) w1) ->
  (format_write_fails (faults w) = false ->
   Q (Ok tt) (set_files (<[path := FormatFile txt]> (files w1)) w1)) ->
  wp (write_format_file path txt) Q w.
Proof.
  intros w1 H1 H2. unfold wp, write_format_file, bind, emit. simpl.
  destruct (format_write_fails (faults w)); auto.
Qed.

Lemma wp_os_remove path (Q : Result unit -> World -> Prop) w :
  let w1 := log (EvRemove path) w in
  (forall c, files w !! path = Some c ->
             Q (Ok tt) (set_files (delete path (files w1)) w1)) ->
  (files w !! path = None -> Q (Raise (FileNotFoundError path)) w1) ->
  wp (os_remove path) Q w.
Proof.
  intros w1 H1 H2. unfold wp, os_remove, bind, emit. simpl.
  destruct (files w !! path) eqn:E; eauto.
Qed.

Lemma wp_sql_item_exists sql_type schema table_name
    (Q : Result bool -> World -> Prop) w :
  let w1 := log (EvQueryExists sql_type schema table_name) w in
  (exists_query_fails (faults w) = true ->
   Q (Raise (DatabaseError "INFORMATION_SCHEMA.TABLES")) w1) ->
  (exists_query_fails (faults w) = false ->
   forall cols, tables w !! (schema, table_name) = Some cols -> Q (Ok true) w1) ->
  (exists_query_fails (faults w) = false ->
   tables w !! (schema, table_name) = None -> Q (Ok false) w1) ->
  wp (_sql_item_exists sql_type schema table_name) Q w.
Proof.
  intros w1 H1 H2 H3. unfold wp, _sql_item_exists, bind, emit. simpl.
  destruct (exists_query_fails (faults w)); auto.
  destruct (tables w !! (schema, table_name)) eqn:E; simpl; eauto.
Qed.

Lemma wp_read_columns schema table_name
    (Q : Result (list (string * Z)) -> World -> Prop) w :
  let w1 := log (EvQueryColumns schema table_name) w in
  (columns_query_fails (faults w) = true ->
   Q (Raise (DatabaseError "INFORMATION_SCHEMA.COLUMNS")) w1) ->
  (columns_query_fails (faults w) = false ->
   Q (Ok (default [] (tables w !! (schema, table_name)))) w1) ->
  wp (read_columns schema table_name) Q w.
Proof.
  intros w1 H1 H2. unfold wp, read_columns, bind, emit. simpl.
  destruct (columns_query_fails (faults w)); auto.
Qed.

Lemma wp_execute_create schema table_name d (Q : Result unit -> World -> Prop) w :
  let w1 := log (EvCreateTable schema table_name (map py_str_label (columns d))) w in
  (create_table_fails (faults w) = true ->
   Q (Raise (DatabaseError "CREATE TABLE")) w1) ->
  (create_table_fails (faults w) = false ->
   Q (Ok tt) (set_tables (<[(schema, table_name) := table_columns d]> (tables w1)) w1)) ->
  wp (execute_create schema table_name d) Q w.
Proof.
  intros w1 H1 H2. unfold wp, execute_create, bind, emit. simpl.
  destruct (create_table_fails (faults w)); auto.
Qed.

Lemma wp_drop_table schema table_name (Q : Result unit -> World -> Prop) w :
  let w1 := log (EvDropTable schema table_name) w in
  Q (Ok tt) (set_tables (delete (schema, table_name) (tables w1)) w1) ->
  wp (drop_table schema table_name) Q w.
Proof. exact id. Qed.

(** [_create_table] on a table that is not there. *)
Lemma wp_create_table_new schema table_name df d if_exists dtype keys
    (Q : Result unit -> World -> Prop) w :
  frames w !! df = Some d ->
  tables w !! (schema, table_name) = None ->
  wp (execute_create schema table_name d) Q w ->
  wp (_create_table schema table_name df if_exists dtype keys) Q w.
Proof.
  intros Hd Ht H. unfold wp, _create_table, bind, get_frame in *.
  rewrite Hd. simpl. now rewrite Ht.
Qed.

(** [_create_table] with [if_exists="replace"] on a table that is there. *)
Lemma wp_create_table_replace schema table_name df d cols dtype keys
    (Q : Result unit -> World -> Prop) w :
  frames w !! df = Some d ->
  tables w !! (schema, table_name) = Some cols ->
  wp (drop_table schema table_name ;;; execute_create schema table_name d) Q w ->
  wp (_create_table schema table_name df "replace" dtype keys) Q w.
Proof.
  intros Hd Ht H. unfold wp, _create_table in *. unfold bind at 1 3.
  unfold get_frame. rewrite Hd. simpl. now rewrite Ht.
Qed.


Lemma wp_get_temp_file (Q : Result string -> World -> Prop) w :
  Q (Ok (temp_name (temp_count w))) (set_temp_count (S (temp_count w)) w) ->
  wp get_temp_file Q w.
Proof. exact id. Qed.

Lemma wp_bcp args (Q : Result unit -> World -> Prop) w :
  let w1 := log (EvBcp args) w in
  (bcp_fails (faults w) = true -> Q (Raise BcpFailed) w1) ->
  (bcp_fails (faults w) = false -> Q (Ok tt) w1) ->
  wp (bcp args) Q w.
Proof.
  intros w1 H1 H2. unfold wp, bcp, bind, emit. simpl.
  destruct (bcp_fails (faults w)); auto.
Qed.

Lemma wp_call_get_delimiter l d
    (Q : Result string -> World -> Prop) w :
  frames w !! l = Some d ->
  Q (get_delimiter d) (log (EvGetDelimiter d) w) ->
  wp (call_get_delimiter l) Q w.
Proof.
  intros Hl H. unfold wp, call_get_delimiter, bind, get_frame, emit, lift_result.
  now rewrite Hl.
Qed.

Lemma wp_call_get_quotechar l d
    (Q : Result string -> World -> Prop) w :
  frames w !! l = Some d ->
  Q (get_quotechar d) (log (EvGetQuotechar d) w) ->
  wp (call_get_quotechar l) Q w.
Proof.
  intros Hl H. unfold wp, call_get_quotechar, bind, get_frame, emit, lift_result.
  now rewrite Hl.
Qed.

(** ** Lists of labels *)

Lemma has_duplicates_NoDup (l : list Label) : has_duplicates l = false <-> NoDup l.
Proof.
  induction l as [|x l IH]; simpl.
  - split; [constructor|reflexivity].
  - rewrite orb_false_iff, bool_decide_eq_false, IH, NoDup_cons. tauto.
Qed.

Lemma has_duplicates_true (l : list Label) :
  (exists i j x, i <> j /\ l !! i = Some x /\ l !! j = Some x) ->
  has_duplicates l = true.
Proof.
  intros (i & j & x & Hij & Hi & Hj).
  destruct (has_duplicates l) eqn:E; [reflexivity|].
  apply has_duplicates_NoDup in E.
  destruct Hij. eapply NoDup_lookup; eauto.
Qed.

(** * [to_sql], block by block *)

Ltac world_simpl :=
  unfold log, set_frames, set_files, set_tables, set_temp_count;
  cbn [frames files tables temp_count faults trace].

Ltac solve_frame :=
  world_simpl;
  repeat first
    [ eassumption
    | apply lookup_insert_eq
    | eapply lookup_weaken; [|apply insert_subseteq; eassumption] ].

Ltac solve_table :=
  world_simpl; first [ eassumption | reflexivity ].

Ltac solve_sub :=
  repeat first
    [ reflexivity
    | eassumption
    | etrans; [|apply insert_subseteq; eassumption] ].

Ltac clean_tests :=
  repeat match goal with
         | H : bool_decide _ = true |- _ => apply bool_decide_eq_true in H
         | H : bool_decide _ = false |- _ => apply bool_decide_eq_false in H
         | H : negb _ = true |- _ => apply negb_true_iff in H
         | H : negb _ = false |- _ => apply negb_false_iff in H
         | H : (_ =? _)%Z = true |- _ => apply Z.eqb_eq in H
         | H : (_ =? _)%Z = false |- _ => apply Z.eqb_neq in H
         | H : (_ <? _)%Z = true |- _ => apply Z.ltb_lt in H
         | H : (_ <? _)%Z = false |- _ => apply Z.ltb_ge in H
         end.

Ltac wp_post :=
  cbn [negb]; cbv beta iota zeta; world_simpl;
  cbn [frames files tables temp_count faults trace] in *; clean_tests.

(** One statement of the program at the head of the goal: first the
    statements with one way out, then those with several. *)
Ltac wp_step_det :=
  lazymatch goal with
  | |- wp (bind _ _) _ _ => apply wp_bind
  | |- wp (ret _) _ _ => apply wp_ret
  | |- wp (raise _) _ _ => apply wp_raise
  | |- wp (lift_result _) _ _ => apply wp_lift_result
  | |- wp (emit _) _ _ => apply wp_emit
  | |- wp (get_frame _) _ _ => eapply wp_get_frame; [solve_frame|]
  | |- wp (new_frame _) _ _ =>
      let l := fresh "l" in let H := fresh "Hfresh" in
      apply wp_new_frame; intros l H; world_simpl; cbn [frames] in H
  | |- wp (df_copy _) _ _ => unfold df_copy
  | |- wp (df_reset_index _) _ _ => unfold df_reset_index
  | |- wp (df_replace_bools _) _ _ => unfold df_replace_bools
  | |- wp (call_get_delimiter _) _ _ =>
      eapply wp_call_get_delimiter; [solve_frame|]
  | |- wp (call_get_quotechar _) _ _ =>
      eapply wp_call_get_quotechar; [solve_frame|]
  | |- wp get_temp_file _ _ => apply wp_get_temp_file
  | |- wp (drop_table _ _) _ _ => apply wp_drop_table
  | |- wp (try_finally _ _) _ _ => apply wp_try_finally
  end; wp_post.

Ltac wp_step_branch :=
  lazymatch goal with
  | |- wp (py_assert _ _) _ _ => apply wp_py_assert; intros ?
  | |- wp (df_to_csv _ _ _ _ _ _) _ _ =>
      eapply wp_df_to_csv; [solve_frame| |]; intros ?
  | |- wp (write_format_file _ _) _ _ => apply wp_write_format_file; intros ?
  | |- wp (os_remove _) _ _ => apply wp_os_remove; [intros ? ?|intros ?]
  | |- wp (_sql_item_exists _ _ _) _ _ =>
      apply wp_sql_item_exists; [intros ?|intros ? ? ?|intros ? ?]
  | |- wp (read_columns _ _) _ _ => apply wp_read_columns; intros ?
  | |- wp (execute_create _ _ _) _ _ => apply wp_execute_create; intros ?
  | |- wp (bcp _) _ _ => apply wp_bcp; intros ?
  | |- wp (if bool_decide ?P then _ else _) _ _ =>
      let H := fresh "Hdec" in
      destruct (decide P) as [H|H];
      [ first [ discriminate H | rewrite (bool_decide_eq_true_2 P H) ]
      | first [ now (exfalso; apply H) | rewrite (bool_decide_eq_false_2 P H) ] ]
  | |- wp (if ?c then _ else _) _ _ => destruct c eqn:?
  | |- wp (match ?x with _ => _ end) _ _ => destruct x eqn:?
  | |- match ?x with Ok _ => _ | Raise _ => _ end => destruct x eqn:?
  end; wp_post.

Ltac wp_step := first [wp_step_det | wp_step_branch].
Ltac wp_det := repeat wp_step_det.

(** From a statement on the run to one in weakest-precondition form. *)
Ltac by_wp E :=
  revert E;
  lazymatch goal with
  | |- ?m ?w = (?r, ?w') -> _ =>
      revert r w'; apply (wp_run m _ w)
  end.

Opaque wp.

Ltac tidy_trace := rewrite <- ?app_assoc; cbn [app].

Lemma to_sql_blocks df table_name sql_type schema index if_exists batch_size
    debug bcp_path dtypes keys error_path :
  to_sql df table_name sql_type schema index if_exists batch_size debug
    bcp_path dtypes keys error_path
  = (d <- get_frame df ;;
     if (shape0 d =? 0)%nat || (shape1 d =? 0)%nat then ret tt else
     prelude_k df sql_type if_exists index batch_size d (fun df delim =>
     scratch_k df delim table_name sql_type schema if_exists
       (fun csv_file_path fmt_file_path sql_item_exists =>
     try_finally
       (load_body df table_name sql_type schema if_exists batch_size bcp_path
          dtypes keys error_path csv_file_path fmt_file_path sql_item_exists)
       (cleanup debug csv_file_path fmt_file_path)))).
Proof. reflexivity. Qed.

Lemma shape0_working_frame index d d' :
  working_frame index d = Some d' -> shape0 d' = shape0 d.
Proof.
  destruct index; simpl; [|congruence].
  unfold reset_index. case_bool_decide; [discriminate|].
  intros [= <-]. unfold shape0, range_index. simpl.
  now rewrite length_map, length_seq.
Qed.

(** Line 261: the frame to load is a new object when the index is asked
    for, the caller's otherwise. *)
Lemma wp_materialize_index df index d (Q : Result nat -> World -> Prop)
    F fs ts n fa tr :
  F !! df = Some d ->
  (forall msg F', F ⊆ F' -> working_frame index d = None ->
     Q (Raise (ValueError msg)) (mkWorld F' fs ts n fa tr)) ->
  (forall l d' F', F ⊆ F' -> F' !! l = Some d' ->
     working_frame index d = Some d' ->
     Q (Ok l) (mkWorld F' fs ts n fa tr)) ->
  wp (if index then c <- df_copy df ;; df_reset_index c else ret df) Q
     (mkWorld F fs ts n fa tr).
Proof.
  intros Hd Hraise Hok. destruct index.
  - repeat wp_step.
    + eapply Hok; [solve_sub|solve_frame|]. assumption.
    + eapply Hraise; [solve_sub|]. assumption.
  - wp_step. eapply Hok; [reflexivity|eassumption|reflexivity].
Qed.

(** Lines 250-272 either raise, in one of the ways of [prelude_exit], or go
    on with the frame to load and its delimiter.  Objects are made, none is
    changed; files and tables are as they were. *)
Lemma wp_prelude_k df sql_type if_exists index batch_size d k
    (Q : Result unit -> World -> Prop) F fs ts n fa tr :
  F !! df = Some d ->
  (forall e evs F', F ⊆ F' ->
     prelude_exit sql_type if_exists index batch_size d e evs ->
     Q (Raise e) (mkWorld F' fs ts n fa (tr ++ evs))) ->
  (forall l d' delim F', F ⊆ F' -> F' !! l = Some d' ->
     prelude_ok sql_type if_exists index batch_size d d' delim ->
     wp (k l delim) Q
        (mkWorld F' fs ts n fa (tr ++ [EvGetDelimiter d'; EvGetQuotechar d']))) ->
  wp (prelude_k df sql_type if_exists index batch_size d k) Q
     (mkWorld F fs ts n fa tr).
Proof.
  intros Hd Hexit Hk. unfold prelude_k.
  wp_step. wp_step.
  2:{ rewrite <- (app_nil_r tr). apply Hexit; [reflexivity|]. now constructor. }
  wp_step. wp_step.
  2:{ rewrite <- (app_nil_r tr). apply Hexit; [reflexivity|]. now constructor. }
  wp_step. wp_step.
  { wp_step. rewrite <- (app_nil_r tr). apply Hexit; [reflexivity|]. now constructor. }
  wp_step. wp_step.
  apply wp_materialize_index with (d := d); [assumption| |].
  { intros msg F' HF Hw. rewrite <- (app_nil_r tr).
    apply Hexit; [assumption|]. now constructor. }
  intros l d' F' HF Hl Hw.
  wp_step. wp_step. wp_step.
  2:{ apply Hexit; [assumption|]. now apply PE_delimiter. }
  wp_step. wp_step. wp_step.
  2:{ tidy_trace. apply Hexit; [assumption|]. eapply PE_quotechar; eassumption. }
  tidy_trace.
  wp_step. destruct batch_size as [b|].
  - wp_step.
    { wp_step. subst b.
      apply (Hexit _ _ F' HF
               (PE_batch_size sql_type if_exists index (Some 0) d d' _ _ 0
                  H H0 Heqb Hw Heqr Heqr0 eq_refl (or_introl eq_refl))). }
    wp_step. wp_step. wp_step.
    { wp_step.
      pose proof (PE_batch_size sql_type if_exists index (Some b) d d' _ _ b
                    H H0 Heqb Hw Heqr Heqr0 eq_refl (or_intror Heqb1)) as HE.
      destruct (Z.eqb_spec b 0) as [->|_]; [congruence|].
      apply (Hexit _ _ F' HF HE). }
    wp_step. apply Hk; [assumption..|].
    repeat split; eauto.
  - wp_step. apply Hk; [assumption..|].
    repeat split; eauto.
Qed.

(** Lines 296-322: the mapping from the catalog under [append], and the
    check for drift against a table that exists. *)
Lemma wp_reconcile l d' schema table_name if_exists
    (Q : Result (option (gmap string Z)) -> World -> Prop) F fs ts n fa tr :
  F !! l = Some d' ->
  (if_exists = "append" -> columns_query_fails fa = true ->
   Q (Raise (DatabaseError "INFORMATION_SCHEMA.COLUMNS"))
     (mkWorld F fs ts n fa (tr ++ [EvQueryColumns schema table_name]))) ->
  (forall cols, if_exists = "append" -> columns_query_fails fa = false ->
     ts !! (schema, table_name) = Some cols ->
     extra_columns d' (py_dict cols) <> [] ->
     Q (Raise (BCPandasValueError
                 (MsgExtraColumns (extra_columns d' (py_dict cols)))))
       (mkWorld F fs ts n fa (tr ++ [EvQueryColumns schema table_name]))) ->
  ((if_exists = "append" -> columns_query_fails fa = false) ->
   no_drift ts schema table_name if_exists d' ->
   Q (Ok (reconciled_cols ts schema table_name if_exists))
     (mkWorld F fs ts n fa
        (tr ++ if bool_decide (if_exists = "append")
               then [EvQueryColumns schema table_name] else []))) ->
  wp (if bool_decide (if_exists = "append") then
        rows <- read_columns schema table_name ;;
        let cols_dict := py_dict rows in
        (if bool_decide (is_Some (ts !! (schema, table_name))) then
           d <- get_frame l ;;
           let extra_cols := extra_columns d cols_dict in
           match extra_cols with
           | [] => ret tt
           | _ => raise (BCPandasValueError (MsgExtraColumns extra_cols))
           end
         else ret tt) ;;;
        ret (Some cols_dict)
      else ret None) Q (mkWorld F fs ts n fa tr).
Proof.
  intros Hl Hfault Hdrift Hok.
  unfold reconciled_cols, catalog_rows, no_drift in *.
  destruct (decide (if_exists = "append")) as [Ha|Ha].
  - rewrite (bool_decide_eq_true_2 _ Ha) in *.
    wp_step. wp_step; [now apply Hfault|].
    wp_step.
    destruct (ts !! (schema, table_name)) as [cols|] eqn:Ht.
    + rewrite bool_decide_eq_true_2 by eauto. simpl.
      wp_step. wp_step.
      destruct (extra_columns d' (py_dict cols)) as [|x xs] eqn:Hx.
      * wp_step. wp_step. apply Hok; [auto|]. intros _ ? [= <-]. assumption.
      * wp_step. rewrite <- Hx. apply Hdrift; auto. now rewrite Hx.
    + rewrite bool_decide_eq_false_2 by (intros [? ?]; discriminate). simpl.
      wp_step. wp_step. apply Hok; [auto|]. intros _ ? [=].
  - rewrite (bool_decide_eq_false_2 _ Ha) in *.
    wp_step. rewrite app_nil_r in Hok. apply Hok; intros ?; contradiction.
Qed.

(** Lines 274-327 either raise, in one of the ways of [scratch_exit], or go
    on with the two files written. *)
Lemma wp_scratch_k l d' delim table_name sql_type schema if_exists k
    (Q : Result unit -> World -> Prop) F fs ts n fa tr :
  F !! l = Some d' ->
  let p0 := temp_name n in
  let p1 := temp_name (S n) in
  (forall e evs written temps F', F ⊆ F' ->
     scratch_exit ts fa sql_type schema table_name if_exists d' delim p0 p1
       e evs written temps ->
     Q (Raise e)
       (mkWorld F'
          (if written : bool then <[p0 := FlatFile (flat_file d' delim)]> fs else fs)
          ts (temps + n) fa (tr ++ evs))) ->
  (forall fmt F', F ⊆ F' -> F' !! l = Some d' ->
     scratch_ok ts fa schema table_name if_exists d' delim fmt ->
     wp (k p0 p1 (bool_decide (is_Some (ts !! (schema, table_name))))) Q
        (mkWorld F'
           (<[p1 := FormatFile fmt]> (<[p0 := FlatFile (flat_file d' delim)]> fs))
           ts (S (S n)) fa
           (tr ++ EvWriteCsv p0 (flat_file d' delim)
               :: query_events sql_type schema table_name if_exists
               ++ [EvWriteFormat p1 fmt]))) ->
  wp (scratch_k l delim table_name sql_type schema if_exists k) Q
     (mkWorld F fs ts n fa tr).
Proof.
  intros Hl p0 p1 Hexit Hk. unfold scratch_k.
  wp_det. fold p0. fold (flat_file d' delim).
  wp_step.
  { apply (Hexit _ _ false 1%nat); [solve_sub|]. now constructor. }
  wp_det. fold p1.
  assert (Hex : forall (b : bool), b = bool_decide (is_Some (ts !! (schema, table_name))) ->
    exists_query_fails fa = false ->
    wp (cols_dict <-
        (if bool_decide (if_exists = "append") then
           rows <- read_columns schema table_name ;;
           let cols_dict := py_dict rows in
           (if b then
              d <- get_frame l ;;
              let extra_cols := extra_columns d cols_dict in
              match extra_cols with
              | [] => ret tt
              | _ => raise (BCPandasValueError (MsgExtraColumns extra_cols))
              end
            else ret tt) ;;;
           ret (Some cols_dict)
         else ret None) ;;
        d <- get_frame l ;;
        fmt_file_txt <- lift_result (build_format_file d delim cols_dict) ;;
        write_format_file p1 fmt_file_txt ;;; k p0 p1 b) Q
      (mkWorld (<[l0 := replace_bools d']> F)
         (<[p0 := FlatFile (flat_file d' delim)]> fs) ts (S (S n)) fa
         ((tr ++ [EvWriteCsv p0 (flat_file d' delim)])
          ++ [EvQueryExists sql_type schema table_name]))).
  { intros b -> Hq. wp_step.
    assert (Hl' : <[l0 := replace_bools d']> F !! l = Some d') by solve_frame.
    apply (wp_reconcile l d'); [assumption| | |].
    - intros Ha Hc. tidy_trace.
      apply (Hexit _ _ true 2%nat); [solve_sub|].
      pose proof (SE_columns ts fa sql_type schema table_name if_exists d'
                    delim p0 p1 H Hq Ha Hc) as HE.
      unfold query_events in HE. now rewrite (bool_decide_eq_true_2 _ Ha) in HE.
    - intros cols Ha Hc Ht Hx. tidy_trace.
      apply (Hexit _ _ true 2%nat); [solve_sub|].
      pose proof (SE_drift ts fa sql_type schema table_name if_exists d'
                    delim p0 p1 cols H Hq Ha Hc Ht Hx) as HE.
      unfold query_events in HE. now rewrite (bool_decide_eq_true_2 _ Ha) in HE.
    - intros Hc Hnd.
      assert (Htr : ((tr ++ [EvWriteCsv p0 (flat_file d' delim)])
                     ++ [EvQueryExists sql_type schema table_name])
                    ++ (if bool_decide (if_exists = "append")
                        then [EvQueryColumns schema table_name] else [])
                    = tr ++ EvWriteCsv p0 (flat_file d' delim)
                         :: query_events sql_type schema table_name if_exists).
      { unfold query_events. now rewrite <- !app_assoc. }
      rewrite Htr. clear Htr.
      wp_det. wp_step.
      2:{ apply (Hexit _ _ true 2%nat); [solve_sub|]. now apply SE_build. }
      wp_det. wp_step.
      * replace ((tr ++ EvWriteCsv p0 (flat_file d' delim)
                     :: query_events sql_type schema table_name if_exists)
                 ++ [EvWriteFormat p1 a])
          with (tr ++ (EvWriteCsv p0 (flat_file d' delim)
                       :: query_events sql_type schema table_name if_exists
                       ++ [EvWriteFormat p1 a]))
          by (now rewrite <- app_assoc).
        apply (Hexit _ _ true 2%nat); [solve_sub|].
        now apply SE_format.
      * replace ((tr ++ EvWriteCsv p0 (flat_file d' delim)
                     :: query_events sql_type schema table_name if_exists)
                 ++ [EvWriteFormat p1 a])
          with (tr ++ (EvWriteCsv p0 (flat_file d' delim)
                       :: query_events sql_type schema table_name if_exists
                       ++ [EvWriteFormat p1 a]))
          by (now rewrite <- app_assoc).
        apply Hk; [solve_sub|assumption|].
        repeat split; assumption. }
  wp_step.
  - tidy_trace. apply (Hexit _ _ true 2%nat); [solve_sub|]. now constructor.
  - apply (Hex true); [|assumption].
    symmetry. apply bool_decide_eq_true_2. eauto.
  - apply (Hex false); [|assumption].
    symmetry. apply bool_decide_eq_false_2. intros [? ?]; congruence.
Qed.

Lemma ddl_needed_replace ts schema table_name :
  ddl_needed ts schema table_name "replace" = true.
Proof.
  unfold ddl_needed. destruct (ts !! (schema, table_name)); [|reflexivity].
  now apply bool_decide_eq_true_2.
Qed.

Lemma ddl_needed_absent ts schema table_name if_exists :
  ts !! (schema, table_name) = None ->
  ddl_needed ts schema table_name if_exists = true.
Proof. unfold ddl_needed. now intros ->. Qed.

(** The leaves of [wp_load_body]: the outcome [HO] gives the goal once its
    events, result and tables are computed. *)
Ltac load_leaf Hout HO :=
  let HQ := fresh "HQ" in
  pose proof (Hout _ _ _ HO) as HQ;
  unfold ddl_events, bcp_result in HQ;
  repeat match type of HQ with
         | context [bcp_fails ?fa] =>
             match goal with H : bcp_fails fa = _ |- _ => rewrite H in HQ end
         | context [?ts !! ?k] =>
             match goal with H : ts !! k = _ |- _ => rewrite H in HQ end
         end;
  rewrite ?insert_delete_eq;
  first [ exact HQ
        | rewrite delete_id in HQ by assumption; exact HQ ].

(** The body of the [try] statement ends in one of the ways of
    [load_outcome]. *)
Lemma wp_load_body l d' table_name sql_type schema if_exists batch_size
    bcp_path dtypes keys error_path p0 p1
    (Q : Result unit -> World -> Prop) F fs ts n fa tr :
  F !! l = Some d' ->
  if_exists ∈ IF_EXISTS_OPTIONS ->
  let args := bcp_args table_name sql_type schema batch_size bcp_path
                error_path p0 p1 in
  (forall r evs ts',
     load_outcome ts fa sql_type schema table_name if_exists d' args r evs ts' ->
     Q r (mkWorld F fs ts' n fa (tr ++ evs))) ->
  wp (load_body l table_name sql_type schema if_exists batch_size bcp_path
        dtypes keys error_path p0 p1
        (bool_decide (is_Some (ts !! (schema, table_name))))) Q
     (mkWorld F fs ts n fa tr).
Proof.
  intros Hl Hopt args Hout. unfold load_body. fold args.
  unfold IF_EXISTS_OPTIONS in Hopt.
  destruct (ts !! (schema, table_name)) as [cols|] eqn:Ht.
  - rewrite (bool_decide_eq_true_2 (is_Some (Some cols))) by eauto.
    apply elem_of_cons in Hopt as [->|Hopt];
      [|apply elem_of_cons in Hopt as [->|Hopt];
        [|apply elem_of_cons in Hopt as [->|Hopt];
          [|now apply elem_of_nil in Hopt]]].
    + repeat wp_step; tidy_trace.
      all: load_leaf Hout
             (LO_appended ts fa sql_type schema table_name "append" d' args
                cols eq_refl Ht).
    + do 3 wp_step.
      eapply wp_create_table_replace; [solve_frame|solve_table|].
      repeat wp_step; tidy_trace.
      * load_leaf Hout
          (LO_create_failed ts fa sql_type schema table_name "replace" d' args
             (ddl_needed_replace _ _ _) H).
      * load_leaf Hout
          (LO_created ts fa sql_type schema table_name "replace" d' args
             (ddl_needed_replace _ _ _) H).
      * load_leaf Hout
          (LO_created ts fa sql_type schema table_name "replace" d' args
             (ddl_needed_replace _ _ _) H).
    + repeat wp_step. rewrite <- (app_nil_r tr).
      apply Hout. now apply LO_already_exists with (cols := cols).
  - rewrite (bool_decide_eq_false_2 (is_Some None))
      by (intros [? ?]; discriminate).
    assert (Hcreate :
      wp (_create_table schema table_name l if_exists dtypes keys ;;; bcp args)
         Q (mkWorld F fs ts n fa tr)).
    { wp_step. eapply wp_create_table_new; [solve_frame|solve_table|].
      repeat wp_step; tidy_trace.
      - load_leaf Hout
          (LO_create_failed ts fa sql_type schema table_name if_exists d' args
             (ddl_needed_absent _ _ _ _ Ht) H).
      - load_leaf Hout
          (LO_created ts fa sql_type schema table_name if_exists d' args
             (ddl_needed_absent _ _ _ _ Ht) H).
      - load_leaf Hout
          (LO_created ts fa sql_type schema table_name if_exists d' args
             (ddl_needed_absent _ _ _ _ Ht) H). }
    apply elem_of_cons in Hopt as [->|Hopt];
      [|apply elem_of_cons in Hopt as [->|Hopt];
        [|apply elem_of_cons in Hopt as [->|Hopt];
          [|now apply elem_of_nil in Hopt]]].
    + rewrite (bool_decide_eq_false_2 ("append" = "fail")) by discriminate.
      rewrite (bool_decide_eq_false_2 ("append" = "replace")) by discriminate.
      rewrite (bool_decide_eq_true_2 ("append" = "append")) by reflexivity.
      exact Hcreate.
    + rewrite (bool_decide_eq_false_2 ("replace" = "fail")) by discriminate.
      rewrite (bool_decide_eq_true_2 ("replace" = "replace")) by reflexivity.
      exact Hcreate.
    + rewrite (bool_decide_eq_true_2 ("fail" = "fail")) by reflexivity.
      exact Hcreate.
Qed.

(** The [try] statement: the body, then the [finally] clause on every way
    out of it. *)
Lemma wp_load l d' table_name sql_type schema if_exists batch_size
    bcp_path dtypes keys error_path p0 p1 debug
    (Q : Result unit -> World -> Prop) F fs ts n fa tr :
  F !! l = Some d' ->
  if_exists ∈ IF_EXISTS_OPTIONS ->
  is_Some (fs !! p0) ->
  (p0 <> p1 -> is_Some (fs !! p1)) ->
  let args := bcp_args table_name sql_type schema batch_size bcp_path
                error_path p0 p1 in
  (forall r evs ts',
     load_outcome ts fa sql_type schema table_name if_exists d' args r evs ts' ->
     Q (cleanup_result debug p0 p1 r)
       (mkWorld F (cleanup_files debug p0 p1 fs) ts' n fa
          (tr ++ evs ++ cleanup_events debug p0 p1))) ->
  wp (try_finally
        (load_body l table_name sql_type schema if_exists batch_size bcp_path
           dtypes keys error_path p0 p1
           (bool_decide (is_Some (ts !! (schema, table_name)))))
        (cleanup debug p0 p1)) Q
     (mkWorld F fs ts n fa tr).
Proof.
  intros Hl Hopt [c0 H0] H1 args Hout.
  apply wp_try_finally. apply (wp_load_body l d'); [assumption..|].
  intros r evs ts' HO. specialize (Hout r evs ts' HO).
  unfold cleanup, cleanup_result, cleanup_files, cleanup_events in *.
  destruct debug; cbn [negb].
  - wp_step. now rewrite app_nil_r in Hout.
  - wp_step. wp_step; [|congruence].
    destruct (decide (p0 = p1)) as [<-|Hne].
    + rewrite (bool_decide_eq_true_2 (p0 = p0)) in Hout by reflexivity.
      rewrite delete_delete_eq in Hout.
      wp_step.
      { rewrite lookup_delete_eq in H2. discriminate. }
      tidy_trace. exact Hout.
    + rewrite (bool_decide_eq_false_2 (p0 = p1)) in Hout by assumption.
      destruct (H1 Hne) as [c1 Hc1].
      wp_step.
      2:{ rewrite lookup_delete_ne in H2 by assumption. congruence. }
      tidy_trace. exact Hout.
Qed.

(** [to_sql] on a frame that is not empty ends in one of three ways: it
    raises in lines 250-272, it raises in lines 274-327, or it reaches the
    [try] statement and ends after the [finally] clause. *)
Lemma to_sql_cases df d table_name sql_type schema index if_exists batch_size
    debug bcp_path dtypes keys error_path
    (Q : Result unit -> World -> Prop) F fs ts n fa tr :
  F !! df = Some d ->
  shape0 d <> 0%nat -> shape1 d <> 0%nat ->
  let p0 := temp_name n in
  let p1 := temp_name (S n) in
  (forall e evs F', F ⊆ F' ->
     prelude_exit sql_type if_exists index batch_size d e evs ->
     Q (Raise e) (mkWorld F' fs ts n fa (tr ++ evs))) ->
  (forall d' delim e evs written temps F', F ⊆ F' ->
     prelude_ok sql_type if_exists index batch_size d d' delim ->
     scratch_exit ts fa sql_type schema table_name if_exists d' delim p0 p1
       e evs written temps ->
     Q (Raise e)
       (mkWorld F'
          (if written : bool then <[p0 := FlatFile (flat_file d' delim)]> fs else fs)
          ts (temps + n) fa
          (tr ++ [EvGetDelimiter d'; EvGetQuotechar d'] ++ evs))) ->
  (forall d' delim fmt r evs ts' F', F ⊆ F' ->
     prelude_ok sql_type if_exists index batch_size d d' delim ->
     scratch_ok ts fa schema table_name if_exists d' delim fmt ->
     load_outcome ts fa sql_type schema table_name if_exists d'
       (bcp_args table_name sql_type schema batch_size bcp_path error_path p0 p1)
       r evs ts' ->
     Q (cleanup_result debug p0 p1 r)
       (mkWorld F'
          (cleanup_files debug p0 p1
             (<[p1 := FormatFile fmt]> (<[p0 := FlatFile (flat_file d' delim)]> fs)))
          ts' (S (S n)) fa
          (tr ++ [EvGetDelimiter d'; EvGetQuotechar d']
              ++ (EvWriteCsv p0 (flat_file d' delim)
                  :: query_events sql_type schema table_name if_exists
                  ++ [EvWriteFormat p1 fmt])
              ++ evs ++ cleanup_events debug p0 p1))) ->
  wp (to_sql df table_name sql_type schema index if_exists batch_size debug
        bcp_path dtypes keys error_path) Q (mkWorld F fs ts n fa tr).
Proof.
  intros Hd H0 H1 p0 p1 Hpre Hscr Hload.
  rewrite to_sql_blocks. wp_step. wp_step.
  destruct ((shape0 d =? 0)%nat || (shape1 d =? 0)%nat) eqn:Hempty.
  { apply orb_true_iff in Hempty as [?%Nat.eqb_eq|?%Nat.eqb_eq]; congruence. }
  apply (wp_prelude_k df sql_type if_exists index batch_size d); [assumption..|].
  intros l d' delim F1 HF1 Hl Hok.
  apply (wp_scratch_k l d').
  - assumption.
  - intros e evs written temps F2 HF2 HE.
    rewrite <- app_assoc. apply Hscr; [by etrans|assumption..].
  - intros fmt F2 HF2 Hl2 Hsok. fold p0. fold p1.
    apply (wp_load l d').
    + assumption.
    + apply Hok.
    + destruct (decide (p1 = p0)) as [->|Hne].
      * rewrite lookup_insert_eq. eauto.
      * rewrite lookup_insert_ne, lookup_insert_eq by assumption. eauto.
    + intros _. rewrite lookup_insert_eq. eauto.
    + intros r evs ts' HO.
      specialize (Hload d' delim fmt r evs ts' F2).
      rewrite <- !app_assoc in *. cbn [app] in *.
      apply Hload; [by etrans|assumption..].
Qed.

(** ** The calls of a run *)

Ltac split_Forall :=
  repeat first [ apply Forall_nil_2
               | apply Forall_cons; split
               | apply Forall_app; split ].

Lemma prelude_exit_events sql_type if_exists index batch_size d e evs x :
  prelude_exit sql_type if_exists index batch_size d e evs ->
  Forall (fun ev => ev = EvGetDelimiter x \/ ev = EvGetQuotechar x
                    -> working_frame index d = Some x) evs.
Proof.
  intros HE. destruct HE; split_Forall; intros [[=]|[=]]; congruence.
Qed.

Lemma to_sql_empty df d table_name sql_type schema index if_exists
    batch_size debug bcp_path dtypes keys error_path w :
  frames w !! df = Some d ->
  shape0 d = 0%nat \/ shape1 d = 0%nat ->
  to_sql df table_name sql_type schema index if_exists batch_size debug
    bcp_path dtypes keys error_path w = (Ok tt, w).
Proof.
  intros Hd Hempty. unfold to_sql. unfold bind at 1, get_frame.
  rewrite Hd.
  destruct Hempty as [-> | ->]; [reflexivity|].
  now rewrite orb_true_r.
Qed.

(** Every call of a run is as [event_ok] says,
    and no object that was there is changed. *)
Lemma to_sql_events df d table_name sql_type schema index if_exists batch_size
    debug bcp_path dtypes keys error_path w r w' :
  frames w !! df = Some d ->
  to_sql df table_name sql_type schema index if_exists batch_size debug
    bcp_path dtypes keys error_path w = (r, w') ->
  frames w ⊆ frames w'
  /\ exists evs,
       trace w' = trace w ++ evs
       /\ Forall (event_ok table_name sql_type schema index if_exists
                    batch_size bcp_path error_path d
                    (tables w) (temp_count w)) evs.
Proof.
  intros Hd E.
  destruct (decide (shape0 d = 0%nat \/ shape1 d = 0%nat)) as [Hempty|Hne].
  { rewrite (to_sql_empty df d) in E by assumption. injection E as <- <-.
    split; [reflexivity|]. exists []. now rewrite app_nil_r. }
  assert (H0 : shape0 d <> 0%nat) by tauto.
  assert (H1 : shape1 d <> 0%nat) by tauto. clear Hne.
  destruct w as [F fs ts n fa tr]. cbn in Hd |- *.
  by_wp E. apply (to_sql_cases df d); try assumption.
  - intros e evs F' HF HE. cbn. split; [assumption|].
    exists evs. split; [reflexivity|].
    destruct HE; split_Forall; cbn; assumption.
  - intros d' delim e evs written temps F' HF Hok HE. cbn.
    split; [assumption|]. eexists. split; [reflexivity|].
    pose proof Hok as (_ & _ & _ & Hw & _).
    destruct HE; unfold query_events; split_Forall; cbn; eauto 10.
    all: try (rewrite bool_decide_eq_true_2 by assumption; split_Forall; cbn;
              eauto 10).
    all: destruct (bool_decide (if_exists = "append")) eqn:Ha; clean_tests;
      split_Forall; cbn; eauto 10.
  - intros d' delim fmt r0 evs ts' F' HF Hok Hsok HO. cbn.
    split; [assumption|]. eexists. split; [reflexivity|].
    pose proof Hok as (_ & _ & _ & Hw & _).
    pose proof Hsok as (_ & _ & _ & Hnd & Hb & _).
    unfold query_events, cleanup_events.
    destruct (bool_decide (if_exists = "append")) eqn:Ha; clean_tests;
      destruct debug; split_Forall; cbn; eauto 10.
    all: destruct HO; unfold ddl_events; split_Forall; cbn; eauto 10.
    all: try (destruct (ts !! (schema, table_name)) eqn:Ht;
              split_Forall; cbn; eauto 10).
    all: unfold ddl_needed in *; rewrite Ht in *; clean_tests; eauto 10.
Qed.

(** ** The format file and the mapping from the catalog *)

Lemma result_all_Ok {A} (l : list (Result A)) (l' : list A) :
  result_all l = Ok l' ->
  length l' = length l
  /\ forall i a, l' !! i = Some a -> l !! i = Some (Ok a).
Proof.
  revert l'. induction l as [|[a|e] l IH]; intros l' E; simpl in E.
  - injection E as <-. split; [reflexivity|]. intros i a. now rewrite lookup_nil.
  - destruct (result_all l) as [l0|e] eqn:El; [|discriminate].
    injection E as <-. destruct (IH l0 eq_refl) as [Hlen Hlk].
    split; [simpl; congruence|].
    intros [|i] b; simpl; [congruence|apply Hlk].
  - discriminate.
Qed.

Lemma result_all_total {A} (l : list (Result A)) :
  Forall (fun r => exists a, r = Ok a) l -> exists l', result_all l = Ok l'.
Proof.
  induction 1 as [|r l [a ->] _ [l' IH]]; simpl; [eauto|].
  rewrite IH. eauto.
Qed.

(** The records of the format file, one per column and in their order. *)
Lemma build_format_file_spec d' delim cols_dict (fmt : FormatFileModel) :
  build_format_file d' delim cols_dict = Ok fmt ->
  length fmt = length (columns d')
  /\ forall i x fd,
       columns d' !! i = Some x -> fmt !! i = Some fd ->
       file_ordinal fd = Z.of_nat (S i)
       /\ source_column_name fd = py_str_label x
       /\ resolve_destination cols_dict (Z.of_nat (S i)) x
          = Ok (destination_ordinal fd).
Proof.
  unfold build_format_file. intros E.
  apply result_all_Ok in E as [Hlen Hlk].
  rewrite length_imap in Hlen. split; [assumption|].
  intros i x fd Hx Hfd. apply Hlk in Hfd.
  rewrite list_lookup_imap, Hx in Hfd. simpl in Hfd.
  injection Hfd as Hfd. unfold build_field in Hfd.
  destruct (resolve_destination cols_dict (Z.of_nat (S i)) x) as [o|e];
    [|discriminate].
  injection Hfd as <-. auto.
Qed.

Lemma build_format_file_total d' delim cols_dict :
  (forall i x, columns d' !! i = Some x ->
     exists o, resolve_destination cols_dict (Z.of_nat (S i)) x = Ok o) ->
  exists fmt, build_format_file d' delim cols_dict = Ok fmt.
Proof.
  intros H. unfold build_format_file. apply result_all_total.
  apply Forall_lookup. intros i r Hr.
  rewrite list_lookup_imap in Hr.
  destruct (columns d' !! i) as [x|] eqn:Hx; [|discriminate].
  injection Hr as <-. destruct (H i x Hx) as [o Ho].
  unfold build_field. rewrite Ho. eauto.
Qed.

Lemma py_dict_lookup_None (rows : list (string * Z)) (s : string) :
  py_dict rows !! s = None <-> s ∉ rows.*1.
Proof.
  unfold py_dict.
  assert (G : forall (m : gmap string Z),
    foldl (fun m kv => <[kv.1 := kv.2]> m) m rows !! s = None
    <-> m !! s = None /\ s ∉ rows.*1).
  { induction rows as [|[k v] rows IH]; intros m; simpl.
    - rewrite elem_of_nil. tauto.
    - rewrite IH, lookup_insert_None, not_elem_of_cons. simpl.
      split; intros; destruct_and?; repeat split; auto. }
  rewrite G, lookup_empty. tauto.
Qed.

(** The columns of the drift error are the columns of the frame that are
    not among the columns of the table, in the order of the frame. *)
Lemma extra_columns_spec d' (rows : list (string * Z)) :
  extra_columns d' (py_dict rows)
  = filter (fun s => s ∉ rows.*1) (map py_str_label (columns d')).
Proof.
  unfold extra_columns. induction (columns d') as [|x l IH]; [reflexivity|].
  cbn [map]. rewrite !filter_cons.
  destruct (decide (py_dict rows !! py_str_label x = None)) as [Hn|Hn];
    destruct (decide (py_str_label x ∉ rows.*1)) as [Hm|Hm].
  - cbn [map]. now rewrite IH.
  - now apply py_dict_lookup_None in Hn.
  - now apply py_dict_lookup_None in Hm.
  - exact IH.
Qed.

Lemma extra_columns_nil d' (m : gmap string Z) :
  extra_columns d' m = [] ->
  forall x, x ∈ columns d' -> is_Some (m !! py_str_label x).
Proof.
  unfold extra_columns. intros E x Hx.
  apply fmap_nil_inv in E.
  destruct (m !! py_str_label x) eqn:Hm; [eauto|].
  assert (x ∈ filter (fun x => m !! py_str_label x = None) (columns d'))
    by (apply list_elem_of_filter; auto).
  rewrite E in H. now apply elem_of_nil in H.
Qed.

(** Without a mapping the destination ordinal is the file ordinal. *)
Lemma reconciled_cols_fresh ts schema table_name if_exists col_num x :
  if_exists <> "append" \/ ts !! (schema, table_name) = None ->
  resolve_destination (reconciled_cols ts schema table_name if_exists) col_num x
  = Ok col_num.
Proof.
  unfold reconciled_cols, catalog_rows. intros H.
  destruct (decide (if_exists = "append")) as [Ha|Ha].
  - rewrite bool_decide_eq_true_2 by assumption.
    destruct H as [H|H]; [contradiction|]. rewrite H. reflexivity.
  - rewrite bool_decide_eq_false_2 by assumption. reflexivity.
Qed.

(** Under [append] against a table that has every column of the frame, the
    destination ordinal is the one of the catalog. *)
Lemma reconciled_cols_existing ts schema table_name d' cols col_num x :
  ts !! (schema, table_name) = Some cols ->
  no_drift ts schema table_name "append" d' ->
  x ∈ columns d' ->
  exists o, py_dict cols !! py_str_label x = Some o
            /\ resolve_destination (reconciled_cols ts schema table_name "append")
                 col_num x = Ok o.
Proof.
  intros Ht Hnd Hx. unfold reconciled_cols, catalog_rows. rewrite Ht. simpl.
  destruct (extra_columns_nil d' (py_dict cols) (Hnd eq_refl cols Ht) x Hx)
    as [o Ho].
  exists o. split; [assumption|].
  rewrite ?(bool_decide_eq_true_2 ("append" = "append")) by reflexivity.
  unfold resolve_destination.
  rewrite (bool_decide_eq_false_2 (py_dict cols = ∅)).
  - now rewrite Ho.
  - intros Hm. rewrite Hm, lookup_empty in Ho. discriminate.
Qed.

(** The format file is always made once the drift check is passed. *)
Lemma build_format_file_reconciled ts schema table_name if_exists d' delim :
  no_drift ts schema table_name if_exists d' ->
  exists fmt,
    build_format_file d' delim (reconciled_cols ts schema table_name if_exists)
    = Ok fmt.
Proof.
  intros Hnd. apply build_format_file_total. intros i x Hx.
  destruct (decide (if_exists = "append")) as [->|Ha].
  - destruct (ts !! (schema, table_name)) as [cols|] eqn:Ht.
    + destruct (reconciled_cols_existing ts schema table_name d' cols
                  (Z.of_nat (S i)) x Ht Hnd) as (o & _ & Ho); [|eauto].
      eapply list_elem_of_lookup_2; eassumption.
    + rewrite reconciled_cols_fresh by auto. eauto.
  - rewrite reconciled_cols_fresh by auto. eauto.
Qed.

Lemma prelude_ok_unique sql_type if_exists index batch_size d d1 delim1 d2 delim2 :
  prelude_ok sql_type if_exists index batch_size d d1 delim1 ->
  prelude_ok sql_type if_exists index batch_size d d2 delim2 ->
  d1 = d2 /\ delim1 = delim2.
Proof.
  intros (_ & _ & _ & Hw1 & Hdel1 & _) (_ & _ & _ & Hw2 & Hdel2 & _).
  assert (d1 = d2) as -> by congruence. split; congruence.
Qed.

Lemma prelude_ok_not_exit sql_type if_exists index batch_size d d' delim e evs :
  prelude_ok sql_type if_exists index batch_size d d' delim ->
  prelude_exit sql_type if_exists index batch_size d e evs -> False.
Proof.
  intros (Hs & Hi & Hdup & Hw & Hdel & [q Hq] & Hb) HE.
  destruct HE; try congruence.
  assert (d'0 = d') as -> by congruence.
  subst batch_size. simpl in Hb.
  apply shape0_working_frame in Hw. lia.
Qed.

Lemma extra_columns_missing d' (cols : list (string * Z)) :
  extra_columns d' (py_dict cols) = [] <->
  forall x, x ∈ columns d' -> py_str_label x ∈ cols.*1.
Proof.
  split.
  - intros E x Hx. destruct (extra_columns_nil d' _ E x Hx) as [o Ho].
    destruct (decide (py_str_label x ∈ cols.*1)) as [|Hn]; [assumption|].
    apply py_dict_lookup_None in Hn. congruence.
  - intros H. unfold extra_columns.
    destruct (filter _ (columns d')) as [|x l] eqn:Hf; [reflexivity|].
    assert (Hx : x ∈ filter (fun x => py_dict cols !! py_str_label x = None)
                       (columns d')) by (rewrite Hf; left).
    apply list_elem_of_filter in Hx as [Hn Hx].
    apply py_dict_lookup_None in Hn. now apply H in Hx.
Qed.

(** The mapping [dict] makes of the rows of the catalog gives a name the
    ordinal of the last row that has it. *)
Lemma py_dict_snoc (rows : list (string * Z)) (kv : string * Z) :
  py_dict (rows ++ [kv]) = <[kv.1 := kv.2]> (py_dict rows).
Proof. unfold py_dict. now rewrite foldl_app. Qed.

Lemma py_dict_lookup_Some (rows : list (string * Z)) (s : string) (o : Z) :
  py_dict rows !! s = Some o <->
  exists k, rows !! k = Some (s, o)
            /\ forall k' o', (k < k')%nat -> rows !! k' <> Some (s, o').
Proof.
  induction rows as [|[k0 v0] l IH] using rev_ind.
  - unfold py_dict. cbn. rewrite lookup_empty. split; [discriminate|].
    intros (k & Hk & _). now rewrite lookup_nil in Hk.
  - rewrite py_dict_snoc. cbn [fst snd].
    destruct (decide (k0 = s)) as [->|Hne].
    + rewrite lookup_insert_eq. split.
      * intros [= ->]. exists (length l). split.
        -- now rewrite list_lookup_middle.
        -- intros k' o' Hlt Hk'. apply lookup_lt_Some in Hk'.
           rewrite length_app in Hk'. cbn in Hk'. lia.
      * intros (k & Hk & Hlast).
        destruct (decide (k < length l)%nat) as [Hlt|Hge].
        -- exfalso. apply (Hlast (length l) v0 Hlt).
           now rewrite list_lookup_middle.
        -- pose proof (lookup_lt_Some _ _ _ Hk) as Hlen.
           rewrite length_app in Hlen. cbn in Hlen.
           assert (k = length l) as -> by lia.
           rewrite list_lookup_middle in Hk by reflexivity. congruence.
    + rewrite lookup_insert_ne by assumption. rewrite IH. split.
      * intros (k & Hk & Hlast). exists k. split.
        -- rewrite lookup_app_l; [assumption|]. eapply lookup_lt_Some; eassumption.
        -- intros k' o' Hlt Hk'.
           destruct (decide (k' < length l)%nat) as [Hin|Hout].
           ++ rewrite lookup_app_l in Hk' by assumption. exact (Hlast k' o' Hlt Hk').
           ++ pose proof (lookup_lt_Some _ _ _ Hk') as Hlen.
              rewrite length_app in Hlen. cbn in Hlen.
              assert (k' = length l) as -> by lia.
              rewrite list_lookup_middle in Hk' by reflexivity. congruence.
      * intros (k & Hk & Hlast).
        destruct (decide (k < length l)%nat) as [Hlt|Hge].
        -- exists k. rewrite lookup_app_l in Hk by assumption.
           split; [assumption|]. intros k' o' Hlt' Hk'.
           apply (Hlast k' o' Hlt').
           rewrite lookup_app_l; [assumption|]. eapply lookup_lt_Some; eassumption.
        -- exfalso. pose proof (lookup_lt_Some _ _ _ Hk) as Hlen.
           rewrite length_app in Hlen. cbn in Hlen.
           assert (k = length l) as -> by lia.
           rewrite list_lookup_middle in Hk by reflexivity. congruence.
Qed.

(** A run whose arguments pass the checks calls the two selectors and then
    writes the flat file of the frame to load, at the first temporary
    path. *)
Lemma to_sql_writes_flat_file df d d' delim table_name sql_type schema index
    if_exists batch_size debug bcp_path dtypes keys error_path w r w' :
  frames w !! df = Some d ->
  shape0 d <> 0%nat -> shape1 d <> 0%nat ->
  prelude_ok sql_type if_exists index batch_size d d' delim ->
  to_sql df table_name sql_type schema index if_exists batch_size debug
    bcp_path dtypes keys error_path w = (r, w') ->
  exists rest,
    trace w'
    = trace w
      ++ [EvGetDelimiter d'; EvGetQuotechar d';
          EvWriteCsv (temp_name (temp_count w)) (flat_file d' delim)]
      ++ rest.
Proof.
  intros Hd H0 H1 Hok E.
  destruct w as [F fs ts n fa tr]. cbn in Hd |- *.
  by_wp E. apply (to_sql_cases df d); try assumption.
  - intros e evs F' HF HE. exfalso. eapply prelude_ok_not_exit; eassumption.
  - intros d0 delim0 e evs written temps F' HF Hok0 HE. cbn.
    destruct (prelude_ok_unique _ _ _ _ _ _ _ _ _ Hok Hok0) as [<- <-].
    destruct HE; eexists; cbn [app]; reflexivity.
  - intros d0 delim0 fmt r0 evs ts' F' HF Hok0 Hsok HO. cbn.
    destruct (prelude_ok_unique _ _ _ _ _ _ _ _ _ Hok Hok0) as [<- <-].
    eexists. cbn [app]. reflexivity.
Qed.

(** When moreover the flat file can be written, the catalog answers and
    the frame has no column the table lacks, the run goes on to the
    queries and to the writing of the format file, at the second
    temporary path. *)
Lemma to_sql_writes_format_file df d d' delim table_name sql_type schema index
    if_exists batch_size debug bcp_path dtypes keys error_path w r w' :
  frames w !! df = Some d ->
  shape0 d <> 0%nat -> shape1 d <> 0%nat ->
  prelude_ok sql_type if_exists index batch_size d d' delim ->
  csv_write_fails (faults w) = false ->
  exists_query_fails (faults w) = false ->
  (if_exists = "append" -> columns_query_fails (faults w) = false) ->
  no_drift (tables w) schema table_name if_exists d' ->
  to_sql df table_name sql_type schema index if_exists batch_size debug
    bcp_path dtypes keys error_path w = (r, w') ->
  exists fmt rest,
    build_format_file d' delim
      (reconciled_cols (tables w) schema table_name if_exists) = Ok fmt
    /\ trace w'
       = trace w
         ++ [EvGetDelimiter d'; EvGetQuotechar d';
             EvWriteCsv (temp_name (temp_count w)) (flat_file d' delim)]
         ++ query_events sql_type schema table_name if_exists
         ++ [EvWriteFormat (temp_name (S (temp_count w))) fmt] ++ rest.
Proof.
  intros Hd H0 H1 Hok Hc Hq Hcq Hnd E.
  destruct w as [F fs ts n fa tr]. cbn in Hd, Hc, Hq, Hcq, Hnd |- *.
  by_wp E. apply (to_sql_cases df d); try assumption.
  - intros e evs F' HF HE. exfalso. eapply prelude_ok_not_exit; eassumption.
  - intros d0 delim0 e evs written temps F' HF Hok0 HE. cbn.
    destruct (prelude_ok_unique _ _ _ _ _ _ _ _ _ Hok Hok0) as [<- <-].
    destruct HE as [ | | _ _ Ha ? | cols _ _ Ha _ Ht Hx | e _ _ _ _ Hb
                   | fmt _ _ _ _ Hb _ ]; try congruence.
    + specialize (Hcq Ha). congruence.
    + exfalso. apply Hx. exact (Hnd Ha cols Ht).
    + exfalso.
      destruct (build_format_file_reconciled _ _ _ _ _ delim Hnd) as [fmt Hfmt].
      congruence.
    + exists fmt, []. split; [assumption|]. cbn [app]. reflexivity.
  - intros d0 delim0 fmt r0 evs ts' F' HF Hok0 Hsok HO. cbn.
    destruct (prelude_ok_unique _ _ _ _ _ _ _ _ _ Hok Hok0) as [<- <-].
    destruct Hsok as (_ & _ & _ & _ & Hb & _).
    exists fmt, (evs ++ cleanup_events debug (temp_name n) (temp_name (S n))).
    split; [assumption|]. cbn [app]. rewrite <- ?app_assoc. reflexivity.
Qed.

(** * The claims *)

(** C4.  A frame with no row or no column: [to_sql] returns at once and the
    world is as it was: no file, no query, no table, no process. *)
Theorem to_sql_empty_frame_noop df d table_name sql_type schema index if_exists
    batch_size debug bcp_path dtypes keys error_path w :
  frames w !! df = Some d ->
  shape0 d = 0%nat \/ shape1 d = 0%nat ->
  to_sql df table_name sql_type schema index if_exists batch_size debug
    bcp_path dtypes keys error_path w = (Ok tt, w).
Proof. apply to_sql_empty. Qed.

(** C7.  A frame with a label on two columns: [to_sql] raises a validation
    error and the world is as it was, so no file was written and no query
    made.  The error is the one on duplicate columns when the two
    assertions before it hold. *)
Theorem to_sql_duplicate_columns df d table_name sql_type schema index if_exists
    batch_size debug bcp_path dtypes keys error_path w :
  frames w !! df = Some d ->
  shape0 d <> 0%nat -> shape1 d <> 0%nat ->
  (exists i j x, i <> j /\ columns d !! i = Some x /\ columns d !! j = Some x) ->
  exists e,
    to_sql df table_name sql_type schema index if_exists batch_size debug
      bcp_path dtypes keys error_path w = (Raise e, w)
    /\ validation_error e = true
    /\ (sql_type = TABLE -> if_exists ∈ IF_EXISTS_OPTIONS ->
        e = BCPandasValueError (MsgDuplicateColumns (duplicated_labels (columns d)))).
Proof.
  intros Hd H0 H1 Hdup.
  apply has_duplicates_true in Hdup.
  apply Nat.eqb_neq in H0, H1.
  unfold to_sql. unfold bind at 1, get_frame. rewrite Hd, H0, H1. simpl.
  unfold bind, py_assert.
  destruct (bool_decide (sql_type = TABLE)) eqn:E1; simpl.
  2:{ eexists; split; [reflexivity|]. split; [reflexivity|].
      intros ->. now rewrite bool_decide_eq_true_2 in E1. }
  destruct (bool_decide (if_exists ∈ IF_EXISTS_OPTIONS)) eqn:E2; simpl.
  2:{ eexists; split; [reflexivity|]. split; [reflexivity|].
      intros _ Hin. now rewrite bool_decide_eq_true_2 in E2. }
  rewrite Hdup. simpl. eauto.
Qed.

(** C6.  A batch size of zero, or larger than the number of rows, on a frame
    that is not empty: [to_sql] raises; no file is made, no table touched,
    no temporary path taken, and the only calls are those of the two
    selectors, so no process is run.  When the steps before the check pass,
    the error is the validation error on the batch size.  The check comes
    after line 261 and after the selectors (lines 263-264): an error that
    is not a validation error is the one of [reset_index] or of a
    selector. *)
Theorem to_sql_bad_batch_size df d table_name sql_type schema index if_exists
    b debug bcp_path dtypes keys error_path w r w' :
  frames w !! df = Some d ->
  shape0 d <> 0%nat -> shape1 d <> 0%nat ->
  b = 0 \/ Z.of_nat (shape0 d) < b ->
  to_sql df table_name sql_type schema index if_exists (Some b) debug
    bcp_path dtypes keys error_path w = (r, w') ->
  exists e,
    r = Raise e
    /\ files w' = files w /\ tables w' = tables w
    /\ temp_count w' = temp_count w
    /\ (exists evs, trace w' = trace w ++ evs /\ Forall is_selector_call evs)
    /\ (sql_type = TABLE -> if_exists ∈ IF_EXISTS_OPTIONS ->
        has_duplicates (columns d) = false ->
        forall d' delim quotechar,
          working_frame index d = Some d' ->
          get_delimiter d' = Ok delim -> get_quotechar d' = Ok quotechar ->
          e = BCPandasValueError
                (if b =? 0 then MsgBatchSizeZero else MsgBatchSizeTooLarge))
    /\ (validation_error e = true
        \/ working_frame index d = None
        \/ exists d', working_frame index d = Some d'
                      /\ (get_delimiter d' = Raise e
                          \/ get_quotechar d' = Raise e)).
Proof.
  intros Hd H0 H1 Hb E. destruct w as [F fs ts n fa tr]. cbn in Hd |- *.
  by_wp E. apply (to_sql_cases df d); try assumption.
  - intros e evs F' HF HE. cbn. exists e.
    do 4 (split; [reflexivity|]). split; [|split].
    + exists evs. split; [reflexivity|].
      destruct HE; split_Forall; exact I.
    + intros Hs Hi Hdup d' delim q Hw Hdel Hq.
      destruct HE; try congruence.
      assert (d'0 = d') as -> by congruence.
      assert (b0 = b) as -> by congruence. reflexivity.
    + destruct HE.
      * left. reflexivity.
      * left. reflexivity.
      * left. reflexivity.
      * right. left. assumption.
      * right. right. eexists. split; [eassumption|]. left. assumption.
      * right. right. eexists. split; [eassumption|]. right. assumption.
      * left. now destruct (b0 =? 0).
  - intros d' delim e evs written temps F' HF Hok HE. exfalso.
    destruct Hok as (_ & _ & _ & Hw & _ & _ & Hnz & Hle).
    apply shape0_working_frame in Hw. rewrite Hw in Hle. lia.
  - intros d' delim fmt r0 evs ts' F' HF Hok Hsok HO. exfalso.
    destruct Hok as (_ & _ & _ & Hw & _ & _ & Hnz & Hle).
    apply shape0_working_frame in Hw. rewrite Hw in Hle. lia.
Qed.

(** The first call of a run that passes the checks on the arguments is the
    choice of the delimiter, on the frame to load. *)
Lemma to_sql_first_call df d d' table_name sql_type schema index if_exists
    batch_size debug bcp_path dtypes keys error_path w r w' :
  frames w !! df = Some d ->
  shape0 d <> 0%nat -> shape1 d <> 0%nat ->
  sql_type = TABLE -> if_exists ∈ IF_EXISTS_OPTIONS ->
  has_duplicates (columns d) = false ->
  working_frame index d = Some d' ->
  to_sql df table_name sql_type schema index if_exists batch_size debug
    bcp_path dtypes keys error_path w = (r, w') ->
  exists rest, trace w' = trace w ++ EvGetDelimiter d' :: rest.
Proof.
  intros Hd H0 H1 Hs Hi Hdup Hw E. destruct w as [F fs ts n fa tr].
  cbn in Hd |- *. by_wp E. apply (to_sql_cases df d); try assumption.
  - intros e evs F' HF HE. cbn.
    destruct HE; try congruence;
      (assert (d'0 = d') as -> by congruence); eauto.
  - intros d0 delim e evs written temps F' HF Hok HE. cbn.
    destruct Hok as (_ & _ & _ & Hw0 & _).
    assert (d0 = d') as -> by congruence. eauto.
  - intros d0 delim fmt r0 evs ts' F' HF Hok Hsok HO. cbn.
    destruct Hok as (_ & _ & _ & Hw0 & _).
    assert (d0 = d') as -> by congruence. eauto.
Qed.

(** C8.  With the index asked for, the frame the delimiter and the quote
    character are chosen on is the copy with the index as its first column;
    the choice of the delimiter is the first call [to_sql] makes; and every
    object that was there before the call, the caller's frame among them,
    is the same after it. *)
Theorem to_sql_index_materialized df d table_name sql_type schema if_exists
    batch_size debug bcp_path dtypes keys error_path w r w' :
  frames w !! df = Some d ->
  to_sql df table_name sql_type schema true if_exists batch_size debug
    bcp_path dtypes keys error_path w = (r, w') ->
  (forall l x, frames w !! l = Some x -> frames w' !! l = Some x)
  /\ exists evs,
       trace w' = trace w ++ evs
       /\ (forall x, EvGetDelimiter x ∈ evs \/ EvGetQuotechar x ∈ evs ->
             reset_index d = Some x
             /\ columns x = reset_index_label d :: columns d
             /\ data x = zip_with cons (index d) (data d))
       /\ (shape0 d <> 0%nat -> shape1 d <> 0%nat ->
           sql_type = TABLE -> if_exists ∈ IF_EXISTS_OPTIONS ->
           has_duplicates (columns d) = false ->
           forall d', reset_index d = Some d' ->
                      exists rest, evs = EvGetDelimiter d' :: rest).
Proof.
  intros Hd E.
  destruct (to_sql_events _ _ _ _ _ _ _ _ _ _ _ _ _ _ _ _ Hd E)
    as (Hsub & evs & Htr & Hev).
  split; [intros l x Hl; eapply lookup_weaken; eassumption|].
  exists evs. split; [assumption|]. split.
  - intros x Hx.
    assert (Hr : reset_index d = Some x).
    { rewrite Forall_forall in Hev.
      destruct Hx as [Hx|Hx]; apply Hev in Hx; exact Hx. }
    split; [assumption|]. unfold reset_index in Hr.
    destruct (bool_decide (reset_index_label d ∈ columns d)); [discriminate|].
    injection Hr as <-. auto.
  - intros H0 H1 Hs Hi Hdup d' Hr.
    destruct (to_sql_first_call df d d' _ _ _ true _ _ _ _ _ _ _ w r w'
                Hd H0 H1 Hs Hi Hdup Hr E) as [rest Hrest].
    exists rest. rewrite Htr in Hrest. now apply app_inv_head in Hrest.
Qed.




(** C10.  The error file handed to [bcp] is [error_path], a slash, the name
    of the table and [_bcp_error.txt]: the path given followed by these,
    and with no [error_path] given a path that starts with [None/]. *)
Theorem to_sql_bcp_error_file df d table_name sql_type schema index if_exists
    batch_size debug bcp_path dtypes keys error_path w r w' :
  frames w !! df = Some d ->
  to_sql df table_name sql_type schema index if_exists batch_size debug
    bcp_path dtypes keys error_path w = (r, w') ->
  exists evs,
    trace w' = trace w ++ evs
    /\ forall args, EvBcp args ∈ evs ->
         bcp_error_file_path args
         = py_str_opt error_path +:+ "/" +:+ table_name +:+ "_bcp_error.txt"
         /\ (forall s, error_path = Some s ->
             bcp_error_file_path args
             = s +:+ "/" +:+ table_name +:+ "_bcp_error.txt")
         /\ (error_path = None ->
             bcp_error_file_path args
             = "None/" +:+ table_name +:+ "_bcp_error.txt"
             /\ starts_with "None/" (bcp_error_file_path args)).
Proof.
  intros Hd E.
  destruct (to_sql_events _ _ _ _ _ _ _ _ _ _ _ _ _ _ _ _ Hd E)
    as (_ & evs & Htr & Hev).
  exists evs. split; [assumption|]. intros args Hin.
  rewrite Forall_forall in Hev. apply Hev in Hin. cbn in Hin. subst args.
  split; [reflexivity|]. split; [intros s ->; reflexivity|].
  intros ->. split; [reflexivity|].
  exists (table_name +:+ "_bcp_error.txt"). reflexivity.
Qed.

(** C2.  The destination ordinals of the format file [to_sql] writes: the
    file has one record per column of the frame to load, in their order;
    the destination ordinal of a record is its file ordinal unless the
    policy is [append] and the table is there, and then it is the ordinal
    of the row the catalog has for the name of the column (the last such
    row, should the rows repeat a name).  A run on a frame that is not
    empty does write the format file, at the second temporary path, once
    the arguments pass the checks, the flat file is written, the catalog
    answers and, under [append], the table has every column of the
    frame. *)
Theorem to_sql_destination_ordinals df d table_name sql_type schema index
    if_exists batch_size debug bcp_path dtypes keys error_path w r w' :
  frames w !! df = Some d ->
  to_sql df table_name sql_type schema index if_exists batch_size debug
    bcp_path dtypes keys error_path w = (r, w') ->
  exists evs,
    trace w' = trace w ++ evs
    /\ (forall p fmt, EvWriteFormat p fmt ∈ evs ->
         exists d',
           working_frame index d = Some d'
           /\ length fmt = length (columns d')
           /\ forall i x fd,
                columns d' !! i = Some x -> fmt !! i = Some fd ->
                file_ordinal fd = Z.of_nat i + 1
                /\ source_column_name fd = py_str_label x
                /\ (if_exists <> "append"
                    \/ tables w !! (schema, table_name) = None ->
                    destination_ordinal fd = file_ordinal fd)
                /\ (if_exists = "append" ->
                    forall cols,
                      tables w !! (schema, table_name) = Some cols ->
                      exists k,
                        cols !! k = Some (py_str_label x, destination_ordinal fd)
                        /\ forall k' o, (k < k')%nat ->
                             cols !! k' <> Some (py_str_label x, o)))
    /\ (forall d' delim,
         shape0 d <> 0%nat -> shape1 d <> 0%nat ->
         prelude_ok sql_type if_exists index batch_size d d' delim ->
         csv_write_fails (faults w) = false ->
         exists_query_fails (faults w) = false ->
         (if_exists = "append" -> columns_query_fails (faults w) = false) ->
         (if_exists = "append" ->
          forall cols, tables w !! (schema, table_name) = Some cols ->
                       forall x, x ∈ columns d' -> py_str_label x ∈ cols.*1) ->
         exists fmt, EvWriteFormat (temp_name (S (temp_count w))) fmt ∈ evs).
Proof.
  intros Hd E.
  destruct (to_sql_events _ _ _ _ _ _ _ _ _ _ _ _ _ _ _ _ Hd E)
    as (_ & evs & Htr & Hev).
  exists evs. split; [assumption|]. split.
  - intros p fmt Hin.
    rewrite Forall_forall in Hev. apply Hev in Hin.
    destruct Hin as (d' & delim & Hok & _ & Hnd & Hb).
    exists d'. split; [apply Hok|].
    apply build_format_file_spec in Hb as [Hlen Hrec].
    split; [assumption|]. intros i x fd Hx Hfd.
    destruct (Hrec i x fd Hx Hfd) as (Hfo & Hname & Hres).
    split; [lia|]. split; [assumption|]. split.
    + intros Hfresh. rewrite reconciled_cols_fresh in Hres by assumption.
      congruence.
    + intros -> cols Ht.
      destruct (reconciled_cols_existing (tables w) schema table_name d' cols
                  (Z.of_nat (S i)) x Ht Hnd) as (o & Ho & Hres').
      { eapply list_elem_of_lookup_2; eassumption. }
      assert (o = destination_ordinal fd) as -> by congruence.
      now apply py_dict_lookup_Some.
  - intros d' delim H0 H1 Hok Hc Hq Hcq Hcols.
    assert (Hnd : no_drift (tables w) schema table_name if_exists d').
    { intros Ha cols Ht. apply extra_columns_missing. exact (Hcols Ha cols Ht). }
    destruct (to_sql_writes_format_file _ _ _ _ _ _ _ _ _ _ _ _ _ _ _ _ _ _
                Hd H0 H1 Hok Hc Hq Hcq Hnd E) as (fmt & rest & _ & Hrest).
    rewrite Htr in Hrest. apply app_inv_head in Hrest. subst evs.
    exists fmt. set_solver.
Qed.

(** The calls of lines 250-327 are none to [bcp]. *)
Lemma prelude_exit_no_bcp sql_type if_exists index batch_size d e evs args :
  prelude_exit sql_type if_exists index batch_size d e evs ->
  EvBcp args ∉ evs.
Proof. intros HE. destruct HE; set_solver. Qed.

Lemma query_events_no_bcp sql_type schema table_name if_exists args :
  EvBcp args ∉ query_events sql_type schema table_name if_exists.
Proof.
  unfold query_events. destruct (bool_decide (if_exists = "append")); set_solver.
Qed.

Lemma scratch_exit_no_bcp ts fa sql_type schema table_name if_exists d' delim
    p0 p1 e evs written temps args :
  scratch_exit ts fa sql_type schema table_name if_exists d' delim p0 p1
    e evs written temps ->
  EvBcp args ∉ evs.
Proof.
  intros HE.
  pose proof (query_events_no_bcp sql_type schema table_name if_exists args).
  destruct HE; set_solver.
Qed.

Lemma cleanup_events_no_bcp debug p0 p1 args :
  EvBcp args ∉ cleanup_events debug p0 p1.
Proof. unfold cleanup_events. destruct debug; set_solver. Qed.

(** C5.  Under the policy [fail].  When the table is there, no table is made
    or dropped and the tables are as they were, and [to_sql] raises the
    error that the table exists once the catalog has answered and the
    format file is written.  When the table is not there, a call of [bcp]
    comes after the statement that makes the table, and with no failure
    of an external call the table is made, [bcp] is run and [to_sql]
    returns. *)
Theorem to_sql_fail_policy df d table_name sql_type schema index batch_size
    debug bcp_path dtypes keys error_path w r w' :
  frames w !! df = Some d ->
  to_sql df table_name sql_type schema index "fail" batch_size debug
    bcp_path dtypes keys error_path w = (r, w') ->
  let p0 := temp_name (temp_count w) in
  let p1 := temp_name (S (temp_count w)) in
  exists evs,
    trace w' = trace w ++ evs
    /\ (forall cols, tables w !! (schema, table_name) = Some cols ->
          tables w' = tables w
          /\ (forall s t c, EvCreateTable s t c ∉ evs)
          /\ (forall s t, EvDropTable s t ∉ evs)
          /\ (forall d' delim,
                shape0 d <> 0%nat -> shape1 d <> 0%nat ->
                prelude_ok sql_type "fail" index batch_size d d' delim ->
                csv_write_fails (faults w) = false ->
                exists_query_fails (faults w) = false ->
                format_write_fails (faults w) = false ->
                debug = true \/ p0 <> p1 ->
                r = Raise (BCPandasValueError
                             (MsgAlreadyExists sql_type schema table_name))))
    /\ (tables w !! (schema, table_name) = None ->
          (forall args, EvBcp args ∈ evs ->
             exists pre post cols,
               evs = pre ++ EvCreateTable schema table_name cols :: post
               /\ EvBcp args ∈ post)
          /\ (forall d' delim,
                shape0 d <> 0%nat -> shape1 d <> 0%nat ->
                prelude_ok sql_type "fail" index batch_size d d' delim ->
                faults w = no_faults ->
                debug = true \/ p0 <> p1 ->
                r = Ok tt
                /\ tables w' !! (schema, table_name) = Some (table_columns d')
                /\ exists pre post,
                     evs = pre
                           ++ EvCreateTable schema table_name
                                (map py_str_label (columns d'))
                           :: EvBcp (bcp_args table_name sql_type schema
                                       batch_size bcp_path error_path p0 p1)
                           :: post)).
Proof.
  intros Hd E p0 p1.
  destruct (to_sql_events _ _ _ _ _ _ _ _ _ _ _ _ _ _ _ _ Hd E)
    as (_ & evs & Htr & Hev).
  rewrite Forall_forall in Hev.
  exists evs. split; [assumption|].
  assert (Hcases :
    exists evs',
      trace w' = trace w ++ evs'
      /\ (forall cols, tables w !! (schema, table_name) = Some cols ->
            tables w' = tables w
            /\ (forall d' delim,
                  shape0 d <> 0%nat -> shape1 d <> 0%nat ->
                  prelude_ok sql_type "fail" index batch_size d d' delim ->
                  csv_write_fails (faults w) = false ->
                  exists_query_fails (faults w) = false ->
                  format_write_fails (faults w) = false ->
                  debug = true \/ p0 <> p1 ->
                  r = Raise (BCPandasValueError
                               (MsgAlreadyExists sql_type schema table_name))))
      /\ (tables w !! (schema, table_name) = None ->
            (forall args, EvBcp args ∈ evs' ->
               exists pre post cols,
                 evs' = pre ++ EvCreateTable schema table_name cols :: post
                 /\ EvBcp args ∈ post)
            /\ (forall d' delim,
                  shape0 d <> 0%nat -> shape1 d <> 0%nat ->
                  prelude_ok sql_type "fail" index batch_size d d' delim ->
                  faults w = no_faults ->
                  debug = true \/ p0 <> p1 ->
                  r = Ok tt
                  /\ tables w' !! (schema, table_name) = Some (table_columns d')
                  /\ exists pre post,
                       evs' = pre
                             ++ EvCreateTable schema table_name
                                  (map py_str_label (columns d'))
                             :: EvBcp (bcp_args table_name sql_type schema
                                         batch_size bcp_path error_path p0 p1)
                             :: post))).
  { clear evs Htr Hev.
    destruct (decide (shape0 d = 0%nat \/ shape1 d = 0%nat)) as [Hempty|Hne].
    { rewrite (to_sql_empty df d) in E by assumption. injection E as <- <-.
      exists []. split; [now rewrite app_nil_r|]. split.
      - intros cols Ht. split; [reflexivity|]. intros; tauto.
      - intros Ht. split; [set_solver|]. intros; tauto. }
    assert (H0 : shape0 d <> 0%nat) by tauto.
    assert (H1 : shape1 d <> 0%nat) by tauto. clear Hne.
    subst p0 p1. destruct w as [F fs ts n fa tr]. cbn in Hd |- *.
    by_wp E. apply (to_sql_cases df d); try assumption.
    - (* lines 250-272 raise *)
      intros e evs F' HF HE. cbn. exists evs. split; [reflexivity|]. split.
      + intros cols Ht. split; [reflexivity|].
        intros d' delim _ _ Hok _ _ _ _. exfalso.
        destruct Hok as (Hs & Hi & Hdup & Hw & Hdel & [q Hq] & Hb).
        destruct HE; try congruence.
        assert (d'0 = d') as -> by congruence.
        subst batch_size. simpl in Hb.
        apply shape0_working_frame in Hw. lia.
      + intros Ht. split.
        * intros args Hin. now apply prelude_exit_no_bcp with (args := args) in HE.
        * intros d' delim _ _ Hok _ _. exfalso.
          destruct Hok as (Hs & Hi & Hdup & Hw & Hdel & [q Hq] & Hb).
          destruct HE; try congruence.
          assert (d'0 = d') as -> by congruence.
          subst batch_size. simpl in Hb.
          apply shape0_working_frame in Hw. lia.
    - (* lines 274-327 raise *)
      intros d' delim e evs written temps F' HF Hok HE. cbn.
      eexists. split; [reflexivity|].
      assert (Hnot : csv_write_fails fa = false ->
                     exists_query_fails fa = false ->
                     format_write_fails fa = false -> False).
      { intros Hc Hq Hf. destruct HE; try congruence.
        match goal with
        | Hnd : no_drift _ _ _ _ _ |- _ =>
            destruct (build_format_file_reconciled _ _ _ _ _ delim Hnd)
              as [fmt Hfmt]
        end.
        congruence. }
      assert (Hw : forall d0 delim0,
                prelude_ok sql_type "fail" index batch_size d d0 delim0 ->
                d0 = d' /\ delim0 = delim).
      { intros d0 delim0 Hok0.
        destruct Hok as (_ & _ & _ & Hw & Hdel & _).
        destruct Hok0 as (_ & _ & _ & Hw0 & Hdel0 & _).
        assert (d0 = d') as -> by congruence. split; congruence. }
      split.
      + intros cols Ht. split; [reflexivity|].
        intros d0 delim0 _ _ Hok0 Hc Hq Hf _. exfalso. auto.
      + intros Ht. split.
        * intros args Hin. exfalso.
          apply scratch_exit_no_bcp with (args := args) in HE. set_solver.
        * intros d0 delim0 _ _ Hok0 Hfa _. exfalso. subst fa. now apply Hnot.
    - (* the [try] statement *)
      intros d' delim fmt r0 evs ts' F' HF Hok Hsok HO. cbn.
      eexists. split; [reflexivity|].
      assert (Hw : forall d0 delim0,
                prelude_ok sql_type "fail" index batch_size d d0 delim0 ->
                d0 = d' /\ delim0 = delim).
      { intros d0 delim0 Hok0.
        destruct Hok as (_ & _ & _ & Hw & Hdel & _).
        destruct Hok0 as (_ & _ & _ & Hw0 & Hdel0 & _).
        assert (d0 = d') as -> by congruence. split; congruence. }
      split.
      + intros cols Ht.
        destruct HO as [cols' _ _| Hn _ | Hn _ | cols' Ha _];
          try (unfold ddl_needed in Hn; rewrite Ht in Hn;
               apply bool_decide_eq_true in Hn; discriminate);
          try discriminate.
        split; [reflexivity|].
        intros d0 delim0 _ _ _ _ _ _ Hclean. unfold cleanup_result.
        destruct Hclean as [->|Hne]; [reflexivity|].
        destruct debug; [reflexivity|].
        now rewrite bool_decide_eq_false_2.
      + intros Ht.
        pose proof (query_events_no_bcp sql_type schema table_name "fail") as Hqe.
        pose proof (cleanup_events_no_bcp debug (temp_name n) (temp_name (S n)))
          as Hce.
        destruct HO as [cols' _ Ht'| Hn Hcf | Hn Hcf | cols' Ha _];
          try congruence; try discriminate;
          unfold ddl_events; rewrite Ht; cbn [app].
        * split.
          -- intros args Hin. exfalso. set_solver.
          -- intros d0 delim0 _ _ _ Hfa _. subst fa. discriminate.
        * split.
          -- intros args Hin.
             exists ([EvGetDelimiter d'; EvGetQuotechar d']
                     ++ (EvWriteCsv (temp_name n) (flat_file d' delim)
                         :: query_events sql_type schema table_name "fail"
                         ++ [EvWriteFormat (temp_name (S n)) fmt])),
               (EvBcp (bcp_args table_name sql_type schema batch_size
                         bcp_path error_path (temp_name n) (temp_name (S n)))
                :: cleanup_events debug (temp_name n) (temp_name (S n))),
               (map py_str_label (columns d')).
             split; [now rewrite <- !app_assoc|].
             assert (args = bcp_args table_name sql_type schema batch_size
                              bcp_path error_path (temp_name n)
                              (temp_name (S n))) as -> by set_solver.
             set_solver.
          -- intros d0 delim0 _ _ Hok0 Hfa Hclean.
             destruct (Hw d0 delim0 Hok0) as [-> ->]. subst fa.
             unfold bcp_result, cleanup_result. simpl. split; [|split].
             ++ destruct Hclean as [->|Hne]; [reflexivity|].
                destruct debug; [reflexivity|].
                now rewrite bool_decide_eq_false_2.
             ++ apply lookup_insert_eq.
             ++ exists ([EvGetDelimiter d'; EvGetQuotechar d']
                        ++ (EvWriteCsv (temp_name n) (flat_file d' delim)
                            :: query_events sql_type schema table_name "fail"
                            ++ [EvWriteFormat (temp_name (S n)) fmt])),
                  (cleanup_events debug (temp_name n) (temp_name (S n))).
                now rewrite <- !app_assoc. }
  destruct Hcases as (evs' & Htr' & Hex & Hnew).
  assert (evs' = evs) as ->.
  { rewrite Htr in Htr'. now apply app_inv_head in Htr'. }
  split.
  - intros cols Ht. destruct (Hex cols Ht) as [Htab Hr].
    split; [assumption|]. split; [|split; [|assumption]].
    + intros s t c Hin. apply Hev in Hin. cbn in Hin.
      destruct Hin as (_ & _ & Hn & _).
      unfold ddl_needed in Hn. rewrite Ht in Hn.
      apply bool_decide_eq_true in Hn. discriminate.
    + intros s t Hin. apply Hev in Hin. cbn in Hin.
      destruct Hin as (_ & _ & Hn & _). discriminate.
  - assumption.
Qed.

(** C3.  Under the policy [append] against a table that is there, once the
    arguments are accepted and the catalog has answered.  If every column
    of the frame to load is a column of the table, [to_sql] raises no drift
    error and goes on to run [bcp], and returns when no external call
    fails.  If a column of the frame is not a column of the table,
    [to_sql] raises the drift error, whose columns are the columns of the
    frame that the table does not have, in the order of the frame; no
    table is touched and [bcp] is not run. *)
Theorem to_sql_append_existing df d d' delim cols table_name sql_type schema
    index batch_size debug bcp_path dtypes keys error_path w r w' :
  frames w !! df = Some d ->
  shape0 d <> 0%nat -> shape1 d <> 0%nat ->
  tables w !! (schema, table_name) = Some cols ->
  prelude_ok sql_type "append" index batch_size d d' delim ->
  csv_write_fails (faults w) = false ->
  exists_query_fails (faults w) = false ->
  columns_query_fails (faults w) = false ->
  to_sql df table_name sql_type schema index "append" batch_size debug
    bcp_path dtypes keys error_path w = (r, w') ->
  let p0 := temp_name (temp_count w) in
  let p1 := temp_name (S (temp_count w)) in
  exists evs,
    trace w' = trace w ++ evs
    /\ tables w' = tables w
    /\ ((forall x, x ∈ columns d' -> py_str_label x ∈ cols.*1) ->
        (forall m, r <> Raise (BCPandasValueError (MsgExtraColumns m)))
        /\ (format_write_fails (faults w) = false ->
            EvBcp (bcp_args table_name sql_type schema batch_size bcp_path
                     error_path p0 p1) ∈ evs
            /\ (bcp_fails (faults w) = false ->
                debug = true \/ p0 <> p1 -> r = Ok tt)))
    /\ ((exists x, x ∈ columns d' /\ py_str_label x ∉ cols.*1) ->
        let missing :=
          filter (fun s => s ∉ cols.*1) (map py_str_label (columns d')) in
        r = Raise (BCPandasValueError (MsgExtraColumns missing))
        /\ (forall s, s ∈ missing <->
              (exists x, x ∈ columns d' /\ s = py_str_label x)
              /\ s ∉ cols.*1)
        /\ (forall args, EvBcp args ∉ evs)).
Proof.
  intros Hd H0 H1 Ht Hok Hc Hq Hcq E p0 p1. subst p0 p1.
  destruct w as [F fs ts n fa tr]. cbn in Hd, Ht, Hc, Hq, Hcq |- *.
  by_wp E. apply (to_sql_cases df d); try assumption.
  - intros e evs F' HF HE. exfalso. eapply prelude_ok_not_exit; eassumption.
  - intros d0 delim0 e evs written temps F' HF Hok0 HE. cbn.
    destruct (prelude_ok_unique _ _ _ _ _ _ _ _ _ Hok Hok0) as [<- <-].
    eexists. split; [reflexivity|]. split; [reflexivity|].
    destruct HE as [ | | | cols0 _ _ _ _ Ht0 Hx | e _ _ _ Hnd Hb
                   | fmt _ _ _ Hnd Hb Hf ]; try congruence.
    + (* drift *)
      assert (cols0 = cols) as -> by congruence. split.
      * intros Hall. exfalso.
        now apply (proj2 (extra_columns_missing d' cols)) in Hall.
      * intros _. rewrite extra_columns_spec. split; [reflexivity|]. split.
        -- intros s. rewrite list_elem_of_filter. split.
           ++ intros [Hn Hin]. split; [|assumption].
              apply list_elem_of_fmap in Hin as (x & -> & Hin). eauto.
           ++ intros [(x & Hin & ->) Hn]. split; [assumption|].
              apply list_elem_of_fmap. eauto.
        -- intros args Hin.
           pose proof (query_events_no_bcp sql_type schema table_name
                         "append" args).
           set_solver.
    + (* the format file cannot fail to be made *)
      exfalso.
      destruct (build_format_file_reconciled _ _ _ _ _ delim Hnd) as [fmt Hfmt].
      congruence.
    + (* the format file cannot be written *)
      split.
      * intros _. split; [discriminate|]. intros Hf'. congruence.
      * intros Hmiss. exfalso. destruct Hmiss as (x & Hx & Hnot).
        pose proof (proj1 (extra_columns_missing d' cols)
                      (Hnd eq_refl cols Ht)) as Hall.
        now apply Hall in Hx.
  - intros d0 delim0 fmt r0 evs ts' F' HF Hok0 Hsok HO. cbn.
    destruct (prelude_ok_unique _ _ _ _ _ _ _ _ _ Hok Hok0) as [<- <-].
    eexists. split; [reflexivity|].
    destruct HO as [cols' Hfail _ | Hn _ | Hn _ | cols' _ _];
      try discriminate;
      try (unfold ddl_needed in Hn; rewrite Ht in Hn;
           apply bool_decide_eq_true in Hn; discriminate).
    split; [reflexivity|]. split.
    + intros _. split.
      * intros m. unfold cleanup_result, bcp_result.
        destruct debug; [destruct (bcp_fails fa); discriminate|].
        destruct (bool_decide (temp_name n = temp_name (S n)));
          [discriminate|].
        destruct (bcp_fails fa); discriminate.
      * intros _. split; [set_solver|].
        intros Hbf Hclean. unfold cleanup_result, bcp_result. rewrite Hbf.
        destruct Hclean as [->|Hne]; [reflexivity|].
        destruct debug; [reflexivity|].
        now rewrite bool_decide_eq_false_2.
    + intros Hmiss. exfalso. destruct Hmiss as (x & Hx & Hnot).
      destruct Hsok as (_ & _ & _ & Hnd & _).
      pose proof (proj1 (extra_columns_missing d' cols)
                    (Hnd eq_refl cols Ht)) as Hall.
      now apply Hall in Hx.
Qed.

(** * Further properties of [to_sql] *)

Lemma scratch_ok_not_exit ts fa sql_type schema table_name if_exists d' delim
    fmt p0 p1 e evs written temps :
  scratch_ok ts fa schema table_name if_exists d' delim fmt ->
  scratch_exit ts fa sql_type schema table_name if_exists d' delim p0 p1
    e evs written temps -> False.
Proof.
  intros (Hc & Hq & Hcq & Hnd & Hb & Hf) HE.
  destruct HE as [ | | _ _ Ha ? | cols _ _ Ha _ Ht Hx | | ]; try congruence.
  - specialize (Hcq Ha). congruence.
  - apply Hx. exact (Hnd Ha cols Ht).
Qed.

(** A run that passes lines 250-327: what the [try] statement and the
    [finally] clause leave. *)
Lemma to_sql_reaches_try df d d' delim fmt table_name sql_type schema index
    if_exists batch_size debug bcp_path dtypes keys error_path w r w' :
  frames w !! df = Some d ->
  shape0 d <> 0%nat -> shape1 d <> 0%nat ->
  prelude_ok sql_type if_exists index batch_size d d' delim ->
  scratch_ok (tables w) (faults w) schema table_name if_exists d' delim fmt ->
  to_sql df table_name sql_type schema index if_exists batch_size debug
    bcp_path dtypes keys error_path w = (r, w') ->
  let p0 := temp_name (temp_count w) in
  let p1 := temp_name (S (temp_count w)) in
  exists r0 evs,
    load_outcome (tables w) (faults w) sql_type schema table_name if_exists d'
      (bcp_args table_name sql_type schema batch_size bcp_path error_path p0 p1)
      r0 evs (tables w')
    /\ r = cleanup_result debug p0 p1 r0
    /\ files w'
       = cleanup_files debug p0 p1
           (<[p1 := FormatFile fmt]>
              (<[p0 := FlatFile (flat_file d' delim)]> (files w)))
    /\ temp_count w' = S (S (temp_count w))
    /\ trace w'
       = trace w
         ++ [EvGetDelimiter d'; EvGetQuotechar d';
             EvWriteCsv p0 (flat_file d' delim)]
         ++ query_events sql_type schema table_name if_exists
         ++ [EvWriteFormat p1 fmt] ++ evs ++ cleanup_events debug p0 p1.
Proof.
  intros Hd H0 H1 Hok Hsok E p0 p1. subst p0 p1.
  destruct w as [F fs ts n fa tr]. cbn in Hd, Hsok |- *.
  by_wp E. apply (to_sql_cases df d); try assumption.
  - intros e evs F' HF HE. exfalso. eapply prelude_ok_not_exit; eassumption.
  - intros d0 delim0 e evs written temps F' HF Hok0 HE. exfalso.
    destruct (prelude_ok_unique _ _ _ _ _ _ _ _ _ Hok Hok0) as [<- <-].
    eapply scratch_ok_not_exit; eassumption.
  - intros d0 delim0 fmt0 r0 evs ts' F' HF Hok0 Hsok0 HO. cbn.
    destruct (prelude_ok_unique _ _ _ _ _ _ _ _ _ Hok Hok0) as [<- <-].
    assert (fmt0 = fmt) as ->.
    { destruct Hsok as (_ & _ & _ & _ & Hb & _).
      destruct Hsok0 as (_ & _ & _ & _ & Hb0 & _). congruence. }
    exists r0, evs. split; [assumption|]. split; [reflexivity|].
    split; [reflexivity|]. split; [reflexivity|].
    now rewrite <- !app_assoc.
Qed.

Lemma cleanup_files_removed p0 p1 (x y : FileContent) (fs : gmap string FileContent) :
  cleanup_files false p0 p1 (<[p1 := y]> (<[p0 := x]> fs))
  = delete p1 (delete p0 fs).
Proof.
  unfold cleanup_files. apply map_eq. intros k.
  destruct (decide (k = p1)) as [->|H1]; [now rewrite !lookup_delete_eq|].
  rewrite !(lookup_delete_ne _ p1) by congruence.
  destruct (decide (k = p0)) as [->|H0]; [now rewrite !lookup_delete_eq|].
  rewrite !(lookup_delete_ne _ p0) by congruence.
  now rewrite !lookup_insert_ne by congruence.
Qed.

Lemma load_outcome_no_remove ts fa sql_type schema table_name if_exists d' args
    r evs ts' p :
  load_outcome ts fa sql_type schema table_name if_exists d' args r evs ts' ->
  EvRemove p ∉ evs.
Proof.
  intros HO Hin. destruct HO; unfold ddl_events in Hin;
    try destruct (ts !! (schema, table_name)); cbn in Hin;
    repeat (apply elem_of_cons in Hin as [Hin | Hin]; [discriminate Hin|]);
    now apply elem_of_nil in Hin.
Qed.

Lemma query_events_no_remove sql_type schema table_name if_exists p :
  EvRemove p ∉ query_events sql_type schema table_name if_exists.
Proof.
  unfold query_events. intros Hin.
  destruct (bool_decide (if_exists = "append"));
    repeat (apply elem_of_cons in Hin as [Hin | Hin]; [discriminate Hin|]);
    now apply elem_of_nil in Hin.
Qed.

(** X1.  Without [debug], a run that reaches the [try] statement ends with
    the removal of the flat file and of the format file, in this order,
    whatever the [try] statement did (the table was there under [fail],
    the table could not be made, [bcp] failed, or all went well): neither
    path names a file afterwards and the other files are as they were. *)
Theorem to_sql_finally_removes_files df d d' delim fmt table_name sql_type
    schema index if_exists batch_size bcp_path dtypes keys error_path w r w' :
  frames w !! df = Some d ->
  shape0 d <> 0%nat -> shape1 d <> 0%nat ->
  prelude_ok sql_type if_exists index batch_size d d' delim ->
  scratch_ok (tables w) (faults w) schema table_name if_exists d' delim fmt ->
  to_sql df table_name sql_type schema index if_exists batch_size false
    bcp_path dtypes keys error_path w = (r, w') ->
  let p0 := temp_name (temp_count w) in
  let p1 := temp_name (S (temp_count w)) in
  files w' = delete p1 (delete p0 (files w))
  /\ files w' !! p0 = None /\ files w' !! p1 = None
  /\ exists evs,
       trace w' = trace w ++ evs ++ [EvRemove p0; EvRemove p1]
       /\ forall p, EvRemove p ∉ evs.
Proof.
  intros Hd H0 H1 Hok Hsok E p0 p1.
  destruct (to_sql_reaches_try _ _ _ _ _ _ _ _ _ _ _ _ _ _ _ _ _ _ _
              Hd H0 H1 Hok Hsok E) as (r0 & evs & HO & _ & Hf & _ & Htr).
  fold p0 p1 in HO, Hf, Htr. rewrite cleanup_files_removed in Hf.
  split; [assumption|]. rewrite Hf. split.
  { destruct (decide (p0 = p1)) as [->|Hne]; [apply lookup_delete_eq|].
    rewrite lookup_delete_ne by congruence. apply lookup_delete_eq. }
  split; [apply lookup_delete_eq|].
  exists ([EvGetDelimiter d'; EvGetQuotechar d';
           EvWriteCsv p0 (flat_file d' delim)]
          ++ query_events sql_type schema table_name if_exists
          ++ [EvWriteFormat p1 fmt] ++ evs).
  split; [rewrite Htr; unfold cleanup_events; now rewrite <- !app_assoc|].
  intros p Hin. cbn [app] in Hin.
  do 3 (apply elem_of_cons in Hin as [Hin | Hin]; [discriminate Hin|]).
  apply elem_of_app in Hin as [Hin | Hin];
    [now apply query_events_no_remove in Hin|].
  apply elem_of_cons in Hin as [Hin | Hin]; [discriminate Hin|].
  now apply (load_outcome_no_remove _ _ _ _ _ _ _ _ _ _ _ p) in HO.
Qed.

(** X2.  With [debug], a run that reaches the [try] statement removes no
    file: the flat file and the format file are there when [to_sql] ends,
    with what was written to them, and the result of [to_sql] is the
    result of the [try] statement. *)
Theorem to_sql_debug_keeps_files df d d' delim fmt table_name sql_type
    schema index if_exists batch_size bcp_path dtypes keys error_path w r w' :
  frames w !! df = Some d ->
  shape0 d <> 0%nat -> shape1 d <> 0%nat ->
  prelude_ok sql_type if_exists index batch_size d d' delim ->
  scratch_ok (tables w) (faults w) schema table_name if_exists d' delim fmt ->
  to_sql df table_name sql_type schema index if_exists batch_size true
    bcp_path dtypes keys error_path w = (r, w') ->
  let p0 := temp_name (temp_count w) in
  let p1 := temp_name (S (temp_count w)) in
  files w' = <[p1 := FormatFile fmt]>
               (<[p0 := FlatFile (flat_file d' delim)]> (files w))
  /\ files w' !! p1 = Some (FormatFile fmt)
  /\ (p0 <> p1 -> files w' !! p0 = Some (FlatFile (flat_file d' delim)))
  /\ exists evs, trace w' = trace w ++ evs /\ forall p, EvRemove p ∉ evs.
Proof.
  intros Hd H0 H1 Hok Hsok E p0 p1.
  destruct (to_sql_reaches_try _ _ _ _ _ _ _ _ _ _ _ _ _ _ _ _ _ _ _
              Hd H0 H1 Hok Hsok E) as (r0 & evs & HO & _ & Hf & _ & Htr).
  fold p0 p1 in HO, Hf, Htr. unfold cleanup_files in Hf.
  split; [assumption|]. rewrite Hf. split; [apply lookup_insert_eq|].
  split.
  { intros Hne. rewrite lookup_insert_ne by congruence. apply lookup_insert_eq. }
  eexists. split; [exact Htr|].
  intros p Hin. cbn [app] in Hin.
  do 3 (apply elem_of_cons in Hin as [Hin | Hin]; [discriminate Hin|]).
  apply elem_of_app in Hin as [Hin | Hin];
    [now apply query_events_no_remove in Hin|].
  apply elem_of_cons in Hin as [Hin | Hin]; [discriminate Hin|].
  apply elem_of_app in Hin as [Hin | Hin];
    [now apply (load_outcome_no_remove _ _ _ _ _ _ _ _ _ _ _ p) in HO|].
  now apply elem_of_nil in Hin.
Qed.

(** X3.  When the query on the existence of the table fails, [to_sql] ends
    with the error of the query, with or without [debug]: the flat file
    it wrote stays where it is, no table is touched, and the query is the
    last call. *)
Theorem to_sql_failed_exists_query df d d' delim table_name sql_type schema
    index if_exists batch_size debug bcp_path dtypes keys error_path w r w' :
  frames w !! df = Some d ->
  shape0 d <> 0%nat -> shape1 d <> 0%nat ->
  prelude_ok sql_type if_exists index batch_size d d' delim ->
  csv_write_fails (faults w) = false ->
  exists_query_fails (faults w) = true ->
  to_sql df table_name sql_type schema index if_exists batch_size debug
    bcp_path dtypes keys error_path w = (r, w') ->
  let p0 := temp_name (temp_count w) in
  r = Raise (DatabaseError "INFORMATION_SCHEMA.TABLES")
  /\ files w' = <[p0 := FlatFile (flat_file d' delim)]> (files w)
  /\ tables w' = tables w
  /\ trace w'
     = trace w ++ [EvGetDelimiter d'; EvGetQuotechar d';
                   EvWriteCsv p0 (flat_file d' delim);
                   EvQueryExists sql_type schema table_name].
Proof.
  intros Hd H0 H1 Hok Hc Hq E p0. subst p0.
  destruct w as [F fs ts n fa tr]. cbn in Hd, Hc, Hq |- *.
  by_wp E. apply (to_sql_cases df d); try assumption.
  - intros e evs F' HF HE. exfalso. eapply prelude_ok_not_exit; eassumption.
  - intros d0 delim0 e evs written temps F' HF Hok0 HE. cbn.
    destruct (prelude_ok_unique _ _ _ _ _ _ _ _ _ Hok Hok0) as [<- <-].
    destruct HE; try congruence. repeat split; reflexivity.
  - intros d0 delim0 fmt r0 evs ts' F' HF Hok0 (_ & Hq0 & _) HO.
    congruence.
Qed.

(** X4.  Under [replace], with arguments that pass the checks and no
    failure of an external call: [to_sql] returns; the catalog is asked
    whether the table is there and not for its columns; a table that is
    there is dropped; the table is made with the columns of the frame,
    then [bcp] is run on the two files, which are then removed unless
    [debug] is set. *)
Theorem to_sql_replace_policy df d d' delim table_name sql_type schema index
    batch_size debug bcp_path dtypes keys error_path w r w' :
  frames w !! df = Some d ->
  shape0 d <> 0%nat -> shape1 d <> 0%nat ->
  prelude_ok sql_type "replace" index batch_size d d' delim ->
  faults w = no_faults ->
  to_sql df table_name sql_type schema index "replace" batch_size debug
    bcp_path dtypes keys error_path w = (r, w') ->
  let p0 := temp_name (temp_count w) in
  let p1 := temp_name (S (temp_count w)) in
  debug = true \/ p0 <> p1 ->
  exists fmt,
    build_format_file d' delim None = Ok fmt
    /\ r = Ok tt
    /\ tables w' = <[(schema, table_name) := table_columns d']> (tables w)
    /\ trace w'
       = trace w
         ++ [EvGetDelimiter d'; EvGetQuotechar d';
             EvWriteCsv p0 (flat_file d' delim);
             EvQueryExists sql_type schema table_name;
             EvWriteFormat p1 fmt]
         ++ match tables w !! (schema, table_name) with
            | Some _ => [EvDropTable schema table_name]
            | None => []
            end
         ++ [EvCreateTable schema table_name (map py_str_label (columns d'));
             EvBcp (bcp_args table_name sql_type schema batch_size bcp_path
                      error_path p0 p1)]
         ++ (if debug then [] else [EvRemove p0; EvRemove p1]).
Proof.
  intros Hd H0 H1 Hok Hfa E p0 p1 Hclean.
  assert (Hnd : no_drift (tables w) schema table_name "replace" d')
    by (intros Ha; discriminate Ha).
  destruct (build_format_file_reconciled (tables w) schema table_name
              "replace" d' delim Hnd) as [fmt Hfmt].
  assert (Hsok : scratch_ok (tables w) (faults w) schema table_name "replace"
                   d' delim fmt).
  { rewrite Hfa. repeat split; try reflexivity; assumption. }
  destruct (to_sql_reaches_try _ _ _ _ _ _ _ _ _ _ _ _ _ _ _ _ _ _ _
              Hd H0 H1 Hok Hsok E) as (r0 & evs & HO & Hr & _ & _ & Htr).
  fold p0 p1 in HO, Hr, Htr.
  exists fmt. split; [exact Hfmt|].
  destruct HO as [cols Hfail _ | _ Hcf | _ _ | cols Happ _];
    [discriminate Hfail | rewrite Hfa in Hcf; discriminate Hcf | |
     discriminate Happ].
  split.
  { rewrite Hr, Hfa. unfold cleanup_result, bcp_result. cbn.
    destruct Hclean as [-> | Hne]; [reflexivity|].
    destruct debug; [reflexivity|]. now rewrite bool_decide_eq_false_2. }
  split; [reflexivity|].
  rewrite Htr. unfold query_events, ddl_events, cleanup_events.
  rewrite (bool_decide_eq_false_2 ("replace" = "append")) by discriminate.
  now rewrite <- !app_assoc.
Qed.

(** X5.  [to_sql] touches no table but its target, and under a policy
    other than [replace] a target that is there keeps its columns,
    however the run ends. *)
Theorem to_sql_touches_only_target df d table_name sql_type schema index
    if_exists batch_size debug bcp_path dtypes keys error_path w r w' :
  frames w !! df = Some d ->
  to_sql df table_name sql_type schema index if_exists batch_size debug
    bcp_path dtypes keys error_path w = (r, w') ->
  (forall k, k <> (schema, table_name) -> tables w' !! k = tables w !! k)
  /\ (if_exists <> "replace" ->
      forall cols, tables w !! (schema, table_name) = Some cols ->
                   tables w' !! (schema, table_name) = Some cols).
Proof.
  intros Hd E.
  destruct (decide (shape0 d = 0%nat \/ shape1 d = 0%nat)) as [Hempty|Hne].
  { rewrite (to_sql_empty df d) in E by assumption. injection E as <- <-.
    auto. }
  assert (H0 : shape0 d <> 0%nat) by tauto.
  assert (H1 : shape1 d <> 0%nat) by tauto. clear Hne.
  destruct w as [F fs ts n fa tr]. cbn in Hd |- *.
  by_wp E. apply (to_sql_cases df d); try assumption.
  - intros e evs F' HF HE. cbn. auto.
  - intros d' delim e evs written temps F' HF Hok HE. cbn. auto.
  - intros d' delim fmt r0 evs ts' F' HF Hok Hsok HO. cbn.
    destruct HO as [cols _ _ | Hn _ | Hn _ | cols _ _]; [auto| | |auto].
    + split; [intros k Hk; now rewrite lookup_delete_ne|].
      intros Hr cols Ht. unfold ddl_needed in Hn. rewrite Ht in Hn.
      now apply bool_decide_eq_true in Hn.
    + split; [intros k Hk; now rewrite lookup_insert_ne|].
      intros Hr cols Ht. unfold ddl_needed in Hn. rewrite Ht in Hn.
      now apply bool_decide_eq_true in Hn.
Qed.

(** X6.  A run on a frame that is not empty and with arguments that pass
    the checks writes the flat file, and a flat file is only ever written
    at the first temporary path, without header and without index column,
    with minimal quoting, the line terminator of the package and the
    delimiter chosen for the frame to load; its quote character is the
    double quote, whatever [get_quotechar] returned. *)
Theorem to_sql_flat_file_dialect df d table_name sql_type schema index
    if_exists batch_size debug bcp_path dtypes keys error_path w r w' :
  frames w !! df = Some d ->
  to_sql df table_name sql_type schema index if_exists batch_size debug
    bcp_path dtypes keys error_path w = (r, w') ->
  exists evs,
    trace w' = trace w ++ evs
    /\ (forall p csv, EvWriteCsv p csv ∈ evs ->
         p = temp_name (temp_count w)
         /\ csv_header csv = false /\ csv_index csv = false
         /\ csv_quoting csv = QUOTE_MINIMAL
         /\ csv_quotechar csv = DQUOTE
         /\ csv_line_terminator csv = NEWLINE
         /\ exists d', working_frame index d = Some d'
                       /\ get_delimiter d' = Ok (csv_sep csv))
    /\ (forall d' delim quotechar,
         shape0 d <> 0%nat -> shape1 d <> 0%nat ->
         prelude_ok sql_type if_exists index batch_size d d' delim ->
         get_quotechar d' = Ok quotechar ->
         exists csv,
           EvWriteCsv (temp_name (temp_count w)) csv ∈ evs
           /\ csv_sep csv = delim /\ csv_quotechar csv = DQUOTE).
Proof.
  intros Hd E.
  destruct (to_sql_events _ _ _ _ _ _ _ _ _ _ _ _ _ _ _ _ Hd E)
    as (_ & evs & Htr & Hev).
  exists evs. split; [assumption|]. split.
  - intros p csv Hin.
    rewrite Forall_forall in Hev. specialize (Hev _ Hin). cbn in Hev.
    destruct Hev as (d' & delim & (_ & _ & _ & Hw & Hdel & _) & -> & ->).
    repeat split; try reflexivity. exists d'. split; assumption.
  - intros d' delim quotechar H0 H1 Hok Hq.
    destruct (to_sql_writes_flat_file _ _ _ _ _ _ _ _ _ _ _ _ _ _ _ _ _ _
                Hd H0 H1 Hok E) as [rest Hrest].
    rewrite Htr in Hrest. apply app_inv_head in Hrest. subst evs.
    exists (flat_file d' delim).
    split; [set_solver|]. split; reflexivity.
Qed.

(** X7.  On a frame that is not empty the two assertions come before
    everything else: a target type other than [TABLE] ends [to_sql] with
    an [AssertionError] that carries the message of line 250, a policy
    that is not among [IF_EXISTS_OPTIONS] with one that carries no
    message, and in both cases nothing was done. *)
Theorem to_sql_assertions df d table_name sql_type schema index if_exists
    batch_size debug bcp_path dtypes keys error_path w :
  frames w !! df = Some d ->
  shape0 d <> 0%nat -> shape1 d <> 0%nat ->
  (sql_type <> TABLE ->
   to_sql df table_name sql_type schema index if_exists batch_size debug
     bcp_path dtypes keys error_path w
   = (Raise (AssertionError "only supporting table, not view, for now"), w))
  /\ (sql_type = TABLE -> if_exists ∉ IF_EXISTS_OPTIONS ->
      to_sql df table_name sql_type schema index if_exists batch_size debug
        bcp_path dtypes keys error_path w
      = (Raise (AssertionError EmptyString), w)).
Proof.
  intros Hd H0 H1.
  assert (Hne : (shape0 d =? 0)%nat || (shape1 d =? 0)%nat = false).
  { apply orb_false_iff. split; now apply Nat.eqb_neq. }
  split.
  - intros Hs. unfold to_sql. unfold bind at 1. unfold get_frame.
    rewrite Hd, Hne. unfold bind at 1. unfold py_assert.
    now rewrite (bool_decide_eq_false_2 (sql_type = TABLE)).
  - intros Hs Hi. unfold to_sql. unfold bind at 1. unfold get_frame.
    rewrite Hd, Hne. unfold bind at 1. unfold py_assert at 1.
    rewrite (bool_decide_eq_true_2 (sql_type = TABLE)) by assumption.
    unfold ret at 1. unfold bind at 1. unfold py_assert.
    now rewrite (bool_decide_eq_false_2 (if_exists ∈ IF_EXISTS_OPTIONS)).
Qed.

Lemma ddl_events_no_bcp ts schema table_name d' args :
  EvBcp args ∉ ddl_events ts schema table_name d'.
Proof.
  unfold ddl_events. destruct (ts !! (schema, table_name)); set_solver.
Qed.

(** X8.  When the table has to be made (it is not there, or the policy is
    [replace]) and is made, and [bcp] then fails: [to_sql] ends with the
    error of [bcp], the table stays in the database with the columns of
    the frame, and without [debug] the two files are removed all the
    same. *)
Theorem to_sql_bcp_failure_keeps_table df d d' delim fmt table_name sql_type
    schema index if_exists batch_size bcp_path dtypes keys error_path w r w' :
  frames w !! df = Some d ->
  shape0 d <> 0%nat -> shape1 d <> 0%nat ->
  prelude_ok sql_type if_exists index batch_size d d' delim ->
  scratch_ok (tables w) (faults w) schema table_name if_exists d' delim fmt ->
  tables w !! (schema, table_name) = None \/ if_exists = "replace" ->
  create_table_fails (faults w) = false ->
  bcp_fails (faults w) = true ->
  to_sql df table_name sql_type schema index if_exists batch_size false
    bcp_path dtypes keys error_path w = (r, w') ->
  let p0 := temp_name (temp_count w) in
  let p1 := temp_name (S (temp_count w)) in
  p0 <> p1 ->
  r = Raise BcpFailed
  /\ tables w' !! (schema, table_name) = Some (table_columns d')
  /\ files w' !! p0 = None /\ files w' !! p1 = None.
Proof.
  intros Hd H0 H1 Hok Hsok Hddl Hcf Hbf E p0 p1 Hne.
  destruct (to_sql_reaches_try _ _ _ _ _ _ _ _ _ _ _ _ _ _ _ _ _ _ _
              Hd H0 H1 Hok Hsok E) as (r0 & evs & HO & Hr & Hf & _ & _).
  fold p0 p1 in HO, Hr, Hf. rewrite cleanup_files_removed in Hf.
  assert (Hfiles : files w' !! p0 = None /\ files w' !! p1 = None).
  { rewrite Hf. split; [|apply lookup_delete_eq].
    rewrite lookup_delete_ne by congruence. apply lookup_delete_eq. }
  assert (Hi : if_exists ∈ IF_EXISTS_OPTIONS) by apply Hok.
  destruct HO as [cols Hfail Ht | _ Hcf' | _ _ | cols Happ Ht].
  - exfalso. destruct Hddl as [Hn | ->]; [congruence | discriminate Hfail].
  - congruence.
  - split.
    { rewrite Hr. unfold cleanup_result, bcp_result. rewrite Hbf.
      now rewrite bool_decide_eq_false_2. }
    split; [apply lookup_insert_eq | exact Hfiles].
  - exfalso. destruct Hddl as [Hn | ->]; [congruence | discriminate Happ].
Qed.

(** X9.  [bcp] is called at most once, with the path of the flat file and
    the path of the format file that [to_sql] wrote before the call, the
    name of the table, the direction [IN], and the type, schema, batch
    size and path of the executable it was given. *)
Theorem to_sql_bcp_after_files df d table_name sql_type schema index
    if_exists batch_size debug bcp_path dtypes keys error_path w r w' :
  frames w !! df = Some d ->
  to_sql df table_name sql_type schema index if_exists batch_size debug
    bcp_path dtypes keys error_path w = (r, w') ->
  exists evs,
    trace w' = trace w ++ evs
    /\ forall args, EvBcp args ∈ evs ->
         exists pre post csv fmt,
           evs = pre ++ EvBcp args :: post
           /\ EvWriteCsv (bcp_flat_file args) csv ∈ pre
           /\ EvWriteFormat (bcp_format_file_path args) fmt ∈ pre
           /\ (forall a, EvBcp a ∉ pre) /\ (forall a, EvBcp a ∉ post)
           /\ bcp_sql_item args = table_name /\ bcp_direction args = IN
           /\ bcp_sql_type args = sql_type /\ bcp_schema args = schema
           /\ bcp_batch_size args = batch_size
           /\ bcp_bcp_path args = bcp_path.
Proof.
  intros Hd E.
  destruct (decide (shape0 d = 0%nat \/ shape1 d = 0%nat)) as [Hempty|Hne].
  { rewrite (to_sql_empty df d) in E by assumption. injection E as <- <-.
    exists []. split; [now rewrite app_nil_r|].
    intros args Hin. now apply elem_of_nil in Hin. }
  assert (H0 : shape0 d <> 0%nat) by tauto.
  assert (H1 : shape1 d <> 0%nat) by tauto. clear Hne.
  destruct w as [F fs ts n fa tr]. cbn in Hd |- *.
  by_wp E. apply (to_sql_cases df d); try assumption.
  - intros e evs F' HF HE. cbn. exists evs. split; [reflexivity|].
    intros args Hin. now apply (prelude_exit_no_bcp _ _ _ _ _ _ _ args) in HE.
  - intros d' delim e evs written temps F' HF Hok HE. cbn.
    eexists. split; [reflexivity|]. intros args Hin. exfalso.
    apply (scratch_exit_no_bcp _ _ _ _ _ _ _ _ _ _ _ _ _ _ args) in HE.
    set_solver.
  - intros d' delim fmt r0 evs ts' F' HF Hok Hsok HO. cbn.
    eexists. split; [reflexivity|]. intros args Hin.
    set (p0 := temp_name n) in *. set (p1 := temp_name (S n)) in *.
    set (A := bcp_args table_name sql_type schema batch_size bcp_path
                error_path p0 p1) in *.
    pose proof (query_events_no_bcp sql_type schema table_name if_exists)
      as Hq.
    pose proof (cleanup_events_no_bcp debug p0 p1) as Hc.
    pose proof (ddl_events_no_bcp ts schema table_name d') as Hddl.
    assert (Hshape :
      exists mid, evs = mid ++ [EvBcp A] /\ forall a, EvBcp a ∉ mid).
    { destruct HO as [cols _ _ | _ _ | _ _ | cols _ _].
      - exfalso. specialize (Hq args). specialize (Hc args). set_solver.
      - exfalso. specialize (Hq args). specialize (Hc args).
        specialize (Hddl args). set_solver.
      - eexists. split; [reflexivity|]. exact Hddl.
      - exists []. split; [reflexivity|]. intros a Ha.
        now apply elem_of_nil in Ha. }
    destruct Hshape as (mid & -> & Hmid).
    assert (args = A) as ->.
    { specialize (Hq args). specialize (Hc args). specialize (Hmid args).
      set_solver. }
    exists ([EvGetDelimiter d'; EvGetQuotechar d']
            ++ (EvWriteCsv p0 (flat_file d' delim)
                :: query_events sql_type schema table_name if_exists
                ++ [EvWriteFormat p1 fmt]) ++ mid),
      (cleanup_events debug p0 p1), (flat_file d' delim), fmt.
    split; [repeat tidy_trace; reflexivity|].
    split; [cbn; set_solver|]. split; [cbn; set_solver|].
    split.
    { intros a Ha. specialize (Hq a). specialize (Hmid a). set_solver. }
    split; [exact Hc|]. repeat split; reflexivity.
Qed.

(** X16.  When the choice of the delimiter or of the quote character
    raises, [to_sql] ends with that error before anything is written:
    no temporary path is taken, no file and no table is touched, and the
    only calls made are those of the selectors.  This holds for the quote
    character too, whose value [to_sql] does not use. *)
Theorem to_sql_selector_failure df d d' e table_name sql_type schema index
    if_exists batch_size debug bcp_path dtypes keys error_path w r w' :
  frames w !! df = Some d ->
  shape0 d <> 0%nat -> shape1 d <> 0%nat ->
  sql_type = TABLE -> if_exists ∈ IF_EXISTS_OPTIONS ->
  has_duplicates (columns d) = false ->
  working_frame index d = Some d' ->
  get_delimiter d' = Raise e
  \/ (exists delim, get_delimiter d' = Ok delim) /\ get_quotechar d' = Raise e ->
  to_sql df table_name sql_type schema index if_exists batch_size debug
    bcp_path dtypes keys error_path w = (r, w') ->
  r = Raise e
  /\ files w' = files w /\ tables w' = tables w
  /\ temp_count w' = temp_count w
  /\ exists evs, trace w' = trace w ++ evs /\ Forall is_selector_call evs.
Proof.
  intros Hd H0 H1 Hs Hi Hdup Hw Hsel E.
  destruct w as [F fs ts n fa tr]. cbn in Hd |- *.
  by_wp E. apply (to_sql_cases df d); try assumption.
  - intros e0 evs F' HF HE. cbn.
    assert (e0 = e /\ Forall is_selector_call evs) as [-> Hevs].
    { destruct HE as [ | | | | d0 e0 _ _ _ Hw0 Hdel
                     | d0 delim0 e0 _ _ _ Hw0 Hdel Hq
                     | d0 delim0 q0 b _ _ _ Hw0 Hdel Hq _ _ ];
        try congruence;
        assert (d0 = d') as -> by congruence;
        destruct Hsel as [Hsel | [[delim Hsel] Hsel']];
        try congruence; (split; [congruence|]);
        repeat constructor. }
    repeat split; try reflexivity. eauto.
  - intros d0 delim0 e0 evs written temps F' HF Hok HE. exfalso.
    destruct Hok as (_ & _ & _ & Hw0 & Hdel & [q Hq] & _).
    assert (d0 = d') as -> by congruence.
    destruct Hsel as [Hsel | [_ Hsel]]; congruence.
  - intros d0 delim0 fmt r0 evs ts' F' HF Hok Hsok HO. exfalso.
    destruct Hok as (_ & _ & _ & Hw0 & Hdel & [q Hq] & _).
    assert (d0 = d') as -> by congruence.
    destruct Hsel as [Hsel | [_ Hsel]]; congruence.
Qed.

(** X17.  Under [append] on a table that is not there, with arguments that
    pass the checks and no failure of an external call: [to_sql] asks the
    catalog for the table and, all the same, for its columns, makes the
    table with the columns of the frame, runs [bcp] and returns; the
    files are removed unless [debug] is set. *)
Theorem to_sql_append_absent df d d' delim table_name sql_type schema index
    batch_size debug bcp_path dtypes keys error_path w r w' :
  frames w !! df = Some d ->
  shape0 d <> 0%nat -> shape1 d <> 0%nat ->
  prelude_ok sql_type "append" index batch_size d d' delim ->
  tables w !! (schema, table_name) = None ->
  faults w = no_faults ->
  to_sql df table_name sql_type schema index "append" batch_size debug
    bcp_path dtypes keys error_path w = (r, w') ->
  let p0 := temp_name (temp_count w) in
  let p1 := temp_name (S (temp_count w)) in
  debug = true \/ p0 <> p1 ->
  exists fmt,
    build_format_file d' delim (Some ∅) = Ok fmt
    /\ r = Ok tt
    /\ tables w' = <[(schema, table_name) := table_columns d']> (tables w)
    /\ trace w'
       = trace w
         ++ [EvGetDelimiter d'; EvGetQuotechar d';
             EvWriteCsv p0 (flat_file d' delim);
             EvQueryExists sql_type schema table_name;
             EvQueryColumns schema table_name;
             EvWriteFormat p1 fmt;
             EvCreateTable schema table_name (map py_str_label (columns d'));
             EvBcp (bcp_args table_name sql_type schema batch_size bcp_path
                      error_path p0 p1)]
         ++ (if debug then [] else [EvRemove p0; EvRemove p1]).
Proof.
  intros Hd H0 H1 Hok Ht Hfa E p0 p1 Hclean.
  assert (Hnd : no_drift (tables w) schema table_name "append" d')
    by (intros _ cols Hc; congruence).
  destruct (build_format_file_reconciled (tables w) schema table_name
              "append" d' delim Hnd) as [fmt Hfmt].
  assert (Hsok : scratch_ok (tables w) (faults w) schema table_name "append"
                   d' delim fmt).
  { rewrite Hfa. repeat split; try reflexivity; assumption. }
  destruct (to_sql_reaches_try _ _ _ _ _ _ _ _ _ _ _ _ _ _ _ _ _ _ _
              Hd H0 H1 Hok Hsok E) as (r0 & evs & HO & Hr & _ & _ & Htr).
  fold p0 p1 in HO, Hr, Htr.
  exists fmt. split.
  { revert Hfmt. unfold reconciled_cols, catalog_rows. now rewrite Ht. }
  destruct HO as [cols Hfail _ | _ Hcf | _ _ | cols _ Ht'];
    [discriminate Hfail | rewrite Hfa in Hcf; discriminate Hcf | |
     congruence].
  split.
  { rewrite Hr, Hfa. unfold cleanup_result, bcp_result. cbn.
    destruct Hclean as [-> | Hne]; [reflexivity|].
    destruct debug; [reflexivity|]. now rewrite bool_decide_eq_false_2. }
  split; [reflexivity|].
  rewrite Htr. unfold query_events, ddl_events, cleanup_events.
  rewrite Ht. repeat tidy_trace. reflexivity.
Qed.

End ToSql.

(** * The statements on sample inputs *)

(** [to_sql] with the sample helpers. *)
Local Abbreviation sample_to_sql :=
  (to_sql sample_newline sample_get_delimiter sample_get_quotechar
     sample_temp_name sample_host_type).

Lemma sample_options (s : string) :
  s = "append" \/ s = "replace" \/ s = "fail" -> s ∈ IF_EXISTS_OPTIONS.
Proof.
  unfold IF_EXISTS_OPTIONS.
  intros [-> | [-> | ->]]; repeat constructor.
Defined.

Lemma sample_paths_differ : sample_temp_name 0 <> sample_temp_name 1.
Proof. vm_compute. discriminate. Defined.

Lemma sample_prelude_ok if_exists batch_size :
  if_exists = "append" \/ if_exists = "replace" \/ if_exists = "fail" ->
  batch_size_ok batch_size sample_frame ->
  prelude_ok sample_get_delimiter sample_get_quotechar "table" if_exists false
    batch_size sample_frame sample_frame ",".
Proof.
  intros Hp Hb. unfold prelude_ok.
  split; [reflexivity|]. split; [now apply sample_options|].
  split; [reflexivity|]. split; [reflexivity|]. split; [reflexivity|].
  split; [now exists DQUOTE | exact Hb].
Defined.

(** C1.  A frame with a column the table lacks, under [append], without
    [debug]: [to_sql] raises the drift error, the flat file it wrote is
    still there when it has returned, and no file was removed. *)
Theorem to_sql_drift_leaves_flat_file :
  let w := sample_world sample_frame sample_tables_narrower no_faults in
  let run := sample_to_sql 0%nat "t" "table" "dbo" false "append" None false
               None None None None w in
  files w = ∅
  /\ run.1 = Raise (BCPandasValueError (MsgExtraColumns ["name"]))
  /\ files run.2 !! sample_temp_name 0
     = Some (FlatFile (flat_file sample_newline sample_frame ","))
  /\ trace run.2
     = [EvGetDelimiter sample_frame; EvGetQuotechar sample_frame;
        EvWriteCsv (sample_temp_name 0)
          (flat_file sample_newline sample_frame ",");
        EvQueryExists "table" "dbo" "t"; EvQueryColumns "dbo" "t"]
  /\ (forall p, EvRemove p ∉ trace run.2).
Proof.
  intros w run.
  assert (Htr : trace run.2
     = [EvGetDelimiter sample_frame; EvGetQuotechar sample_frame;
        EvWriteCsv (sample_temp_name 0)
          (flat_file sample_newline sample_frame ",");
        EvQueryExists "table" "dbo" "t"; EvQueryColumns "dbo" "t"])
    by (vm_compute; reflexivity).
  split; [reflexivity|]. split; [vm_compute; reflexivity|].
  split; [vm_compute; reflexivity|]. split; [exact Htr|].
  intros p Hin. rewrite Htr in Hin.
  repeat (apply elem_of_cons in Hin as [Hin | Hin]; [discriminate Hin|]).
  now apply elem_of_nil in Hin.
Qed.

(** [to_sql_empty_frame_noop] on a frame without rows. *)
Lemma to_sql_empty_frame_noop_sample :
  let w := sample_world sample_empty sample_tables_none no_faults in
  frames w !! 0%nat = Some sample_empty
  /\ shape0 sample_empty = 0%nat
  /\ sample_to_sql 0%nat "t" "table" "dbo" false "fail" None false
       None None None None w = (Ok tt, w).
Proof.
  intros w. split; [reflexivity|]. split; [reflexivity|].
  apply (to_sql_empty_frame_noop sample_newline sample_get_delimiter
           sample_get_quotechar sample_temp_name sample_host_type
           0%nat sample_empty).
  - reflexivity.
  - left. reflexivity.
Defined.

(** [to_sql_duplicate_columns] on a frame with the label [a] twice. *)
Lemma to_sql_duplicate_columns_sample :
  let w := sample_world sample_duplicates sample_tables_none no_faults in
  frames w !! 0%nat = Some sample_duplicates
  /\ columns sample_duplicates !! 0%nat = columns sample_duplicates !! 1%nat
  /\ sample_to_sql 0%nat "t" "table" "dbo" false "fail" None false
       None None None None w
     = (Raise (BCPandasValueError (MsgDuplicateColumns [LStr "a"; LStr "a"])), w).
Proof.
  intros w. split; [reflexivity|]. split; [reflexivity|].
  destruct (to_sql_duplicate_columns sample_newline sample_get_delimiter
              sample_get_quotechar sample_temp_name sample_host_type
              0%nat sample_duplicates "t" "table" "dbo" false "fail" None false
              None None None None w) as (e & Hrun & _ & He).
  - reflexivity.
  - discriminate.
  - discriminate.
  - exists 0%nat, 1%nat, (LStr "a"). split; [discriminate|]. split; reflexivity.
  - rewrite Hrun, He.
    + reflexivity.
    + reflexivity.
    + apply sample_options. auto.
Defined.

(** [to_sql_bad_batch_size] on a batch size of zero. *)
Lemma to_sql_bad_batch_size_sample :
  let w := sample_world sample_frame sample_tables_none no_faults in
  let run := sample_to_sql 0%nat "t" "table" "dbo" false "fail" (Some 0) false
               None None None None w in
  frames w !! 0%nat = Some sample_frame
  /\ run.1 = Raise (BCPandasValueError MsgBatchSizeZero)
  /\ files run.2 = files w /\ tables run.2 = tables w
  /\ temp_count run.2 = temp_count w
  /\ (forall args, EvBcp args ∉ trace run.2).
Proof.
  intros w run. split; [reflexivity|].
  destruct (to_sql_bad_batch_size sample_newline sample_get_delimiter
              sample_get_quotechar sample_temp_name sample_host_type
              0%nat sample_frame "t" "table" "dbo" false "fail" 0 false
              None None None None w run.1 run.2)
    as (e & Hr & Hf & Ht & Hc & (evs & Htr & Hsel) & He & _).
  - reflexivity.
  - discriminate.
  - discriminate.
  - left. reflexivity.
  - apply surjective_pairing.
  - split.
    { rewrite Hr. f_equal.
      apply (He eq_refl (sample_options _ (or_intror (or_intror eq_refl)))
               eq_refl sample_frame "," DQUOTE); reflexivity. }
    split; [exact Hf|]. split; [exact Ht|]. split; [exact Hc|].
    intros args Hin. rewrite Htr in Hin. cbn in Hin.
    rewrite Forall_forall in Hsel. exact (Hsel _ Hin).
Defined.

(** A batch size of zero with [index=True] on a frame that has the columns
    [index] and [level_0]: [to_sql] ends at line 261, before the batch
    size is looked at, with the error of [reset_index], which is not a
    validation error. *)
Lemma to_sql_bad_batch_size_after_reset_index :
  let w := sample_world sample_reserved_labels sample_tables_none no_faults in
  let run := sample_to_sql 0%nat "t" "table" "dbo" true "fail" (Some 0) false
               None None None None w in
  frames w !! 0%nat = Some sample_reserved_labels
  /\ shape0 sample_reserved_labels = 1%nat
  /\ shape1 sample_reserved_labels = 2%nat
  /\ has_duplicates (columns sample_reserved_labels) = false
  /\ run.1 = Raise (ValueError "cannot insert level_0, already exists")
  /\ validation_error (ValueError "cannot insert level_0, already exists")
     = false
  /\ files run.2 = files w /\ trace run.2 = [].
Proof.
  intros w run. repeat split; vm_compute; reflexivity.
Qed.

(** [to_sql_index_materialized] on a call with [index=True]. *)
Lemma to_sql_index_materialized_sample :
  let w := sample_world sample_frame sample_tables_none no_faults in
  let run := sample_to_sql 0%nat "t" "table" "dbo" true "fail" None false
               None None None None w in
  frames w !! 0%nat = Some sample_frame
  /\ frames run.2 !! 0%nat = Some sample_frame
  /\ exists d' rest,
       reset_index sample_frame = Some d'
       /\ columns d' = [LStr "index"; LStr "id"; LStr "name"]
       /\ trace run.2 = EvGetDelimiter d' :: rest.
Proof.
  intros w run. split; [reflexivity|].
  destruct (to_sql_index_materialized sample_newline sample_get_delimiter
              sample_get_quotechar sample_temp_name sample_host_type
              0%nat sample_frame "t" "table" "dbo" "fail" None false
              None None None None w run.1 run.2)
    as (Hfr & evs & Htr & _ & Hfirst).
  - reflexivity.
  - apply surjective_pairing.
  - split; [apply Hfr; reflexivity|].
    destruct (Hfirst ltac:(discriminate) ltac:(discriminate) eq_refl
                (sample_options _ (or_intror (or_intror eq_refl))) eq_refl
                (default sample_frame (reset_index sample_frame)) eq_refl)
      as [rest Hevs].
    exists (default sample_frame (reset_index sample_frame)), rest.
    split; [reflexivity|]. split; [reflexivity|].
    rewrite Htr, Hevs. reflexivity.
Defined.


(** [to_sql_bcp_error_file] on a call without [error_path], and on one
    with it. *)
Lemma to_sql_bcp_error_file_sample :
  let w := sample_world sample_frame sample_tables_wider no_faults in
  let run := sample_to_sql 0%nat "t" "table" "dbo" false "append" None false
               None None None None w in
  let run' := sample_to_sql 0%nat "t" "table" "dbo" false "append" None false
                None None None (Some "/var/log") w in
  frames w !! 0%nat = Some sample_frame
  /\ (exists args, EvBcp args ∈ trace run.2)
  /\ (forall args, EvBcp args ∈ trace run.2 ->
        bcp_error_file_path args = "None/t_bcp_error.txt")
  /\ (exists args, EvBcp args ∈ trace run'.2)
  /\ (forall args, EvBcp args ∈ trace run'.2 ->
        bcp_error_file_path args = "/var/log/t_bcp_error.txt").
Proof.
  intros w run run'. split; [reflexivity|].
  destruct (to_sql_bcp_error_file sample_newline sample_get_delimiter
              sample_get_quotechar sample_temp_name sample_host_type
              0%nat sample_frame "t" "table" "dbo" false "append" None false
              None None None None w run.1 run.2)
    as (evs & Htr & Hbcp); [reflexivity | apply surjective_pairing |].
  destruct (to_sql_bcp_error_file sample_newline sample_get_delimiter
              sample_get_quotechar sample_temp_name sample_host_type
              0%nat sample_frame "t" "table" "dbo" false "append" None false
              None None None (Some "/var/log") w run'.1 run'.2)
    as (evs' & Htr' & Hbcp'); [reflexivity | apply surjective_pairing |].
  split; [|split; [|split]].
  - exists (bcp_args "t" "table" "dbo" None None None
              (sample_temp_name 0) (sample_temp_name 1)).
    vm_compute. repeat constructor.
  - intros args Hin. rewrite Htr in Hin.
    destruct (Hbcp args Hin) as (_ & _ & Hnone).
    destruct (Hnone eq_refl) as [-> _]. reflexivity.
  - exists (bcp_args "t" "table" "dbo" None None (Some "/var/log")
              (sample_temp_name 0) (sample_temp_name 1)).
    vm_compute. repeat constructor.
  - intros args Hin. rewrite Htr' in Hin.
    destruct (Hbcp' args Hin) as (_ & Hsome & _).
    rewrite (Hsome "/var/log" eq_refl). reflexivity.
Defined.

(** [to_sql_destination_ordinals] under [append] on a table that has the
    columns of the frame in another order, and under [fail] on a table
    that is not there. *)
Lemma to_sql_destination_ordinals_sample :
  let w := sample_world sample_frame sample_tables_wider no_faults in
  let run := sample_to_sql 0%nat "t" "table" "dbo" false "append" None false
               None None None None w in
  let v := sample_world sample_frame sample_tables_none no_faults in
  let run' := sample_to_sql 0%nat "t" "table" "dbo" false "fail" None false
                None None None None v in
  frames w !! 0%nat = Some sample_frame
  /\ columns sample_frame = [LStr "id"; LStr "name"]
  /\ tables w !! ("dbo", "t") = Some [("name", 1); ("extra", 2); ("id", 3)]
  /\ (exists fmt, EvWriteFormat (sample_temp_name 1) fmt ∈ trace run.2)
  /\ (forall p fmt, EvWriteFormat p fmt ∈ trace run.2 ->
        map file_ordinal fmt = [1; 2]
        /\ map destination_ordinal fmt = [3; 1])
  /\ tables v !! ("dbo", "t") = None
  /\ (exists fmt, EvWriteFormat (sample_temp_name 1) fmt ∈ trace run'.2)
  /\ (forall p fmt, EvWriteFormat p fmt ∈ trace run'.2 ->
        map file_ordinal fmt = [1; 2]
        /\ map destination_ordinal fmt = [1; 2]).
Proof.
  intros w run v run'. split; [reflexivity|]. split; [reflexivity|].
  split; [reflexivity|].
  destruct (to_sql_destination_ordinals sample_newline sample_get_delimiter
              sample_get_quotechar sample_temp_name sample_host_type
              0%nat sample_frame "t" "table" "dbo" false "append" None false
              None None None None w run.1 run.2)
    as (evs & Htr & Hfmt & Hex); [reflexivity | apply surjective_pairing |].
  destruct (to_sql_destination_ordinals sample_newline sample_get_delimiter
              sample_get_quotechar sample_temp_name sample_host_type
              0%nat sample_frame "t" "table" "dbo" false "fail" None false
              None None None None v run'.1 run'.2)
    as (evs' & Htr' & Hfmt' & Hex'); [reflexivity | apply surjective_pairing |].
  split; [|split; [|split; [|split]]].
  - destruct (Hex sample_frame ",") as [fmt Hin].
    + discriminate.
    + discriminate.
    + apply sample_prelude_ok; [auto | exact I].
    + reflexivity.
    + reflexivity.
    + reflexivity.
    + intros _ cols Hc x Hx.
      assert (E : Some [("name", 1); ("extra", 2); ("id", 3)] = Some cols)
        by exact Hc.
      injection E as <-. cbn in Hx |- *.
      apply elem_of_cons in Hx as [-> | Hx]; [set_solver|].
      apply elem_of_cons in Hx as [-> | Hx]; [set_solver|].
      now apply elem_of_nil in Hx.
    + exists fmt. rewrite Htr. exact Hin.
  - intros p fmt Hin. rewrite Htr in Hin.
    destruct (Hfmt p fmt Hin) as (d' & Hwf & Hlen & Hcols).
    injection Hwf as <-.
    destruct fmt as [|fd0 [|fd1 [|fd2 fmt]]]; try discriminate Hlen.
    destruct (Hcols 0%nat (LStr "id") fd0 eq_refl eq_refl)
      as (Hf0 & _ & _ & Hd0).
    destruct (Hcols 1%nat (LStr "name") fd1 eq_refl eq_refl)
      as (Hf1 & _ & _ & Hd1).
    destruct (Hd0 eq_refl [("name", 1); ("extra", 2); ("id", 3)] eq_refl)
      as (k0 & Hk0 & _).
    destruct (Hd1 eq_refl [("name", 1); ("extra", 2); ("id", 3)] eq_refl)
      as (k1 & Hk1 & _).
    cbn [map]. rewrite Hf0, Hf1. split; [reflexivity|].
    destruct k0 as [|[|[|k0]]]; try discriminate Hk0.
    destruct k1 as [|[|[|k1]]]; try discriminate Hk1.
    injection Hk0 as <-. injection Hk1 as <-. reflexivity.
  - reflexivity.
  - destruct (Hex' sample_frame ",") as [fmt Hin].
    + discriminate.
    + discriminate.
    + apply sample_prelude_ok; [auto | exact I].
    + reflexivity.
    + reflexivity.
    + discriminate.
    + discriminate.
    + exists fmt. rewrite Htr'. exact Hin.
  - intros p fmt Hin. rewrite Htr' in Hin.
    destruct (Hfmt' p fmt Hin) as (d' & Hwf & Hlen & Hcols).
    injection Hwf as <-.
    destruct fmt as [|fd0 [|fd1 [|fd2 fmt]]]; try discriminate Hlen.
    destruct (Hcols 0%nat (LStr "id") fd0 eq_refl eq_refl)
      as (Hf0 & _ & Hd0 & _).
    destruct (Hcols 1%nat (LStr "name") fd1 eq_refl eq_refl)
      as (Hf1 & _ & Hd1 & _).
    cbn [map]. rewrite (Hd0 (or_intror eq_refl)), (Hd1 (or_intror eq_refl)).
    rewrite Hf0, Hf1. split; reflexivity.
Defined.

(** [to_sql_fail_policy] on a table that is there, and on one that is
    not. *)
Lemma to_sql_fail_policy_sample :
  let w := sample_world sample_frame sample_tables_narrower no_faults in
  let run := sample_to_sql 0%nat "t" "table" "dbo" false "fail" None false
               None None None None w in
  let v := sample_world sample_frame sample_tables_none no_faults in
  let run' := sample_to_sql 0%nat "t" "table" "dbo" false "fail" None false
                None None None None v in
  (frames w !! 0%nat = Some sample_frame
   /\ tables w !! ("dbo", "t") = Some [("id", 1)]
   /\ run.1 = Raise (BCPandasValueError (MsgAlreadyExists "table" "dbo" "t"))
   /\ tables run.2 = tables w)
  /\ (frames v !! 0%nat = Some sample_frame
      /\ tables v !! ("dbo", "t") = None
      /\ run'.1 = Ok tt
      /\ tables run'.2 !! ("dbo", "t") = Some (table_columns sample_frame)).
Proof.
  intros w run v run'. split.
  - split; [reflexivity|]. split; [reflexivity|].
    destruct (to_sql_fail_policy sample_newline sample_get_delimiter
                sample_get_quotechar sample_temp_name sample_host_type
                0%nat sample_frame "t" "table" "dbo" false None false
                None None None None w run.1 run.2)
      as (evs & _ & Hthere & _).
    + reflexivity.
    + apply surjective_pairing.
    + destruct (Hthere _ eq_refl) as (Ht & _ & _ & Hr).
      split; [|exact Ht].
      apply (Hr sample_frame ","); try reflexivity; try discriminate.
      * apply sample_prelude_ok; [auto | exact I].
      * right. exact sample_paths_differ.
  - split; [reflexivity|]. split; [reflexivity|].
    destruct (to_sql_fail_policy sample_newline sample_get_delimiter
                sample_get_quotechar sample_temp_name sample_host_type
                0%nat sample_frame "t" "table" "dbo" false None false
                None None None None v run'.1 run'.2)
      as (evs & _ & _ & Habsent).
    + reflexivity.
    + apply surjective_pairing.
    + destruct (Habsent eq_refl) as (_ & Hr).
      destruct (Hr sample_frame ",") as (Hok & Htab & _);
        try reflexivity; try discriminate.
      * apply sample_prelude_ok; [auto | exact I].
      * right. exact sample_paths_differ.
      * split; assumption.
Defined.

(** [to_sql_append_existing] on a table that has the columns of the frame,
    and on one that lacks the column [name]. *)
Lemma to_sql_append_existing_sample :
  let w := sample_world sample_frame sample_tables_wider no_faults in
  let run := sample_to_sql 0%nat "t" "table" "dbo" false "append" None false
               None None None None w in
  let v := sample_world sample_frame sample_tables_narrower no_faults in
  let run' := sample_to_sql 0%nat "t" "table" "dbo" false "append" None false
                None None None None v in
  (frames w !! 0%nat = Some sample_frame
   /\ tables w !! ("dbo", "t") = Some [("name", 1); ("extra", 2); ("id", 3)]
   /\ run.1 = Ok tt
   /\ tables run.2 = tables w)
  /\ (frames v !! 0%nat = Some sample_frame
      /\ tables v !! ("dbo", "t") = Some [("id", 1)]
      /\ run'.1 = Raise (BCPandasValueError (MsgExtraColumns ["name"]))
      /\ (forall args, EvBcp args ∉ trace run'.2)).
Proof.
  intros w run v run'. split.
  - split; [reflexivity|]. split; [reflexivity|].
    destruct (to_sql_append_existing sample_newline sample_get_delimiter
                sample_get_quotechar sample_temp_name sample_host_type
                0%nat sample_frame sample_frame ","
                [("name", 1); ("extra", 2); ("id", 3)]
                "t" "table" "dbo" false None false
                None None None None w run.1 run.2)
      as (evs & _ & Ht & Hsup & _).
    + reflexivity.
    + discriminate.
    + discriminate.
    + reflexivity.
    + apply sample_prelude_ok; [auto | exact I].
    + reflexivity.
    + reflexivity.
    + reflexivity.
    + apply surjective_pairing.
    + split; [|exact Ht].
      destruct Hsup as (_ & Hload).
      * intros x Hx. cbn in Hx.
        apply elem_of_cons in Hx as [-> | Hx]; [cbn; repeat constructor|].
        apply elem_of_cons in Hx as [-> | Hx]; [cbn; repeat constructor|].
        now apply elem_of_nil in Hx.
      * destruct (Hload eq_refl) as (_ & Hok).
        apply Hok; [reflexivity|]. right. exact sample_paths_differ.
  - split; [reflexivity|]. split; [reflexivity|].
    destruct (to_sql_append_existing sample_newline sample_get_delimiter
                sample_get_quotechar sample_temp_name sample_host_type
                0%nat sample_frame sample_frame "," [("id", 1)]
                "t" "table" "dbo" false None false
                None None None None v run'.1 run'.2)
      as (evs & Htr & _ & _ & Hdrift).
    + reflexivity.
    + discriminate.
    + discriminate.
    + reflexivity.
    + apply sample_prelude_ok; [auto | exact I].
    + reflexivity.
    + reflexivity.
    + reflexivity.
    + apply surjective_pairing.
    + destruct Hdrift as (Hr & _ & Hnobcp).
      * exists (LStr "name"). split; [cbn; repeat constructor|].
        cbn. intros Hin. apply elem_of_cons in Hin as [Hin | Hin];
          [discriminate Hin | now apply elem_of_nil in Hin].
      * split; [rewrite Hr; reflexivity|].
        intros args Hin. rewrite Htr in Hin. exact (Hnobcp args Hin).
Defined.

(** * The further properties on sample inputs *)

Lemma sample_scratch_ok ts fa if_exists :
  if_exists <> "append" ->
  csv_write_fails fa = false -> exists_query_fails fa = false ->
  format_write_fails fa = false ->
  scratch_ok sample_newline sample_host_type ts fa "dbo" "t" if_exists
    sample_frame "," sample_format_file.
Proof.
  intros Ha Hc Hq Hf. unfold scratch_ok.
  split; [exact Hc|]. split; [exact Hq|].
  split; [intros Ha'; contradiction|].
  split; [intros Ha'; contradiction|].
  split; [|exact Hf].
  unfold reconciled_cols.
  rewrite (bool_decide_eq_false_2 (if_exists = "append")) by assumption.
  reflexivity.
Defined.

(** [to_sql_finally_removes_files] on a first load under [fail]. *)
Lemma to_sql_finally_removes_files_sample :
  let w := sample_world sample_frame sample_tables_none no_faults in
  let run := sample_to_sql 0%nat "t" "table" "dbo" false "fail" None false
               None None None None w in
  frames w !! 0%nat = Some sample_frame
  /\ files run.2 !! sample_temp_name 0 = None
  /\ files run.2 !! sample_temp_name 1 = None
  /\ exists evs,
       trace run.2
       = evs ++ [EvRemove (sample_temp_name 0); EvRemove (sample_temp_name 1)].
Proof.
  intros w run. split; [reflexivity|].
  destruct (to_sql_finally_removes_files sample_newline sample_get_delimiter
              sample_get_quotechar sample_temp_name sample_host_type
              0%nat sample_frame sample_frame "," sample_format_file
              "t" "table" "dbo" false "fail" None
              None None None None w run.1 run.2)
    as (_ & Hp0 & Hp1 & evs & Htr & _).
  - reflexivity.
  - discriminate.
  - discriminate.
  - apply sample_prelude_ok; [auto | exact I].
  - apply sample_scratch_ok; [discriminate | reflexivity..].
  - apply surjective_pairing.
  - split; [exact Hp0|]. split; [exact Hp1|]. exists evs. exact Htr.
Defined.

(** [to_sql_debug_keeps_files] on a first load under [fail] with
    [debug]. *)
Lemma to_sql_debug_keeps_files_sample :
  let w := sample_world sample_frame sample_tables_none no_faults in
  let run := sample_to_sql 0%nat "t" "table" "dbo" false "fail" None true
               None None None None w in
  frames w !! 0%nat = Some sample_frame
  /\ files run.2 !! sample_temp_name 0
     = Some (FlatFile (flat_file sample_newline sample_frame ","))
  /\ files run.2 !! sample_temp_name 1 = Some (FormatFile sample_format_file)
  /\ (forall p, EvRemove p ∉ trace run.2).
Proof.
  intros w run. split; [reflexivity|].
  destruct (to_sql_debug_keeps_files sample_newline sample_get_delimiter
              sample_get_quotechar sample_temp_name sample_host_type
              0%nat sample_frame sample_frame "," sample_format_file
              "t" "table" "dbo" false "fail" None
              None None None None w run.1 run.2)
    as (_ & Hp1 & Hp0 & evs & Htr & Hno).
  - reflexivity.
  - discriminate.
  - discriminate.
  - apply sample_prelude_ok; [auto | exact I].
  - apply sample_scratch_ok; [discriminate | reflexivity..].
  - apply surjective_pairing.
  - split; [exact (Hp0 sample_paths_differ)|]. split; [exact Hp1|].
    intros p. rewrite Htr. exact (Hno p).
Defined.

(** [to_sql_failed_exists_query] on a catalog that cannot be queried. *)
Lemma to_sql_failed_exists_query_sample :
  let w := sample_world sample_frame sample_tables_none
             sample_exists_query_fails in
  let run := sample_to_sql 0%nat "t" "table" "dbo" false "fail" None false
               None None None None w in
  frames w !! 0%nat = Some sample_frame
  /\ exists_query_fails (faults w) = true
  /\ run.1 = Raise (DatabaseError "INFORMATION_SCHEMA.TABLES")
  /\ files run.2
     = {[ sample_temp_name 0
          := FlatFile (flat_file sample_newline sample_frame ",") ]}.
Proof.
  intros w run. split; [reflexivity|]. split; [reflexivity|].
  destruct (to_sql_failed_exists_query sample_newline sample_get_delimiter
              sample_get_quotechar sample_temp_name sample_host_type
              0%nat sample_frame sample_frame ","
              "t" "table" "dbo" false "fail" None false
              None None None None w run.1 run.2)
    as (Hr & Hf & _).
  - reflexivity.
  - discriminate.
  - discriminate.
  - apply sample_prelude_ok; [auto | exact I].
  - reflexivity.
  - reflexivity.
  - apply surjective_pairing.
  - split; [exact Hr | exact Hf].
Defined.

(** [to_sql_replace_policy] on a table that is there. *)
Lemma to_sql_replace_policy_sample :
  let w := sample_world sample_frame sample_tables_narrower no_faults in
  let run := sample_to_sql 0%nat "t" "table" "dbo" false "replace" None false
               None None None None w in
  frames w !! 0%nat = Some sample_frame
  /\ tables w !! ("dbo", "t") = Some [("id", 1)]
  /\ run.1 = Ok tt
  /\ tables run.2 !! ("dbo", "t") = Some [("id", 1); ("name", 2)]
  /\ EvDropTable "dbo" "t" ∈ trace run.2.
Proof.
  intros w run. split; [reflexivity|]. split; [reflexivity|].
  destruct (to_sql_replace_policy sample_newline sample_get_delimiter
              sample_get_quotechar sample_temp_name sample_host_type
              0%nat sample_frame sample_frame ","
              "t" "table" "dbo" false None false
              None None None None w run.1 run.2)
    as (fmt & _ & Hr & Ht & Htr).
  - reflexivity.
  - discriminate.
  - discriminate.
  - apply sample_prelude_ok; [auto | exact I].
  - reflexivity.
  - apply surjective_pairing.
  - right. exact sample_paths_differ.
  - split; [exact Hr|]. split; [rewrite Ht; reflexivity|].
    rewrite Htr. cbn. repeat constructor.
Defined.

(** [to_sql_touches_only_target] on a database with two tables. *)
Lemma to_sql_touches_only_target_sample :
  let w := sample_world sample_frame sample_tables_two no_faults in
  let run := sample_to_sql 0%nat "t" "table" "dbo" false "replace" None false
               None None None None w in
  frames w !! 0%nat = Some sample_frame
  /\ tables w !! ("dbo", "u") = Some [("x", 1)]
  /\ tables run.2 !! ("dbo", "u") = Some [("x", 1)].
Proof.
  intros w run. split; [reflexivity|]. split; [reflexivity|].
  destruct (to_sql_touches_only_target sample_newline sample_get_delimiter
              sample_get_quotechar sample_temp_name sample_host_type
              0%nat sample_frame "t" "table" "dbo" false "replace" None false
              None None None None w run.1 run.2)
    as (Hother & _).
  - reflexivity.
  - apply surjective_pairing.
  - rewrite (Hother ("dbo", "u")); [reflexivity | discriminate].
Defined.

(** [to_sql_flat_file_dialect] with a selector that chooses the single
    quote. *)
Lemma to_sql_flat_file_dialect_sample :
  let w := sample_world sample_frame sample_tables_none no_faults in
  let run := to_sql sample_newline sample_get_delimiter
               sample_get_quotechar_single sample_temp_name sample_host_type
               0%nat "t" "table" "dbo" false "fail" None false
               None None None None w in
  frames w !! 0%nat = Some sample_frame
  /\ sample_get_quotechar_single sample_frame = Ok "'"
  /\ (exists csv, EvWriteCsv (sample_temp_name 0) csv ∈ trace run.2)
  /\ (forall p csv, EvWriteCsv p csv ∈ trace run.2 ->
        p = sample_temp_name 0 /\ csv_quotechar csv = DQUOTE
        /\ csv_sep csv = ",").
Proof.
  intros w run. split; [reflexivity|]. split; [reflexivity|].
  destruct (to_sql_flat_file_dialect sample_newline sample_get_delimiter
              sample_get_quotechar_single sample_temp_name sample_host_type
              0%nat sample_frame "t" "table" "dbo" false "fail" None false
              None None None None w run.1 run.2)
    as (evs & Htr & Hcsv & Hex).
  - reflexivity.
  - apply surjective_pairing.
  - split.
    + destruct (Hex sample_frame "," "'") as (csv & Hin & _).
      * discriminate.
      * discriminate.
      * unfold prelude_ok.
        split; [reflexivity|]. split; [apply sample_options; auto|].
        split; [reflexivity|]. split; [reflexivity|]. split; [reflexivity|].
        split; [now exists "'" | exact I].
      * reflexivity.
      * exists csv. rewrite Htr. exact Hin.
    + intros p csv Hin. rewrite Htr in Hin.
      destruct (Hcsv p csv Hin) as (Hp & _ & _ & _ & Hq & _ & d' & Hw & Hdel).
      split; [exact Hp|]. split; [exact Hq|].
      injection Hdel as <-. reflexivity.
Defined.

(** [to_sql_assertions] on a view, and on a policy that does not exist. *)
Lemma to_sql_assertions_sample :
  let w := sample_world sample_frame sample_tables_none no_faults in
  frames w !! 0%nat = Some sample_frame
  /\ sample_to_sql 0%nat "t" "view" "dbo" false "fail" None false
       None None None None w
     = (Raise (AssertionError "only supporting table, not view, for now"), w)
  /\ sample_to_sql 0%nat "t" "table" "dbo" false "upsert" None false
       None None None None w
     = (Raise (AssertionError EmptyString), w).
Proof.
  intros w. split; [reflexivity|]. split.
  - apply (to_sql_assertions sample_newline sample_get_delimiter
             sample_get_quotechar sample_temp_name sample_host_type
             0%nat sample_frame "t" "view" "dbo" false "fail" None false
             None None None None w); [reflexivity | discriminate..].
  - apply (to_sql_assertions sample_newline sample_get_delimiter
             sample_get_quotechar sample_temp_name sample_host_type
             0%nat sample_frame "t" "table" "dbo" false "upsert" None false
             None None None None w);
      [reflexivity | discriminate | discriminate | reflexivity |].
    unfold IF_EXISTS_OPTIONS. intros Hin.
    repeat (apply elem_of_cons in Hin as [Hin | Hin]; [discriminate Hin|]).
    now apply elem_of_nil in Hin.
Defined.

(** [to_sql_bcp_failure_keeps_table] on a first load whose [bcp] fails. *)
Lemma to_sql_bcp_failure_keeps_table_sample :
  let w := sample_world sample_frame sample_tables_none sample_bcp_fails in
  let run := sample_to_sql 0%nat "t" "table" "dbo" false "fail" None false
               None None None None w in
  frames w !! 0%nat = Some sample_frame
  /\ tables w !! ("dbo", "t") = None
  /\ bcp_fails (faults w) = true
  /\ run.1 = Raise BcpFailed
  /\ tables run.2 !! ("dbo", "t") = Some [("id", 1); ("name", 2)]
  /\ files run.2 !! sample_temp_name 0 = None
  /\ files run.2 !! sample_temp_name 1 = None.
Proof.
  intros w run. split; [reflexivity|]. split; [reflexivity|].
  split; [reflexivity|].
  apply (to_sql_bcp_failure_keeps_table sample_newline sample_get_delimiter
           sample_get_quotechar sample_temp_name sample_host_type
           0%nat sample_frame sample_frame "," sample_format_file
           "t" "table" "dbo" false "fail" None
           None None None None w run.1 run.2).
  - reflexivity.
  - discriminate.
  - discriminate.
  - apply sample_prelude_ok; [auto | exact I].
  - apply sample_scratch_ok; [discriminate | reflexivity..].
  - left. reflexivity.
  - reflexivity.
  - reflexivity.
  - apply surjective_pairing.
  - exact sample_paths_differ.
Defined.

(** [to_sql_bcp_after_files] on an appending load. *)
Lemma to_sql_bcp_after_files_sample :
  let w := sample_world sample_frame sample_tables_wider no_faults in
  let run := sample_to_sql 0%nat "t" "table" "dbo" false "append" (Some 2)
               false None None None None w in
  frames w !! 0%nat = Some sample_frame
  /\ (exists args, EvBcp args ∈ trace run.2)
  /\ (forall args, EvBcp args ∈ trace run.2 ->
        bcp_sql_item args = "t" /\ bcp_direction args = "in"
        /\ bcp_batch_size args = Some 2
        /\ exists csv fmt,
             EvWriteCsv (bcp_flat_file args) csv ∈ trace run.2
             /\ EvWriteFormat (bcp_format_file_path args) fmt ∈ trace run.2).
Proof.
  intros w run. split; [reflexivity|].
  destruct (to_sql_bcp_after_files sample_newline sample_get_delimiter
              sample_get_quotechar sample_temp_name sample_host_type
              0%nat sample_frame "t" "table" "dbo" false "append" (Some 2)
              false None None None None w run.1 run.2)
    as (evs & Htr & Hbcp).
  - reflexivity.
  - apply surjective_pairing.
  - split.
    + exists (bcp_args "t" "table" "dbo" (Some 2) None None
                (sample_temp_name 0) (sample_temp_name 1)).
      vm_compute. repeat constructor.
    + intros args Hin. rewrite Htr in Hin |- *.
      destruct (Hbcp args Hin)
        as (pre & post & csv & fmt & -> & Hcsv & Hfmt & _ & _
            & Hi & Hdir & _ & _ & Hb & _).
      split; [exact Hi|]. split; [exact Hdir|]. split; [exact Hb|].
      exists csv, fmt.
      split; apply elem_of_app; right; apply elem_of_app; left; assumption.
Defined.

(** [to_sql_selector_failure] with a selector that finds no quote
    character. *)
Lemma to_sql_selector_failure_sample :
  let w := sample_world sample_frame sample_tables_none no_faults in
  let run := to_sql sample_newline sample_get_delimiter
               sample_get_quotechar_fails sample_temp_name sample_host_type
               0%nat "t" "table" "dbo" false "fail" None false
               None None None None w in
  frames w !! 0%nat = Some sample_frame
  /\ sample_get_quotechar_fails sample_frame
     = Raise (SelectorError "no quote character")
  /\ run.1 = Raise (SelectorError "no quote character")
  /\ files run.2 = files w /\ tables run.2 = tables w
  /\ temp_count run.2 = temp_count w.
Proof.
  intros w run. split; [reflexivity|]. split; [reflexivity|].
  destruct (to_sql_selector_failure sample_newline sample_get_delimiter
              sample_get_quotechar_fails sample_temp_name sample_host_type
              0%nat sample_frame sample_frame
              (SelectorError "no quote character")
              "t" "table" "dbo" false "fail" None false
              None None None None w run.1 run.2)
    as (Hr & Hf & Ht & Hc & _).
  - reflexivity.
  - discriminate.
  - discriminate.
  - reflexivity.
  - apply sample_options. auto.
  - reflexivity.
  - reflexivity.
  - right. split; [now exists ","|reflexivity].
  - apply surjective_pairing.
  - repeat split; assumption.
Defined.

(** [to_sql_append_absent] on a first load under [append]. *)
Lemma to_sql_append_absent_sample :
  let w := sample_world sample_frame sample_tables_none no_faults in
  let run := sample_to_sql 0%nat "t" "table" "dbo" false "append" None false
               None None None None w in
  frames w !! 0%nat = Some sample_frame
  /\ tables w !! ("dbo", "t") = None
  /\ run.1 = Ok tt
  /\ tables run.2 !! ("dbo", "t") = Some [("id", 1); ("name", 2)]
  /\ EvQueryColumns "dbo" "t" ∈ trace run.2.
Proof.
  intros w run. split; [reflexivity|]. split; [reflexivity|].
  destruct (to_sql_append_absent sample_newline sample_get_delimiter
              sample_get_quotechar sample_temp_name sample_host_type
              0%nat sample_frame sample_frame ","
              "t" "table" "dbo" false None false
              None None None None w run.1 run.2)
    as (fmt & _ & Hr & Ht & Htr).
  - reflexivity.
  - discriminate.
  - discriminate.
  - apply sample_prelude_ok; [auto | exact I].
  - reflexivity.
  - reflexivity.
  - apply surjective_pairing.
  - right. exact sample_paths_differ.
  - split; [exact Hr|]. split; [rewrite Ht; reflexivity|].
    rewrite Htr. cbn [app]. repeat constructor.
Defined.

(** * [SqlCreds] *)

(** ** Strings *)

Lemma string_app_nil_r (s : string) : s +:+ EmptyString = s.
Proof.
  induction s as [|x s IH]; [reflexivity|].
  change (String x (s +:+ EmptyString) = String x s). now rewrite IH.
Qed.

Lemma string_app_assoc (a b c : string) : (a +:+ b) +:+ c = a +:+ (b +:+ c).
Proof.
  induction a as [|x a IH]; [reflexivity|].
  change (String x ((a +:+ b) +:+ c) = String x (a +:+ (b +:+ c))).
  now rewrite IH.
Qed.

Lemma has_char_app c (a b : string) :
  has_char c (a +:+ b) = has_char c a || has_char c b.
Proof.
  induction a as [|x a IH]; [reflexivity|].
  change (has_char c (String x (a +:+ b))
          = has_char c (String x a) || has_char c b).
  cbn [has_char]. destruct (decide (x = c)); [reflexivity | exact IH].
Qed.

Lemma py_split_no_sep c (a : string) :
  has_char c a = false -> py_split c a = [a].
Proof.
  induction a as [|x a IH]; [reflexivity|]. cbn [has_char py_split].
  destruct (decide (x = c)); [discriminate|]. intros H. now rewrite IH.
Qed.

Lemma py_split_app_sep c (a b : string) :
  has_char c a = false ->
  py_split c (a +:+ String c b) = a :: py_split c b.
Proof.
  induction a as [|x a IH].
  - intros _. change (py_split c (String c b) = EmptyString :: py_split c b).
    cbn [py_split]. now rewrite decide_True.
  - cbn [has_char]. destruct (decide (x = c)) as [|Hne]; [discriminate|].
    intros H. change (py_split c (String x (a +:+ String c b))
                      = String x a :: py_split c b).
    cbn [py_split]. rewrite decide_False by assumption. now rewrite IH.
Qed.

(** Splitting undoes joining, for pieces without the separator. *)
Lemma py_split_join c (l : list string) :
  l <> [] -> Forall (fun a => has_char c a = false) l ->
  py_split c (py_join (String c EmptyString) l) = l.
Proof.
  intros Hne Hall. induction Hall as [|a l Ha Hall IH]; [contradiction|].
  destruct l as [|b l].
  - cbn [py_join String.concat]. now apply py_split_no_sep.
  - unfold py_join in *.
    change (String.concat (String c EmptyString) (a :: b :: l))
      with (a +:+ String c (String.concat (String c EmptyString) (b :: l))).
    rewrite py_split_app_sep by assumption. f_equal. now apply IH.
Qed.

Lemma pretty_N_char_digit x : digit (pretty_N_char x) = true.
Proof. unfold pretty_N_char. repeat case_match; reflexivity. Qed.

Lemma has_char_pretty_N_go c (x : N) (s : string) :
  digit c = false ->
  has_char c (pretty_N_go x s) = has_char c s.
Proof.
  intros Hc. revert s.
  induction (N.lt_wf_0 x) as [x _ IH]. intros s.
  destruct (decide (x = 0)%N) as [->|Hx]; [now rewrite pretty_N_go_0|].
  rewrite pretty_N_go_step by lia.
  rewrite IH by (apply N.div_lt; lia).
  cbn [has_char]. destruct (decide (pretty_N_char (x `mod` 10) = c)) as [<-|];
    [|reflexivity].
  now rewrite pretty_N_char_digit in Hc.
Qed.

Lemma has_char_zero c : digit c = false -> has_char c "0" = false.
Proof.
  unfold digit. cbn [has_char].
  destruct (decide (_ = c)); [discriminate|reflexivity].
Qed.

Lemma has_char_pretty_N c (x : N) :
  digit c = false -> has_char c (pretty x) = false.
Proof.
  intros Hc. unfold pretty, pretty_N.
  destruct (decide (x = 0)%N); [now apply has_char_zero|].
  now rewrite has_char_pretty_N_go.
Qed.

(** A character that is neither a digit nor the sign is not in the text
    of a number. *)
Lemma has_char_pretty_Z c (z : Z) :
  digit c = false -> c <> Ascii.ascii_of_nat 45 ->
  has_char c (pretty z) = false.
Proof.
  intros Hc Hdash. unfold pretty, pretty_Z. destruct z as [|p|p].
  - now apply has_char_zero.
  - now apply has_char_pretty_N.
  - rewrite has_char_app. cbn [has_char].
    rewrite decide_False by (intros E; apply Hdash; now rewrite <- E).
    now apply has_char_pretty_N.
Qed.

Lemma string_length_app (a b : string) :
  String.length (a +:+ b) = (String.length a + String.length b)%nat.
Proof.
  induction a as [|x a IH]; [reflexivity|].
  change (String x a +:+ b) with (String x (a +:+ b)). cbn [String.length].
  now rewrite IH.
Qed.

Lemma string_app_inj_l (a x y : string) : a +:+ x = a +:+ y -> x = y.
Proof.
  induction a as [|c a IH]; [intros H; exact H|].
  change (String c a +:+ x) with (String c (a +:+ x)).
  change (String c a +:+ y) with (String c (a +:+ y)).
  intros [= H]. now apply IH.
Qed.

Lemma string_app_inj_r (s x y : string) : x +:+ s = y +:+ s -> x = y.
Proof.
  revert y. induction x as [|c x IH]; intros [|c' y] H.
  - reflexivity.
  - exfalso. apply (f_equal String.length) in H.
    change (String c' y +:+ s) with (String c' (y +:+ s)) in H.
    change (EmptyString +:+ s) with s in H.
    cbn [String.length] in H. rewrite string_length_app in H. lia.
  - exfalso. apply (f_equal String.length) in H.
    change (String c x +:+ s) with (String c (x +:+ s)) in H.
    change (EmptyString +:+ s) with s in H.
    cbn [String.length] in H. rewrite string_length_app in H. lia.
  - change (String c x +:+ s) with (String c (x +:+ s)) in H.
    change (String c' y +:+ s) with (String c' (y +:+ s)) in H.
    injection H as -> H. f_equal. now apply IH.
Qed.

(** [sep.join] of a list that is not empty and one more element. *)
Lemma py_join_snoc sep (l : list string) (x : string) :
  l <> [] -> py_join sep (l ++ [x]) = py_join sep l +:+ sep +:+ x.
Proof.
  unfold py_join. induction l as [|a l IH]; [contradiction|]. intros _.
  destruct l as [|b l].
  - reflexivity.
  - change (String.concat sep ((a :: b :: l) ++ [x]))
      with (a +:+ sep +:+ String.concat sep ((b :: l) ++ [x])).
    change (String.concat sep (a :: b :: l))
      with (a +:+ sep +:+ String.concat sep (b :: l)).
    rewrite IH by discriminate. now rewrite !string_app_assoc.
Qed.

(** ** The constructor and [__repr__] *)

Section SqlCredsFacts.

Variable quote_plus : string -> string.
Variable create_engine : string -> Engine.
Variable py_int : string -> option Z.
Variable py_repr : PyVal -> string.

Local Abbreviation __repr__ := (SqlCreds.__repr__ py_repr).
Local Abbreviation __init__ := (SqlCreds.__init__ quote_plus create_engine py_repr).
Local Abbreviation db_url := (SqlCreds.db_url py_repr).
Local Abbreviation url_segments := (SqlCreds.url_segments py_repr).
Local Abbreviation from_engine :=
  (SqlCreds.from_engine quote_plus create_engine py_int py_repr).

(** The text [__repr__] makes of a finished object: the attributes but
    the password, each with its [repr], the engine last among them, and
    then the redacted password. *)
Lemma repr_items clsName (c : SqlCreds.t) :
  __repr__ clsName (SqlCreds.items c)
  = (clsName +:+ "("
     +:+ py_join ", "
           (map (fun kv => kv.1 +:+ "=" +:+ py_repr kv.2)
              (filter (fun kv => kv.1 <> "password") (SqlCreds.logged_items c)))
     +:+ ", ")
    +:+ "engine=" +:+ py_repr (VEngine (SqlCreds.engine c))
    +:+ ", password=[REDACTED])".
Proof.
  unfold SqlCreds.__repr__, SqlCreds.items.
  rewrite bool_decide_eq_true_2
    by (rewrite fmap_app; apply elem_of_app; left;
        apply list_elem_of_lookup; exists 5%nat; reflexivity).
  rewrite filter_app, map_app.
  rewrite (filter_cons_True _ ("engine", VEngine (SqlCreds.engine c)))
    by discriminate.
  rewrite filter_nil. cbn [map fst snd].
  rewrite py_join_snoc by discriminate.
  rewrite !string_app_assoc. reflexivity.
Qed.

(** X10.  [__repr__] redacts the attribute [password] and prints the
    others with [repr], the engine among them.  For two objects
    [__init__] made of the same arguments but the password (both given,
    or both missing or empty) the two texts are the same up to the text
    of the engine, so they are equal exactly when [repr] gives the two
    engines the same text: the text of a finished object depends on the
    password through its engine, whose URL holds it (lines 99-100). *)
Theorem SqlCreds_repr_engine_text clsName server database username
    (password1 password2 : option string) driver_version port odbc_kwargs :
  py_truthy_str password1 = py_truthy_str password2 ->
  let c1 := (__init__ server database username password1 driver_version port
               odbc_kwargs).1 in
  let c2 := (__init__ server database username password2 driver_version port
               odbc_kwargs).1 in
  let text1 := __repr__ clsName (SqlCreds.items c1) in
  let text2 := __repr__ clsName (SqlCreds.items c2) in
  (exists before,
     text1 = before +:+ "engine=" +:+ py_repr (VEngine (SqlCreds.engine c1))
             +:+ ", password=[REDACTED])"
     /\ text2 = before +:+ "engine=" +:+ py_repr (VEngine (SqlCreds.engine c2))
                +:+ ", password=[REDACTED])")
  /\ (text1 = text2
      <-> py_repr (VEngine (SqlCreds.engine c1))
          = py_repr (VEngine (SqlCreds.engine c2))).
Proof.
  intros Ht c1 c2 text1 text2. subst text1 text2.
  assert (Hshown :
    filter (fun kv => kv.1 <> "password") (SqlCreds.logged_items c1)
    = filter (fun kv : string * PyVal => kv.1 <> "password")
        (SqlCreds.logged_items c2)).
  { subst c1 c2. unfold SqlCreds.__init__, SqlCreds.logged_items.
    cbn [fst SqlCreds.server SqlCreds.database SqlCreds.port SqlCreds.driver
         SqlCreds.username SqlCreds.password SqlCreds.with_krb_auth].
    rewrite Ht. reflexivity. }
  rewrite !repr_items, <- Hshown. split.
  - eexists. split; reflexivity.
  - split.
    + intros H. apply string_app_inj_l in H. apply string_app_inj_l in H.
      now apply string_app_inj_r in H.
    + intros ->. reflexivity.
Qed.

(** X11.  What [__init__] logs does not depend on the password it is
    given, beyond whether there is one: with the same other arguments,
    two passwords that are both given (or both missing or empty) lead to
    the same record in the log. *)
Theorem SqlCreds_init_log_hides_password server database username
    (password1 password2 : option string) driver_version port odbc_kwargs :
  py_truthy_str password1 = py_truthy_str password2 ->
  (__init__ server database username password1 driver_version port
     odbc_kwargs).2
  = (__init__ server database username password2 driver_version port
       odbc_kwargs).2.
Proof.
  intros H. unfold SqlCreds.__init__. cbn [snd]. rewrite H.
  reflexivity.
Qed.

(** X12.  An object made by [__init__] has a user name and a password, the
    ones it was given, or neither, and [with_krb_auth] says which: it is
    set exactly when the user name is empty, and exactly when the
    password is empty.  In particular a user name given without a
    password is dropped. *)
Theorem SqlCreds_init_login server database username password
    driver_version port odbc_kwargs :
  let c := (__init__ server database username password driver_version port
              odbc_kwargs).1 in
  (SqlCreds.with_krb_auth c = true <-> SqlCreds.username c = EmptyString)
  /\ (SqlCreds.with_krb_auth c = true <-> SqlCreds.password c = EmptyString)
  /\ (SqlCreds.with_krb_auth c = false ->
      username = Some (SqlCreds.username c)
      /\ password = Some (SqlCreds.password c))
  /\ (username = None \/ password = None -> SqlCreds.with_krb_auth c = true).
Proof.
  unfold SqlCreds.__init__. cbn [fst SqlCreds.with_krb_auth SqlCreds.username
                                 SqlCreds.password].
  destruct username as [[|a u]|], password as [[|b p]|];
    cbn [py_truthy_str andb negb default];
    repeat split; try discriminate; try reflexivity;
      intros []; discriminate.
Qed.

(** ** [from_engine] *)

Lemma py_startswith_tcp s :
  py_startswith "tcp:" s = true -> has_char COLON s = true.
Proof.
  destruct s as [|a [|b [|c [|d s]]]]; cbn [py_startswith];
    repeat (case_decide; [|discriminate]); try discriminate.
  intros _. subst. reflexivity.
Qed.

Lemma py_replace_no_colon s :
  has_char COLON s = false -> py_replace_from "tcp:" EmptyString 0 s = s.
Proof.
  induction s as [|x s IH]; [reflexivity|]. intros H.
  cbn [py_replace_from].
  destruct (py_startswith "tcp:" (String x s)) eqn:E.
  { apply py_startswith_tcp in E. congruence. }
  f_equal. apply IH. cbn [has_char] in H.
  now destruct (decide (x = COLON)).
Qed.

Lemma py_replace_tcp x :
  has_char COLON x = false ->
  py_replace "tcp:" EmptyString ("tcp:" +:+ x) = x.
Proof.
  intros H. unfold py_replace.
  change (py_replace_from "tcp:" EmptyString 0 ("tcp:" +:+ x))
    with (py_replace_from "tcp:" EmptyString 0 x).
  now apply py_replace_no_colon.
Qed.

Lemma py_split_key_value k x :
  has_char EQUALS k = false -> has_char EQUALS x = false ->
  py_split EQUALS (k +:+ String EQUALS x) = [k; x].
Proof.
  intros Hk Hx. rewrite py_split_app_sep by assumption.
  now rewrite py_split_no_sep.
Qed.

(** The dictionary of a connection string made of segments without
    semicolon. *)
Lemma conn_dict_join (segs : list string) :
  segs <> [] -> Forall (fun a => has_char SEMICOLON a = false) segs ->
  SqlCreds.conn_dict (py_join (String SEMICOLON EmptyString) segs)
  = py_dict_str
      (map (fun x => (py_item (py_split EQUALS x) 0, py_item (py_split EQUALS x) 1))
         (filter (fun x => has_char EQUALS x = true) segs)).
Proof.
  intros Hne Hall. unfold SqlCreds.conn_dict. now rewrite py_split_join.
Qed.

Lemma driver_name_clean c v :
  digit c = false -> has_char c "{ODBC Driver  for SQL Server}-" = false ->
  has_char c (SqlCreds.driver_name v) = false.
Proof.
  intros Hd Hc. unfold SqlCreds.driver_name. rewrite !has_char_app.
  rewrite has_char_pretty_Z; [| assumption |].
  - revert Hc. cbn [has_char]. repeat case_decide; try discriminate.
    reflexivity.
  - intros ->. discriminate Hc.
Qed.

Lemma port_str_clean c port :
  digit c = false -> has_char c ",-" = false ->
  (py_truthy port = true -> exists p, port = VInt p) ->
  has_char c (SqlCreds.port_str py_repr port) = false.
Proof.
  intros Hd Hc Hp. unfold SqlCreds.port_str.
  destruct (py_truthy port); [|reflexivity].
  destruct (Hp eq_refl) as [p ->]. cbn [SqlCreds.py_str].
  rewrite has_char_app, has_char_pretty_Z; [| assumption |].
  - revert Hc. cbn [has_char]. repeat case_decide; try discriminate.
    reflexivity.
  - intros ->. discriminate Hc.
Qed.

Lemma db_url_join server database username password driver_version port :
  db_url server database username password driver_version port None
  = py_join (String SEMICOLON EmptyString)
      (url_segments server database username password driver_version port).
Proof.
  unfold SqlCreds.db_url, SqlCreds.url_segments, py_join.
  destruct (py_truthy_str username && py_truthy_str password);
    cbn [app String.concat]; rewrite !string_app_assoc; reflexivity.
Qed.

(** How [from_engine] goes on once it has the entries it needs. *)
Lemma from_engine_created e s srv db port :
  url_query e !! "odbc_connect" = Some s ->
  SqlCreds.conn_dict s !! "Server" = Some srv ->
  (if has_char COMMA srv
   then match py_int (py_item (py_split COMMA srv) 1) with
        | Some z => Ok (VInt z)
        | None => Raise (ValueError (py_item (py_split COMMA srv) 1))
        end
   else Ok (match SqlCreds.conn_dict s !! "port" with
            | Some p => VStr p
            | None => VNone
            end)) = Ok port ->
  SqlCreds.conn_dict s !! "Database" = Some db ->
  let c := (__init__
              (py_item (py_split COMMA (py_replace "tcp:" EmptyString srv)) 0)
              db (SqlCreds.conn_dict s !! "UID") (SqlCreds.conn_dict s !! "PWD")
              17 port None).1 in
  from_engine e
  = SqlCreds.Created
      {| SqlCreds.server := SqlCreds.server c;
         SqlCreds.database := SqlCreds.database c;
         SqlCreds.port := SqlCreds.port c;
         SqlCreds.driver := SqlCreds.driver c;
         SqlCreds.username := SqlCreds.username c;
         SqlCreds.password := SqlCreds.password c;
         SqlCreds.with_krb_auth := SqlCreds.with_krb_auth c;
         SqlCreds.engine := e |}.
Proof.
  intros He Hs Hp Hd c. unfold SqlCreds.from_engine.
  rewrite He, Hs, Hp, Hd. reflexivity.
Qed.

Ltac dict_lookup :=
  unfold py_dict_str; cbn [foldl fst snd];
  repeat first [ rewrite lookup_insert_eq
               | rewrite lookup_insert_ne by discriminate
               | rewrite lookup_empty ].

(** What [from_engine] finds in the entry [Server] that [__init__] wrote:
    the server, and the port when there is one. *)
Lemma server_entry server port :
  has_char COMMA server = false -> has_char COLON server = false ->
  (py_truthy port = true ->
   exists p, port = VInt p /\ py_int (pretty p) = Some p) ->
  let srv := "tcp:" +:+ server +:+ SqlCreds.port_str py_repr port in
  py_item (py_split COMMA (py_replace "tcp:" EmptyString srv)) 0 = server
  /\ (if has_char COMMA srv
      then match py_int (py_item (py_split COMMA srv) 1) with
           | Some z => Ok (VInt z)
           | None => Raise (ValueError (py_item (py_split COMMA srv) 1))
           end
      else Ok VNone) = Ok (if py_truthy port then port else VNone).
Proof.
  intros Hcomma Hcolon Hport srv. subst srv.
  rewrite py_replace_tcp.
  2:{ rewrite has_char_app, Hcolon.
      apply (port_str_clean COLON); [reflexivity..|].
      intros Ht. destruct (Hport Ht) as (p & -> & _). eauto. }
  unfold SqlCreds.port_str. destruct (py_truthy port) eqn:Ht.
  - destruct (Hport eq_refl) as (p & -> & Hint). cbn [SqlCreds.py_str].
    assert (Hp : has_char COMMA (pretty p) = false)
      by (apply has_char_pretty_Z; [reflexivity | discriminate]).
    change ("," +:+ pretty p) with (String COMMA (pretty p)).
    split.
    + rewrite py_split_app_sep by assumption. reflexivity.
    + rewrite <- string_app_assoc.
      rewrite has_char_app. cbn [has_char]. rewrite decide_True by reflexivity.
      rewrite orb_true_r.
      rewrite py_split_app_sep
        by (rewrite has_char_app; now rewrite Hcomma).
      rewrite py_split_no_sep by assumption.
      cbn [py_item lookup list_lookup default from_option id].
      now rewrite Hint.
  - rewrite !string_app_nil_r. split.
    + now rewrite py_split_no_sep.
    + rewrite has_char_app, Hcomma. reflexivity.
Qed.

(** The dictionary [from_engine] makes of the connection string of
    [__init__]. *)
Lemma conn_dict_url server database username password driver_version port :
  has_char SEMICOLON server = false -> has_char EQUALS server = false ->
  has_char SEMICOLON database = false -> has_char EQUALS database = false ->
  has_char SEMICOLON (default EmptyString username) = false ->
  has_char EQUALS (default EmptyString username) = false ->
  has_char SEMICOLON (default EmptyString password) = false ->
  has_char EQUALS (default EmptyString password) = false ->
  (py_truthy port = true -> exists p, port = VInt p) ->
  SqlCreds.conn_dict
    (db_url server database username password driver_version port None)
  = py_dict_str
      ([("Driver", SqlCreds.driver_name driver_version);
        ("Server", "tcp:" +:+ server +:+ SqlCreds.port_str py_repr port);
        ("Database", database)]
       ++ (if py_truthy_str username && py_truthy_str password
           then [("UID", default EmptyString username);
                 ("PWD", default EmptyString password)]
           else [("Trusted_Connection", "yes")])).
Proof.
  intros Hs1 Hs2 Hd1 Hd2 Hu1 Hu2 Hp1 Hp2 Hport.
  pose proof (driver_name_clean SEMICOLON driver_version eq_refl eq_refl) as Hv1.
  pose proof (driver_name_clean EQUALS driver_version eq_refl eq_refl) as Hv2.
  pose proof (port_str_clean SEMICOLON port eq_refl eq_refl Hport) as Hq1.
  pose proof (port_str_clean EQUALS port eq_refl eq_refl Hport) as Hq2.
  rewrite db_url_join. unfold SqlCreds.url_segments.
  destruct (py_truthy_str username && py_truthy_str password); cbn [app].
  - rewrite conn_dict_join; [|discriminate|].
    2:{ repeat (apply Forall_cons; split); [..|apply Forall_nil_2];
        rewrite ?has_char_app, ?Hs1, ?Hd1, ?Hu1, ?Hp1, ?Hv1, ?Hq1;
        reflexivity. }
    rewrite !filter_cons_True by reflexivity. rewrite filter_nil.
    cbn [map].
    change ("Driver=" +:+ SqlCreds.driver_name driver_version)
      with ("Driver" +:+ String EQUALS (SqlCreds.driver_name driver_version)).
    change ("Server=tcp:" +:+ server +:+ SqlCreds.port_str py_repr port)
      with ("Server" +:+ String EQUALS
              ("tcp:" +:+ server +:+ SqlCreds.port_str py_repr port)).
    change ("Database=" +:+ database)
      with ("Database" +:+ String EQUALS database).
    change ("UID=" +:+ default EmptyString username)
      with ("UID" +:+ String EQUALS (default EmptyString username)).
    change ("PWD=" +:+ default EmptyString password)
      with ("PWD" +:+ String EQUALS (default EmptyString password)).
    rewrite !py_split_key_value
      by (rewrite ?has_char_app, ?Hs2, ?Hd2, ?Hu2, ?Hp2, ?Hv2, ?Hq2;
          reflexivity).
    reflexivity.
  - rewrite conn_dict_join; [|discriminate|].
    2:{ repeat (apply Forall_cons; split); [..|apply Forall_nil_2];
        rewrite ?has_char_app, ?Hs1, ?Hd1, ?Hv1, ?Hq1; reflexivity. }
    rewrite !filter_cons_True by reflexivity.
    rewrite filter_cons_False by discriminate. rewrite filter_nil.
    cbn [map].
    change ("Driver=" +:+ SqlCreds.driver_name driver_version)
      with ("Driver" +:+ String EQUALS (SqlCreds.driver_name driver_version)).
    change ("Server=tcp:" +:+ server +:+ SqlCreds.port_str py_repr port)
      with ("Server" +:+ String EQUALS
              ("tcp:" +:+ server +:+ SqlCreds.port_str py_repr port)).
    change ("Database=" +:+ database)
      with ("Database" +:+ String EQUALS database).
    change "Trusted_Connection=yes"
      with ("Trusted_Connection" +:+ String EQUALS "yes").
    rewrite !py_split_key_value
      by (rewrite ?has_char_app, ?Hs2, ?Hd2, ?Hv2, ?Hq2; reflexivity).
    reflexivity.
Qed.

(** X13.  [from_engine] reads back what [__init__] wrote.  For a server
    name without semicolon, equals sign, comma or colon, a database name,
    user name and password without semicolon or equals sign, and a port
    that is false ([None], 0) or an integer [int] reads back from its
    digits: on an engine whose [odbc_connect] entry is the connection
    string [__init__] makes of them without keyword arguments,
    [from_engine] returns an object with the same server, database, user
    name, password and [with_krb_auth], with that engine, with the port if
    it was true and [None] otherwise, and with the driver of version 17
    whatever the version was. *)
Theorem SqlCreds_from_engine_round_trip server database username password
    driver_version port e :
  has_char SEMICOLON server = false -> has_char EQUALS server = false ->
  has_char COMMA server = false -> has_char COLON server = false ->
  has_char SEMICOLON database = false -> has_char EQUALS database = false ->
  has_char SEMICOLON (default EmptyString username) = false ->
  has_char EQUALS (default EmptyString username) = false ->
  has_char SEMICOLON (default EmptyString password) = false ->
  has_char EQUALS (default EmptyString password) = false ->
  (py_truthy port = true ->
   exists p, port = VInt p /\ py_int (pretty p) = Some p) ->
  url_query e !! "odbc_connect"
  = Some (db_url server database username password driver_version port None) ->
  let c := (__init__ server database username password driver_version port
              None).1 in
  from_engine e
  = SqlCreds.Created
      {| SqlCreds.server := server;
         SqlCreds.database := database;
         SqlCreds.port := if py_truthy port then port else VNone;
         SqlCreds.driver := SqlCreds.driver_name 17;
         SqlCreds.username := SqlCreds.username c;
         SqlCreds.password := SqlCreds.password c;
         SqlCreds.with_krb_auth := SqlCreds.with_krb_auth c;
         SqlCreds.engine := e |}.
Proof.
  intros Hs1 Hs2 Hs3 Hs4 Hd1 Hd2 Hu1 Hu2 Hp1 Hp2 Hport He c.
  assert (Hport' : py_truthy port = true -> exists p, port = VInt p).
  { intros Ht. destruct (Hport Ht) as (p & -> & _). eauto. }
  pose proof (conn_dict_url server database username password driver_version
                port Hs1 Hs2 Hd1 Hd2 Hu1 Hu2 Hp1 Hp2 Hport') as Hdict.
  destruct (server_entry server port Hs3 Hs4 Hport) as [Hsrv Hprt].
  set (s := db_url server database username password driver_version port None)
    in *.
  assert (Hserver : SqlCreds.conn_dict s !! "Server"
            = Some ("tcp:" +:+ server +:+ SqlCreds.port_str py_repr port)).
  { rewrite Hdict.
    destruct (py_truthy_str username && py_truthy_str password); cbn [app];
      dict_lookup; reflexivity. }
  assert (Hdb : SqlCreds.conn_dict s !! "Database" = Some database).
  { rewrite Hdict.
    destruct (py_truthy_str username && py_truthy_str password); cbn [app];
      dict_lookup; reflexivity. }
  assert (Hnoport : SqlCreds.conn_dict s !! "port" = None).
  { rewrite Hdict.
    destruct (py_truthy_str username && py_truthy_str password); cbn [app];
      dict_lookup; reflexivity. }
  rewrite (from_engine_created e s _ database
             (if py_truthy port then port else VNone) He Hserver);
    [| now rewrite Hnoport | assumption].
  rewrite Hsrv. subst c. unfold SqlCreds.__init__.
  cbn [fst SqlCreds.server SqlCreds.database SqlCreds.port SqlCreds.driver
       SqlCreds.username SqlCreds.password SqlCreds.with_krb_auth].
  rewrite Hdict.
  destruct username as [[|a u]|], password as [[|b p]|];
    cbn [py_truthy_str andb negb default app]; dict_lookup;
    cbn [py_truthy_str andb negb default]; reflexivity.
Qed.

(** X14.  With a user name, a password and one keyword argument,
    [__init__] puts the keyword argument right after the password,
    without a semicolon between them; [from_engine] then reads, on an
    engine with this connection string, a password that is the password
    followed by the name of the keyword argument. *)
Theorem SqlCreds_kwargs_follow_password server database u p driver_version
    port k val e :
  has_char SEMICOLON server = false -> has_char EQUALS server = false ->
  has_char COMMA server = false -> has_char COLON server = false ->
  has_char SEMICOLON database = false -> has_char EQUALS database = false ->
  has_char SEMICOLON u = false -> has_char EQUALS u = false ->
  has_char SEMICOLON p = false -> has_char EQUALS p = false ->
  has_char SEMICOLON k = false -> has_char EQUALS k = false ->
  has_char SEMICOLON (SqlCreds.py_str py_repr val) = false ->
  u <> EmptyString -> p <> EmptyString ->
  (py_truthy port = true ->
   exists z, port = VInt z /\ py_int (pretty z) = Some z) ->
  let url := db_url server database (Some u) (Some p) driver_version port
               (Some [(k, val)]) in
  url_query e !! "odbc_connect" = Some url ->
  url = db_url server database (Some u) (Some p) driver_version port None
        +:+ k +:+ "=" +:+ SqlCreds.py_str py_repr val
  /\ from_engine e
     = SqlCreds.Created
         {| SqlCreds.server := server;
            SqlCreds.database := database;
            SqlCreds.port := if py_truthy port then port else VNone;
            SqlCreds.driver := SqlCreds.driver_name 17;
            SqlCreds.username := u;
            SqlCreds.password := p +:+ k;
            SqlCreds.with_krb_auth := false;
            SqlCreds.engine := e |}.
Proof.
  intros Hs1 Hs2 Hs3 Hs4 Hd1 Hd2 Hu1 Hu2 Hp1 Hp2 Hk1 Hk2 Hv1 Hu Hp Hport url He.
  assert (Hport' : py_truthy port = true -> exists z, port = VInt z).
  { intros Ht. destruct (Hport Ht) as (z & -> & _). eauto. }
  pose proof (driver_name_clean SEMICOLON driver_version eq_refl eq_refl) as Hn1.
  pose proof (driver_name_clean EQUALS driver_version eq_refl eq_refl) as Hn2.
  pose proof (port_str_clean SEMICOLON port eq_refl eq_refl Hport') as Hq1.
  pose proof (port_str_clean EQUALS port eq_refl eq_refl Hport') as Hq2.
  destruct (server_entry server port Hs3 Hs4 Hport) as [Hsrv Hprt].
  destruct u as [|a u]; [contradiction|].
  destruct p as [|b p]; [contradiction|].
  split; [reflexivity|].
  assert (Hurl : url
    = py_join (String SEMICOLON EmptyString)
        ["Driver=" +:+ SqlCreds.driver_name driver_version;
         "Server=tcp:" +:+ server +:+ SqlCreds.port_str py_repr port;
         "Database=" +:+ database;
         "UID=" +:+ String a u;
         "PWD=" +:+ String b p +:+ k +:+ "=" +:+ SqlCreds.py_str py_repr val]).
  { subst url. unfold SqlCreds.db_url, py_join.
    cbn [py_truthy_str andb default map fst snd String.concat].
    rewrite !string_app_assoc. reflexivity. }
  assert (Hdict : SqlCreds.conn_dict url
    = py_dict_str
        [("Driver", SqlCreds.driver_name driver_version);
         ("Server", "tcp:" +:+ server +:+ SqlCreds.port_str py_repr port);
         ("Database", database); ("UID", String a u);
         ("PWD", String b p +:+ k)]).
  { rewrite Hurl. rewrite conn_dict_join; [|discriminate|].
    2:{ repeat (apply Forall_cons; split); [..|apply Forall_nil_2];
        rewrite ?has_char_app, ?Hs1, ?Hd1, ?Hu1, ?Hp1, ?Hk1, ?Hv1, ?Hn1, ?Hq1;
        reflexivity. }
    rewrite !filter_cons_True by reflexivity. rewrite filter_nil.
    cbn [map].
    change ("Driver=" +:+ SqlCreds.driver_name driver_version)
      with ("Driver" +:+ String EQUALS (SqlCreds.driver_name driver_version)).
    change ("Server=tcp:" +:+ server +:+ SqlCreds.port_str py_repr port)
      with ("Server" +:+ String EQUALS
              ("tcp:" +:+ server +:+ SqlCreds.port_str py_repr port)).
    change ("Database=" +:+ database)
      with ("Database" +:+ String EQUALS database).
    change ("UID=" +:+ String a u) with ("UID" +:+ String EQUALS (String a u)).
    rewrite !py_split_key_value
      by (rewrite ?has_char_app, ?Hs2, ?Hd2, ?Hu2, ?Hn2, ?Hq2; reflexivity).
    replace ("PWD=" +:+ String b p +:+ k +:+ "=" +:+ SqlCreds.py_str py_repr val)
      with ("PWD" +:+ String EQUALS
              ((String b p +:+ k)
               +:+ String EQUALS (SqlCreds.py_str py_repr val)))
      by (rewrite !string_app_assoc; reflexivity).
    rewrite py_split_app_sep by reflexivity.
    rewrite py_split_app_sep by (rewrite has_char_app, Hp2, Hk2; reflexivity).
    destruct (py_split EQUALS (SqlCreds.py_str py_repr val)); reflexivity. }
  assert (Hserver : SqlCreds.conn_dict url !! "Server"
            = Some ("tcp:" +:+ server +:+ SqlCreds.port_str py_repr port))
    by (rewrite Hdict; dict_lookup; reflexivity).
  assert (Hdb : SqlCreds.conn_dict url !! "Database" = Some database)
    by (rewrite Hdict; dict_lookup; reflexivity).
  assert (Hnoport : SqlCreds.conn_dict url !! "port" = None)
    by (rewrite Hdict; dict_lookup; reflexivity).
  rewrite (from_engine_created e url _ database
             (if py_truthy port then port else VNone) He Hserver);
    [| now rewrite Hnoport | assumption].
  rewrite Hsrv. unfold SqlCreds.__init__.
  cbn [fst SqlCreds.server SqlCreds.database SqlCreds.port SqlCreds.driver
       SqlCreds.username SqlCreds.password SqlCreds.with_krb_auth].
  rewrite Hdict. dict_lookup. reflexivity.
Qed.

(** X15.  The ways [from_engine] ends, in the order of lines 123-139.
    Without [odbc_connect] entry in the URL, and with one whose connection
    string has no [Server] entry, it raises the error it makes of the
    [KeyError].  With a [Server] entry that has a comma followed by a text
    [int] does not read, it ends with the [ValueError] of [int], which it
    does not catch, whether or not there is a [Database] entry.
    Otherwise, without [Database] entry it raises the error it makes of
    the [KeyError], and with one it returns an object that has the engine
    it was given, that database, the driver of version 17, the port [int]
    read, and that uses Kerberos exactly when it has no user name, and
    exactly when it has no password.  Each outcome has no other cause. *)
Theorem SqlCreds_from_engine_outcomes e :
  (url_query e !! "odbc_connect" = None ->
   from_engine e = SqlCreds.NotParsed (KeyError "odbc_connect"))
  /\ (forall s,
      url_query e !! "odbc_connect" = Some s ->
      (SqlCreds.conn_dict s !! "Server" = None ->
       from_engine e = SqlCreds.NotParsed (KeyError "Server"))
      /\ (forall srv,
          SqlCreds.conn_dict s !! "Server" = Some srv ->
          let port_text := py_item (py_split COMMA srv) 1 in
          (has_char COMMA srv = true -> py_int port_text = None ->
           from_engine e = SqlCreds.Uncaught (ValueError port_text))
          /\ ((has_char COMMA srv = true -> is_Some (py_int port_text)) ->
              (SqlCreds.conn_dict s !! "Database" = None ->
               from_engine e = SqlCreds.NotParsed (KeyError "Database"))
              /\ (forall db,
                  SqlCreds.conn_dict s !! "Database" = Some db ->
                  exists c,
                    from_engine e = SqlCreds.Created c
                    /\ SqlCreds.engine c = e
                    /\ SqlCreds.database c = db
                    /\ SqlCreds.driver c = SqlCreds.driver_name 17
                    /\ (forall z, has_char COMMA srv = true ->
                                  py_int port_text = Some z ->
                                  SqlCreds.port c = VInt z)
                    /\ (SqlCreds.with_krb_auth c = true
                        <-> SqlCreds.username c = EmptyString)
                    /\ (SqlCreds.with_krb_auth c = true
                        <-> SqlCreds.password c = EmptyString)))))
  /\ match from_engine e with
     | SqlCreds.Created c =>
         SqlCreds.engine c = e
         /\ SqlCreds.driver c = SqlCreds.driver_name 17
         /\ (SqlCreds.with_krb_auth c = true <-> SqlCreds.username c = EmptyString)
         /\ (SqlCreds.with_krb_auth c = true <-> SqlCreds.password c = EmptyString)
         /\ exists s, url_query e !! "odbc_connect" = Some s
                      /\ is_Some (SqlCreds.conn_dict s !! "Server")
                      /\ SqlCreds.conn_dict s !! "Database"
                         = Some (SqlCreds.database c)
     | SqlCreds.NotParsed ex =>
         (ex = KeyError "odbc_connect" /\ url_query e !! "odbc_connect" = None)
         \/ exists s, url_query e !! "odbc_connect" = Some s
                      /\ ((ex = KeyError "Server"
                           /\ SqlCreds.conn_dict s !! "Server" = None)
                          \/ (ex = KeyError "Database"
                              /\ SqlCreds.conn_dict s !! "Database" = None))
     | SqlCreds.Uncaught ex =>
         exists s srv,
           url_query e !! "odbc_connect" = Some s
           /\ SqlCreds.conn_dict s !! "Server" = Some srv
           /\ has_char COMMA srv = true
           /\ py_int (py_item (py_split COMMA srv) 1) = None
           /\ ex = ValueError (py_item (py_split COMMA srv) 1)
     end.
Proof.
  split; [|split].
  - intros He. unfold SqlCreds.from_engine. now rewrite He.
  - intros s He. split.
    + intros Hs. unfold SqlCreds.from_engine. now rewrite He, Hs.
    + intros srv Hs port_text. subst port_text. split.
      * intros Hc Hi. unfold SqlCreds.from_engine. now rewrite He, Hs, Hc, Hi.
      * intros Hport. split.
        -- intros Hd. unfold SqlCreds.from_engine. rewrite He, Hs.
           destruct (has_char COMMA srv).
           ++ destruct (Hport eq_refl) as [z ->]. now rewrite Hd.
           ++ now rewrite Hd.
        -- intros db Hd. unfold SqlCreds.from_engine. rewrite He, Hs.
           destruct (has_char COMMA srv).
           ++ destruct (Hport eq_refl) as [z Hz]. rewrite Hz, Hd.
              eexists. split; [reflexivity|].
              unfold SqlCreds.__init__.
              cbn [fst SqlCreds.engine SqlCreds.driver SqlCreds.with_krb_auth
                   SqlCreds.username SqlCreds.password SqlCreds.database
                   SqlCreds.port].
              split; [reflexivity|]. split; [reflexivity|].
              split; [reflexivity|].
              split; [intros z' _ [= ->]; reflexivity|].
              destruct (SqlCreds.conn_dict s !! "UID") as [[|a u]|],
                       (SqlCreds.conn_dict s !! "PWD") as [[|b p]|];
                cbn [py_truthy_str andb negb default];
                repeat split; try discriminate; try reflexivity.
           ++ rewrite Hd. eexists. split; [reflexivity|].
              unfold SqlCreds.__init__.
              cbn [fst SqlCreds.engine SqlCreds.driver SqlCreds.with_krb_auth
                   SqlCreds.username SqlCreds.password SqlCreds.database
                   SqlCreds.port].
              split; [reflexivity|]. split; [reflexivity|].
              split; [reflexivity|].
              split; [intros z' [=]|].
              destruct (SqlCreds.conn_dict s !! "UID") as [[|a u]|],
                       (SqlCreds.conn_dict s !! "PWD") as [[|b p]|];
                cbn [py_truthy_str andb negb default];
                repeat split; try discriminate; try reflexivity.
  - unfold SqlCreds.from_engine.
    destruct (url_query e !! "odbc_connect") as [s|] eqn:He.
    2:{ left. split; reflexivity. }
    destruct (SqlCreds.conn_dict s !! "Server") as [srv|] eqn:Hs.
    2:{ right. exists s. split; [reflexivity|]. left. split; [reflexivity|assumption]. }
    destruct (has_char COMMA srv) eqn:Hc.
    + destruct (py_int (py_item (py_split COMMA srv) 1)) as [z|] eqn:Hi.
      2:{ exists s, srv. auto. }
      destruct (SqlCreds.conn_dict s !! "Database") as [db|] eqn:Hd.
      2:{ right. exists s. split; [reflexivity|]. right.
          split; [reflexivity|assumption]. }
      unfold SqlCreds.__init__.
      cbn [fst SqlCreds.engine SqlCreds.driver SqlCreds.with_krb_auth
           SqlCreds.username SqlCreds.password SqlCreds.database].
      split; [reflexivity|]. split; [reflexivity|].
      destruct (SqlCreds.conn_dict s !! "UID") as [[|a u]|],
               (SqlCreds.conn_dict s !! "PWD") as [[|b p]|];
        cbn [py_truthy_str andb negb default];
        repeat split; try discriminate; try reflexivity; eauto.
    + destruct (SqlCreds.conn_dict s !! "Database") as [db|] eqn:Hd.
      2:{ right. exists s. split; [reflexivity|]. right.
          split; [reflexivity|assumption]. }
      unfold SqlCreds.__init__.
      cbn [fst SqlCreds.engine SqlCreds.driver SqlCreds.with_krb_auth
           SqlCreds.username SqlCreds.password SqlCreds.database].
      split; [reflexivity|]. split; [reflexivity|].
      destruct (SqlCreds.conn_dict s !! "UID") as [[|a u]|],
               (SqlCreds.conn_dict s !! "PWD") as [[|b p]|];
        cbn [py_truthy_str andb negb default];
        repeat split; try discriminate; try reflexivity; eauto.
Qed.

End SqlCredsFacts.

(** ** The statements on [SqlCreds] on sample inputs *)

(** [SqlCreds_repr_engine_text] on two objects that differ in their
    password, with a [repr] that prints the URL of an engine: the text of
    the object holds the password. *)
Lemma SqlCreds_repr_engine_text_sample :
  let c1 := (SqlCreds.__init__ sample_quote_plus sample_create_engine
               sample_py_repr_url "srv" "db" (Some "u") (Some "one") 17
               (VInt 1433) None).1 in
  let c2 := (SqlCreds.__init__ sample_quote_plus sample_create_engine
               sample_py_repr_url "srv" "db" (Some "u") (Some "two") 17
               (VInt 1433) None).1 in
  py_truthy_str (Some "one") = py_truthy_str (Some "two")
  /\ SqlCreds.__repr__ sample_py_repr_url "SqlCreds" (SqlCreds.items c1)
     = "SqlCreds(server='srv', database='db', port=1433, driver='{ODBC Driver 17 for SQL Server}', username='u', with_krb_auth=False, engine=Engine(mssql+pyodbc:///?odbc_connect=Driver={ODBC Driver 17 for SQL Server};Server=tcp:srv,1433;Database=db;UID=u;PWD=one), password=[REDACTED])"
  /\ SqlCreds.__repr__ sample_py_repr_url "SqlCreds" (SqlCreds.items c1)
     <> SqlCreds.__repr__ sample_py_repr_url "SqlCreds" (SqlCreds.items c2).
Proof.
  intros c1 c2. split; [reflexivity|]. split; [vm_compute; reflexivity|].
  intros Heq.
  destruct (SqlCreds_repr_engine_text sample_quote_plus sample_create_engine
              sample_py_repr_url "SqlCreds" "srv" "db" (Some "u")
              (Some "one") (Some "two") 17 (VInt 1433) None eq_refl)
    as [_ [Hengine _]].
  specialize (Hengine Heq). vm_compute in Hengine. discriminate Hengine.
Defined.

(** [SqlCreds_init_log_hides_password] on two passwords. *)
Lemma SqlCreds_init_log_hides_password_sample :
  py_truthy_str (Some "one") = py_truthy_str (Some "other")
  /\ (SqlCreds.__init__ sample_quote_plus sample_create_engine sample_py_repr
        "srv" "db" (Some "u") (Some "one") 17 (VInt 1433) None).2
     = (SqlCreds.__init__ sample_quote_plus sample_create_engine sample_py_repr
          "srv" "db" (Some "u") (Some "other") 17 (VInt 1433) None).2.
Proof.
  split; [reflexivity|].
  apply (SqlCreds_init_log_hides_password sample_quote_plus
           sample_create_engine sample_py_repr).
  reflexivity.
Defined.

(** [SqlCreds_from_engine_round_trip] on the engine of an object made for
    the driver of version 13. *)
Lemma SqlCreds_from_engine_round_trip_sample :
  let c := (SqlCreds.__init__ sample_quote_plus sample_create_engine
              sample_py_repr "srv" "db" (Some "u") (Some "p") 13 (VInt 1433)
              None).1 in
  url_query (SqlCreds.engine c) !! "odbc_connect"
  = Some "Driver={ODBC Driver 13 for SQL Server};Server=tcp:srv,1433;Database=db;UID=u;PWD=p"
  /\ SqlCreds.from_engine sample_quote_plus sample_create_engine sample_py_int
       sample_py_repr (SqlCreds.engine c)
     = SqlCreds.Created
         {| SqlCreds.server := "srv";
            SqlCreds.database := "db";
            SqlCreds.port := VInt 1433;
            SqlCreds.driver := "{ODBC Driver 17 for SQL Server}";
            SqlCreds.username := "u";
            SqlCreds.password := "p";
            SqlCreds.with_krb_auth := false;
            SqlCreds.engine := SqlCreds.engine c |}.
Proof.
  intros c. split; [reflexivity|].
  apply (SqlCreds_from_engine_round_trip sample_quote_plus
           sample_create_engine sample_py_int sample_py_repr
           "srv" "db" (Some "u") (Some "p") 13 (VInt 1433)
           (SqlCreds.engine c)); try reflexivity.
  intros _. exists 1433. split; reflexivity.
Defined.

(** [SqlCreds_kwargs_follow_password] on the keyword argument
    [Encrypt='yes']. *)
Lemma SqlCreds_kwargs_follow_password_sample :
  let c := (SqlCreds.__init__ sample_quote_plus sample_create_engine
              sample_py_repr "srv" "db" (Some "u") (Some "p") 17 (VInt 1433)
              (Some [("Encrypt", VStr "yes")])).1 in
  url_query (SqlCreds.engine c) !! "odbc_connect"
  = Some "Driver={ODBC Driver 17 for SQL Server};Server=tcp:srv,1433;Database=db;UID=u;PWD=pEncrypt=yes"
  /\ SqlCreds.from_engine sample_quote_plus sample_create_engine sample_py_int
       sample_py_repr (SqlCreds.engine c)
     = SqlCreds.Created
         {| SqlCreds.server := "srv";
            SqlCreds.database := "db";
            SqlCreds.port := VInt 1433;
            SqlCreds.driver := "{ODBC Driver 17 for SQL Server}";
            SqlCreds.username := "u";
            SqlCreds.password := "pEncrypt";
            SqlCreds.with_krb_auth := false;
            SqlCreds.engine := SqlCreds.engine c |}.
Proof.
  intros c. split; [reflexivity|].
  apply (SqlCreds_kwargs_follow_password sample_quote_plus
           sample_create_engine sample_py_int sample_py_repr
           "srv" "db" "u" "p" 17 (VInt 1433) "Encrypt" (VStr "yes")
           (SqlCreds.engine c)); try reflexivity; try discriminate.
  intros _. exists 1433. split; reflexivity.
Defined.

(** [SqlCreds_from_engine_outcomes] on an engine whose port is no number
    and that has no [Database] entry, on one with a port and no
    [Database] entry, on one without [Server] entry, on one without
    [odbc_connect] entry, and on one with a user name and no password. *)
Lemma SqlCreds_from_engine_outcomes_sample :
  let from_engine :=
    SqlCreds.from_engine sample_quote_plus sample_create_engine sample_py_int
      sample_py_repr in
  (url_query sample_engine_bad_port !! "odbc_connect"
   = Some "Server=tcp:srv,abc;UID=u"
   /\ SqlCreds.conn_dict "Server=tcp:srv,abc;UID=u" !! "Server"
      = Some "tcp:srv,abc"
   /\ SqlCreds.conn_dict "Server=tcp:srv,abc;UID=u" !! "Database" = None
   /\ sample_py_int "abc" = None
   /\ from_engine sample_engine_bad_port
      = SqlCreds.Uncaught (ValueError "abc"))
  /\ (SqlCreds.conn_dict "Server=tcp:srv,1433;UID=u" !! "Database" = None
      /\ from_engine sample_engine_no_database
         = SqlCreds.NotParsed (KeyError "Database"))
  /\ (SqlCreds.conn_dict "Database=db;UID=u" !! "Server" = None
      /\ from_engine sample_engine_no_server
         = SqlCreds.NotParsed (KeyError "Server"))
  /\ (url_query sample_engine_no_odbc !! "odbc_connect" = None
      /\ from_engine sample_engine_no_odbc
         = SqlCreds.NotParsed (KeyError "odbc_connect"))
  /\ (exists c,
        from_engine sample_engine_kerberos = SqlCreds.Created c
        /\ SqlCreds.engine c = sample_engine_kerberos
        /\ SqlCreds.database c = "db"
        /\ SqlCreds.port c = VInt 1433
        /\ SqlCreds.with_krb_auth c = true
        /\ SqlCreds.username c = EmptyString).
Proof.
  intros from_engine. subst from_engine.
  pose proof (SqlCreds_from_engine_outcomes sample_quote_plus
                sample_create_engine sample_py_int sample_py_repr) as H.
  split; [|split; [|split; [|split]]].
  - split; [reflexivity|]. split; [reflexivity|]. split; [reflexivity|].
    split; [reflexivity|].
    destruct (H sample_engine_bad_port) as (_ & Hs & _).
    destruct (Hs "Server=tcp:srv,abc;UID=u" eq_refl) as [_ Hsrv].
    destruct (Hsrv "tcp:srv,abc" eq_refl) as [Hbad _].
    exact (Hbad eq_refl eq_refl).
  - split; [reflexivity|].
    destruct (H sample_engine_no_database) as (_ & Hs & _).
    destruct (Hs "Server=tcp:srv,1433;UID=u" eq_refl) as [_ Hsrv].
    destruct (Hsrv "tcp:srv,1433" eq_refl) as [_ Hgood].
    destruct (Hgood (fun _ => ex_intro _ 1433 eq_refl)) as [Hnone _].
    exact (Hnone eq_refl).
  - split; [reflexivity|].
    destruct (H sample_engine_no_server) as (_ & Hs & _).
    destruct (Hs "Database=db;UID=u" eq_refl) as [Hnone _].
    exact (Hnone eq_refl).
  - split; [reflexivity|].
    destruct (H sample_engine_no_odbc) as (Hnone & _).
    exact (Hnone eq_refl).
  - destruct (H sample_engine_kerberos) as (_ & Hs & _).
    destruct (Hs "Server=tcp:srv,1433;Database=db;UID=u" eq_refl) as [_ Hsrv].
    destruct (Hsrv "tcp:srv,1433" eq_refl) as [_ Hgood].
    destruct (Hgood (fun _ => ex_intro _ 1433 eq_refl)) as [_ Hdb].
    destruct (Hdb "db" eq_refl) as (c & Hc & He & Hd & _ & Hp & Hk & _).
    exists c. split; [exact Hc|]. split; [exact He|]. split; [exact Hd|].
    split; [exact (Hp 1433 eq_refl eq_refl)|].
    assert (Hu : SqlCreds.username c = EmptyString).
    { vm_compute in Hc. injection Hc as <-. reflexivity. }
    split; [apply Hk; exact Hu | exact Hu].
Defined.

